(** * A radio-controlled stepper clock: decoder and catch-up controller

    Shallow embedding of the two programs of the repository:
    - [main.py]: the DCF77 receiver loop ([computeTime]), its bit classifier,
      frame validation and BCD field extraction, and the minute pulse
      ([pulseminute]);
    - [webtime.py]: the pulse bookkeeping of the network-synchronised clock
      ([pulsessince12], [pulsetoclock], [calcoffset], [sync_clock],
      [clock_loop]).

    Python integers are [Z] (unbounded), [//] and [%] are [Z.div] and
    [Z.modulo] (both floor for a positive divisor), strings are [string],
    lists are [list]. *)

From Stdlib Require Import ZArith List String Ascii Bool Lia QArith.
From Stdlib Require Import Numbers.DecimalString.
Import ListNotations.

Local Open Scope string_scope.
Local Open Scope Z_scope.

(** ** Python built-ins used by the two programs *)

Module Py.

(** The exceptions the programs raise or catch. *)
Inductive exn : Type :=
| OSError
| ValueError
| AssertionError.

(** Result of a pure, fallible expression. *)
Inductive result (A : Type) : Type :=
| Ok (a : A)
| Err (e : exn).
Arguments Ok {A} a.
Arguments Err {A} e.

Definition rbind {A B : Type} (r : result A) (k : A -> result B) : result B :=
  match r with
  | Ok a => k a
  | Err e => Err e
  end.

(** White space as MicroPython's [str.strip] and [int] see it: space, \t,
    \n, \v, \f, \r. *)
Definition is_space (c : ascii) : bool :=
  let n := nat_of_ascii c in
  ((9 <=? n) && (n <=? 13))%nat || (n =? 32)%nat.

Fixpoint lstrip (s : string) : string :=
  match s with
  | EmptyString => EmptyString
  | String c r => if is_space c then lstrip r else s
  end.

Fixpoint rstrip (s : string) : string :=
  match s with
  | EmptyString => EmptyString
  | String c r =>
      let r' := rstrip r in
      if is_space c && String.eqb r' EmptyString then EmptyString
      else String c r'
  end.

(** [s.strip()] *)
Definition strip (s : string) : string := rstrip (lstrip s).

(** [s.split(sep)] for a one-character separator: never the empty list. *)
Fixpoint split (sep : ascii) (s : string) : list string :=
  match s with
  | EmptyString => [EmptyString]
  | String c r =>
      if Ascii.eqb c sep then EmptyString :: split sep r
      else match split sep r with
           | [] => [String c EmptyString]
           | p :: ps => String c p :: ps
           end
  end.

Definition lower_char (c : ascii) : ascii :=
  let n := nat_of_ascii c in
  if ((65 <=? n) && (n <=? 90))%nat then ascii_of_nat (n + 32) else c.

(** [s.lower()] on ASCII text. *)
Fixpoint lower (s : string) : string :=
  match s with
  | EmptyString => EmptyString
  | String c r => String (lower_char c) (lower r)
  end.

(** [str(n)] for an integer. *)
Definition str (n : Z) : string := NilZero.string_of_int (Z.to_int n).

(** [str(b)] for a bool, also what an f-string prints for it. *)
Definition str_bool (b : bool) : string := if b then "True" else "False".

(** [len(s)] *)
Definition len (s : string) : Z := Z.of_nat (String.length s).

Definition digit_of (c : ascii) : option Z :=
  let n := Z.of_nat (nat_of_ascii c) in
  if (48 <=? n) && (n <=? 57) then Some (n - 48) else None.

Fixpoint digits_val (acc : Z) (s : string) : option Z :=
  match s with
  | EmptyString => Some acc
  | String c r =>
      match digit_of c with
      | Some d => digits_val (10 * acc + d) r
      | None => None
      end
  end.

Definition nonempty_digits (s : string) : result Z :=
  match s with
  | EmptyString => Err ValueError
  | _ => match digits_val 0 s with
         | Some v => Ok v
         | None => Err ValueError
         end
  end.

Definition is_digit (c : ascii) : bool :=
  match digit_of c with
  | Some _ => true
  | None => false
  end.

(** Digit groups: a single underscore between two digits is dropped
    ([int("1_0")] is 10); an underscore at either end, or next to another
    one, gives [None].  [after_digit] tells whether the character before
    [s] was a digit. *)
Fixpoint ungroup (after_digit : bool) (s : string) : option string :=
  match s with
  | EmptyString => Some EmptyString
  | String c r =>
      if Ascii.eqb c "_" then
        if after_digit then
          match r with
          | String d _ => if is_digit d then ungroup false r else None
          | EmptyString => None
          end
        else None
      else
        match ungroup (is_digit c) r with
        | Some t => Some (String c t)
        | None => None
        end
  end.

(** The digits of an integer literal, with their groups. *)
Definition grouped_digits (s : string) : result Z :=
  match ungroup false s with
  | Some t => nonempty_digits t
  | None => Err ValueError
  end.

(** [int(s)] in base 10: surrounding white space, an optional sign, then
    decimal digits, which single underscores may group; anything else is
    a [ValueError]. *)
Definition int (s : string) : result Z :=
  match strip s with
  | String "+"%char r => grouped_digits r
  | String "-"%char r => rbind (grouped_digits r) (fun v => Ok (- v))
  | t => grouped_digits t
  end.

(** Plain text: at most 4300 characters, each of them printable ASCII, a
    tab, a line feed, a vertical tab or a form feed, and none an
    underscore.  The Python interpreters differ on other text (which
    characters are white space, where an underscore may stand in a
    number, how long a number may be, what a carriage return becomes in a
    file); on plain text [strip], [split], [int] and a file read after a
    write mean to each of them what they mean here. *)
Definition plain_char (c : ascii) : bool :=
  let n := nat_of_ascii c in
  ((((9 <=? n) && (n <=? 12)) || ((32 <=? n) && (n <=? 126)))
   && negb (n =? 95))%nat.

Fixpoint plain_chars (s : string) : bool :=
  match s with
  | EmptyString => true
  | String c r => plain_char c && plain_chars r
  end.

Definition plain (s : string) : bool :=
  (String.length s <=? 4300)%nat && plain_chars s.

(** [sum(l)] *)
Definition sum (l : list Z) : Z := fold_right Z.add 0 l.

(** [l[i:j]] for [0 <= i <= j]. *)
Definition slice (i j : nat) (l : list Z) : list Z := firstn (j - i) (skipn i l).

(** [l[i]] for an index inside the list (the callers below only index a
    full 59-bit frame or a full sample window). *)
Definition item (l : list Z) (i : nat) : Z := nth i l 0.

End Py.

Import Py.

(** ** main.py: the DCF77 decoder *)

Module Dcf.

(** Constants of [computeTime]. *)
Definition samplespeed : Z := 5.
(** [floor(1000/samplespeed * .35)]: the product is 70.0 in binary floating
    point (single and double precision round it to exactly 70). *)
Definition samples : nat := 70.
Definition noisethreshms : Z := 40.
Definition zerothreshms : Z := 180.

(** [1000/samplespeed * t/1000], the number of samples that last [t] ms.
    Every intermediate value (200, 8000, 8, 36000, 36) is an integer that
    floating point represents exactly, so rationals give the same
    comparisons. *)
Definition thresh_samples (t : Z) : Q :=
  (inject_Z 1000 / inject_Z samplespeed * inject_Z t / inject_Z 1000)%Q.

(** [x > q] and [x <= q] for an integer [x] and a float [q]. *)
Definition gt_q (x : Z) (q : Q) : bool := negb (Qle_bool (inject_Z x) q).
Definition le_q (x : Z) (q : Q) : bool := Qle_bool (inject_Z x) q.

(** [weekday(i)] *)
Definition weekday (i : Z) : string :=
  match i with
  | 1 => "Monday"
  | 2 => "Tuesday"
  | 3 => "Wednesday"
  | 4 => "Thursday"
  | 5 => "Friday"
  | 6 => "Saturday"
  | 7 => "Sunday"
  | _ => "Invalid day of week"
  end.

(** [twodigits(str)] of main.py: pads a one-character string. *)
Definition twodigits (s : string) : string :=
  if len s =? 1 then "0" ++ s else s.

(** The distinguished failure value of [computeTime]. *)
Definition failed : string := "failed".

(** Receiver state of the sampling loop: the sliding window [a], the bits
    collected so far and their count. *)
Record rx : Type := mkRx {
  win : list Z;
  timeInfo : list Z;
  bitNum : Z
}.

(** [a.pop(0); a.append(v)] *)
Definition shift (a : list Z) (v : Z) : list Z := (tl a ++ [v])%list.

(** The cell test: [a[0]==0 and a[1]==1 and sum(a[0:10]) > 7]. *)
Definition edge (a : list Z) : bool :=
  (item a 0 =? 0) && (item a 1 =? 1) && (7 <? sum (slice 0 10 a)).

(** Pulse width the window measures, in milliseconds. *)
Definition duration_ms (a : list Z) : Z := sum a * samplespeed.

(** The classification part of one loop iteration. *)
Definition classify (s : rx) : rx :=
  let a := win s in
  if edge a then
    if gt_q (sum a) (thresh_samples noisethreshms) then
      let ti :=
        if le_q (sum a) (thresh_samples zerothreshms)
        then (timeInfo s ++ [0])%list
        else (timeInfo s ++ [1])%list in
      mkRx a ti (bitNum s + 1)
    else s
  else s.

(** The locals of [computeTime] that a successful decode fills. *)
Inductive zone : Type := CEST | CET.

Record DecodedTime : Type := mkTime {
  minute : Z;
  stunde : Z;
  tag : Z;
  wochentag : Z;
  monat : Z;
  jahr : Z;
  season : zone
}.

(** The frame stage: marker bits, parities, fields, zone.  [None] is the
    early [return radiotime] with [radiotime] still ['failed']. *)
Definition decode (t : list Z) : option DecodedTime :=
  if negb (item t 0 =? 0) || negb (item t 20 =? 1) then None
  else if (sum (slice 21 29 t) mod 2 =? 1)
       || (sum (slice 29 36 t) mod 2 =? 1)
       || (sum (slice 36 59 t) mod 2 =? 1) then None
  else
    let minute := item t 21 + 2 * item t 22 + 4 * item t 23 + 8 * item t 24
                  + 10 * item t 25 + 20 * item t 26 + 40 * item t 27 in
    let stunde := item t 29 + 2 * item t 30 + 4 * item t 31 + 8 * item t 32
                  + 10 * item t 33 + 20 * item t 34 in
    let tag := item t 36 + 2 * item t 37 + 4 * item t 38 + 8 * item t 39
               + 10 * item t 40 + 20 * item t 41 in
    let wochentag := item t 42 + 2 * item t 43 + 4 * item t 44 in
    let monat := item t 45 + 2 * item t 46 + 4 * item t 47 + 8 * item t 48
                 + 10 * item t 49 in
    let jahr := item t 50 + 2 * item t 51 + 4 * item t 52 + 8 * item t 53
                + 10 * item t 54 + 20 * item t 55 + 40 * item t 56
                + 80 * item t 57 in
    if item t 17 =? 1 then
      Some (mkTime minute stunde tag wochentag monat jahr CEST)
    else if item t 18 =? 1 then
      Some (mkTime minute stunde tag wochentag monat jahr CET)
    else None.

(** The string a successful decode returns. *)
Definition radiotime_of (d : DecodedTime) : string :=
  twodigits (str (stunde d)) ++ ":" ++ twodigits (str (minute d)) ++ ":00,"
  ++ weekday (wochentag d) ++ "," ++ str (2000 + jahr d) ++ "-"
  ++ twodigits (str (monat d)) ++ "-" ++ twodigits (str (tag d)).

(** What [computeTime] returns once [bitNum == 59]. *)
Definition frame_result (t : list Z) : string :=
  match decode t with
  | Some d => radiotime_of d
  | None => failed
  end.

(** One iteration of the [while True] loop on the sample [v]: [inl] is the
    state carried to the next iteration, [inr] the returned string. *)
Definition step (s : rx) (v : Z) : rx + string :=
  let s1 := classify (mkRx (shift (win s) v) (timeInfo s) (bitNum s)) in
  if bitNum s1 =? 59 then inr (frame_result (timeInfo s1)) else inl s1.

(** [computeTime(dcf)] on the readings [dcf.value()] delivers, in order;
    [None] when the readings end before a frame is complete. *)
Fixpoint run (s : rx) (vs : list Z) : option string :=
  match vs with
  | [] => None
  | v :: vs' =>
      match step s v with
      | inl s' => run s' vs'
      | inr r => Some r
      end
  end.

Definition init : rx := mkRx (repeat 0 samples) [] 0.

Definition computeTime (vs : list Z) : option string := run init vs.

(** [pulseminute(timestring, a, b)]: the phase pair driven on the two
    lines, the record written to [lastpulseat.txt], and the returned [a]. *)
Record minute_pulse : Type := mkPulse {
  driven : bool * bool;
  written : string;
  returned : bool
}.

Definition tab : string := String (ascii_of_nat 9) EmptyString.

Definition pulseminute (timestring : string) (a b : bool) : minute_pulse :=
  let a := negb a in
  let b := negb b in
  mkPulse (a, b) (timestring ++ tab ++ str_bool a ++ tab ++ str_bool b) a.

(** The phase pair the main loop starts from. *)
Definition initial_phases : bool * bool := (true, false).

(** The main loop's update [a = pulseminute(radiotime, a, b); b = not a]. *)
Definition main_pulse (timestring : string) (ab : bool * bool)
  : (bool * bool) * minute_pulse :=
  let p := pulseminute timestring (fst ab) (snd ab) in
  let a := returned p in
  ((a, negb a), p).

End Dcf.

(** ** webtime.py: the pulse bookkeeping of the stepper clock *)

Module Clock.

Definition pulsefrequency : Z := 60.

Definition tab : string := String (ascii_of_nat 9) EmptyString.

(** What the program does to the outside, in the order it does it. *)
Inductive event : Type :=
| Drive (a b : bool)          (* clock1(int(a)); clock2(int(b)) *)
| Release                     (* clock1(0); clock2(0) *)
| Persist (content : string)  (* lastpulseat.txt rewritten *)
| Baseline (content : string) (* firstruntime.txt rewritten *)
| Forget.                     (* os.remove("lastpulseat.txt") *)

(** The two files of the device and the log of events.  The store is
    reliable: opening a file for reading raises [OSError] exactly when the
    file is absent, and a write replaces the content. *)
Record world : Type := mkWorld {
  lastpulseat : option string;
  firstruntime : option string;
  log : list event
}.

(** Computations: the world is threaded through, and an exception keeps
    the effects that happened before it. *)
Definition M (A : Type) : Type := world -> result A * world.

Definition ret {A : Type} (a : A) : M A := fun w => (Ok a, w).

Definition raise {A : Type} (e : exn) : M A := fun w => (Err e, w).

Definition bind {A B : Type} (c : M A) (k : A -> M B) : M B :=
  fun w =>
    match c w with
    | (Ok a, w') => k a w'
    | (Err e, w') => (Err e, w')
    end.

(** [try: c  except: h e] *)
Definition try_ {A : Type} (c : M A) (h : exn -> M A) : M A :=
  fun w =>
    match c w with
    | (Ok a, w') => (Ok a, w')
    | (Err e, w') => h e w'
    end.

Definition lift {A : Type} (r : result A) : M A := fun w => (r, w).

Declare Scope clock_scope.
Delimit Scope clock_scope with clock.
Notation "x <- c ;; k" := (bind c (fun x => k))
  (at level 61, c at next level, right associativity) : clock_scope.
Notation "' p <- c ;; k" := (bind c (fun x => match x with p => k end))
  (at level 61, p pattern, c at next level, right associativity) : clock_scope.
Notation "c ;;; k" := (bind c (fun _ => k))
  (at level 61, right associativity) : clock_scope.
Local Open Scope clock_scope.

Definition emit (e : event) : M unit :=
  fun w => (Ok tt, mkWorld (lastpulseat w) (firstruntime w) (log w ++ [e])%list).

(** [open("lastpulseat.txt").read()] *)
Definition read_lastpulseat : M string :=
  fun w =>
    match lastpulseat w with
    | Some c => (Ok c, w)
    | None => (Err OSError, w)
    end.

(** [open("firstruntime.txt").read()] *)
Definition read_firstruntime : M string :=
  fun w =>
    match firstruntime w with
    | Some c => (Ok c, w)
    | None => (Err OSError, w)
    end.

(** [with open("lastpulseat.txt", "w") as f: f.write(c)] *)
Definition write_lastpulseat (c : string) : M unit :=
  fun w => (Ok tt, mkWorld (Some c) (firstruntime w) (log w ++ [Persist c])%list).

(** [with open("firstruntime.txt", "w") as f: f.write(c)] *)
Definition write_firstruntime (c : string) : M unit :=
  fun w => (Ok tt, mkWorld (lastpulseat w) (Some c) (log w ++ [Baseline c])%list).

(** [os.remove("lastpulseat.txt")] *)
Definition remove_lastpulseat : M unit :=
  fun w =>
    match lastpulseat w with
    | Some _ => (Ok tt, mkWorld None (firstruntime w) (log w ++ [Forget])%list)
    | None => (Err OSError, w)
    end.

(** [twodigits(n)] of webtime.py. *)
Definition twodigits (n : Z) : string :=
  let s := str n in
  if len s =? 2 then s else "0" ++ s.

(** [f"{twodigits(h)}:{twodigits(m)}"] *)
Definition hm (h m : Z) : string := twodigits h ++ ":" ++ twodigits m.

(** [pulsessince12(timestr)] *)
Definition pulsessince12 (timestr : string) : result Z :=
  match split ":" timestr with
  | p0 :: p1 :: _ =>
      rbind (int p0) (fun h =>
      rbind (int p1) (fun m =>
      let seconds := (h mod 12) * 3600 + m * 60 in
      Ok (seconds / pulsefrequency)))
  | _ => Err ValueError
  end.

(** [h, m = map(int, s.split(":"))]: exactly two parts, both integers. *)
Definition unpack_hm (s : string) : result (Z * Z) :=
  match split ":" s with
  | [p0; p1] =>
      rbind (int p0) (fun h =>
      rbind (int p1) (fun m => Ok (h, m)))
  | _ => Err ValueError
  end.

(** The record line [f"{hm}\t{a}\t{b}"]. *)
Definition record_line (last_hm : string) (a b : bool) : string :=
  last_hm ++ tab ++ str_bool a ++ tab ++ str_bool b.

(** [last_hm, a_str, b_str = content.strip().split("\t")] followed by the
    two comparisons with ["true"]. *)
Definition parse_record (content : string) : result (string * bool * bool) :=
  match split (ascii_of_nat 9) (strip content) with
  | [last_hm; a_str; b_str] =>
      Ok (last_hm, String.eqb (lower a_str) "true", String.eqb (lower b_str) "true")
  | _ => Err ValueError
  end.

(** [pulsetoclock(last_hm, a, b)] *)
Definition pulsetoclock (last_hm : string) (a b : bool) : M (string * bool * bool) :=
  let a := negb a in
  let b := negb b in
  emit (Drive a b) ;;;
  emit Release ;;;
  ' (h, m) <- lift (unpack_hm last_hm) ;;
  let m := m + 1 in
  let h := (h + m / 60) mod 12 in
  let m := m mod 60 in
  let new_hm := hm h m in
  try_ (write_lastpulseat (record_line new_hm a b)) (fun _ => ret tt) ;;;
  ret (new_hm, a, b).

(** The [try] block of [calcoffset]: the persisted state. *)
Definition load_state : M (string * bool * bool * Z) :=
  c <- read_lastpulseat ;;
  ' (last_hm, a, b) <- lift (parse_record c) ;;
  last_p <- lift (pulsessince12 last_hm) ;;
  ret (last_hm, a, b, last_p).

(** The [except OSError] block of [calcoffset]: [None] is the early
    [return None, None, None, None]. *)
Definition bootstrap : M (option (string * bool * bool * Z)) :=
  r <- try_ (c <- read_firstruntime ;; ret (Some (strip c)))
            (fun e => match e with OSError => ret None | _ => raise e end) ;;
  match r with
  | None => ret None
  | Some last_hm =>
      last_p <- lift (pulsessince12 last_hm) ;;
      let a := false in
      let b := true in
      try_ (write_lastpulseat (record_line last_hm a b)) (fun _ => ret tt) ;;;
      ret (Some (last_hm, a, b, last_p))
  end.

(** [calcoffset(current_hm)]: [None] stands for the tuple of four [None]s. *)
Definition calcoffset (current_hm : string) : M (option (Z * string * bool * bool)) :=
  st <- try_ (s <- load_state ;; ret (Some s))
             (fun e => match e with OSError => bootstrap | _ => raise e end) ;;
  match st with
  | None => ret None
  | Some (last_hm, a, b, last_p) =>
      current_p <- lift (pulsessince12 current_hm) ;;
      let offset := current_p - last_p in
      ret (Some (offset, last_hm, a, b))
  end.

(** [for _ in range(n): last_hm, a, b = pulsetoclock(last_hm, a, b)] *)
Fixpoint pulse_loop (n : nat) (st : string * bool * bool) : M (string * bool * bool) :=
  match n with
  | O => ret st
  | S n' =>
      let '(last_hm, a, b) := st in
      st' <- pulsetoclock last_hm a b ;;
      pulse_loop n' st'
  end.

(** HTTP responses of the control panel: the page of [index] (it shows the
    baseline, and the current time from a reading of its own, which is not
    kept here), or a status with its message. *)
Inductive response : Type :=
| Page (base : string)
| Status (code : Z) (body : string).

(** [time.localtime()] as the handlers use it: hour and minute. *)
Definition clock_reading : Type := (Z * Z)%type.

Definition now_hm (now : clock_reading) : string := hm (fst now) (snd now).

(** [index(request)] *)
Definition index : M response :=
  base <- try_ (c <- read_firstruntime ;; ret (strip c))
               (fun e => match e with OSError => ret "(not set)" | _ => raise e end) ;;
  ret (Page base).

(** The [h, m = map(int, parts); assert ...] check of [sync_clock]. *)
Definition check_time (new : string) : result unit :=
  rbind (unpack_hm new) (fun '(h, m) =>
  if (0 <=? h) && (h <? 24) && (0 <=? m) && (m <? 60) then Ok tt
  else Err AssertionError).

(** The end of [sync_clock], from [now = time.localtime()] on: the offset
    against the stored state, the pulses that close it, the page. *)
Definition catch_up (now : clock_reading) : M response :=
  r <- calcoffset (now_hm now) ;;
  match r with
  | None => ret (Status 500 "Synchronization failed.")
  | Some (offset, last_hm, a, b) =>
      (if negb (offset =? 0)
       then pulse_loop (Z.to_nat (Z.max 0 offset)) (last_hm, a, b) ;;; ret tt
       else ret tt) ;;;
      index
  end.

(** [sync_clock(request)]: [initial_time] is the form field, [now] the
    reading of [time.localtime()]. *)
Definition sync_clock (initial_time : option string) (now : clock_reading) : M response :=
  match initial_time with
  | None | Some EmptyString => ret (Status 400 "No time provided.")
  | Some new =>
      match check_time new with
      | Err _ => ret (Status 400 "Invalid time. Use HH:MM.")
      | Ok _ =>
          r <- try_ (write_firstruntime new ;;; ret None)
                    (fun _ => ret (Some (Status 500 "Error writing baseline"))) ;;
          match r with
          | Some resp => ret resp
          | None =>
              try_ remove_lastpulseat
                   (fun e => match e with OSError => ret tt | _ => raise e end) ;;;
              catch_up now
          end
      end
  end.

(** [advance_one(request)] *)
Definition advance_one : M response :=
  r <- try_ (c <- read_lastpulseat ;;
             s <- lift (parse_record c) ;;
             ret (Some s))
            (fun _ =>
               try_ (c <- read_firstruntime ;; ret (Some (strip c, false, true)))
                    (fun _ => ret None)) ;;
  match r with
  | None => ret (Status 500 "No baseline to advance.")
  | Some (last_hm, a, b) =>
      pulsetoclock last_hm a b ;;;
      index
  end.

(** One iteration of the [while True] of [clock_loop], for the reading
    [now] of the clock.  (The Wi-Fi retry that ends the iteration sets the
    real-time clock only; it shows here as the next reading.) *)
Definition clock_loop_body (now : clock_reading) : M unit :=
  let rtc_hm := now_hm now in
  r <- calcoffset rtc_hm ;;
  match r with
  | Some (offset, last_hm, a, b) =>
      if negb (offset =? 0) then pulsetoclock last_hm a b ;;; ret tt
      else ret tt
  | None => ret tt
  end.

(** [clock_loop()] over the successive readings of the clock. *)
Fixpoint clock_loop (nows : list clock_reading) : M unit :=
  match nows with
  | [] => ret tt
  | now :: rest => clock_loop_body now ;;; clock_loop rest
  end.

(** Number of pulses in a log. *)
Fixpoint pulses (l : list event) : nat :=
  match l with
  | [] => O
  | Drive _ _ :: r => S (pulses r)
  | _ :: r => pulses r
  end.

(** The pulse index the persisted record stands for, if it reads back. *)
Definition persisted_index (w : world) : option Z :=
  match lastpulseat w with
  | None => None
  | Some c =>
      match rbind (parse_record c) (fun '(last_hm, _, _) => pulsessince12 last_hm) with
      | Ok p => Some p
      | Err _ => None
      end
  end.

(** The phase pair the persisted record stands for, if it reads back. *)
Definition persisted_phases (w : world) : option (bool * bool) :=
  match lastpulseat w with
  | None => None
  | Some c =>
      match parse_record c with
      | Ok (_, a, b) => Some (a, b)
      | Err _ => None
      end
  end.

End Clock.

(** ** The frame format, as the specification words it *)

Module Frame.

Import Dcf.

(** A classified bit. *)
Definition bit (b : Z) : Prop := b = 0 \/ b = 1.

Definition bitb (b : Z) : bool := (b =? 0) || (b =? 1).

(** A complete frame: 59 bits. *)
Definition is_frame (t : list Z) : Prop := List.length t = 59%nat /\ Forall bit t.

Definition is_frameb (t : list Z) : bool := (List.length t =? 59)%nat && forallb bitb t.

(** Even parity of a bit group. *)
Definition even_parity (l : list Z) : Prop := Z.even (sum l) = true.

(** The BCD weights, least significant bit first. *)
Definition weights : list Z := [1; 2; 4; 8; 10; 20; 40; 80].

Fixpoint weighted (ws bits : list Z) : Z :=
  match ws, bits with
  | w :: ws', b :: bits' => w * b + weighted ws' bits'
  | _, _ => 0
  end.

(** Value of a BCD field: the weighted sum of its bits. *)
Definition bcd (bits : list Z) : Z := weighted weights bits.

(** The [k] low bits of [n], least significant first. *)
Fixpoint bits_le (k : nat) (n : Z) : list Z :=
  match k with
  | O => []
  | S k' => n mod 2 :: bits_le k' (n / 2)
  end.

(** The [w]-bit BCD field of [n]: the units digit on four bits, then the
    tens digit. *)
Definition to_bcd (w : nat) (n : Z) : list Z :=
  firstn w (bits_le 4 (n mod 10) ++ bits_le 4 (n / 10))%list.

Definition parity_bit (l : list Z) : Z := sum l mod 2.

(** The minute frame of a known time: bit 0 is 0, bits 1-16 ([pre]) and
    bit 19 ([leap]) carry no time, bits 17 and 18 announce the zone, bit 20
    is 1, then minute, hour and date with their parity bits. *)
Definition encode (d : DecodedTime) (pre : list Z) (leap : Z) : list Z :=
  let z1 := match season d with CEST => 1 | CET => 0 end in
  let z2 := match season d with CEST => 0 | CET => 1 end in
  let mi := to_bcd 7 (minute d) in
  let ho := to_bcd 6 (stunde d) in
  let date := (to_bcd 6 (tag d) ++ bits_le 3 (wochentag d)
               ++ to_bcd 5 (monat d) ++ to_bcd 8 (jahr d))%list in
  ([0] ++ pre ++ [z1; z2; leap; 1]
   ++ mi ++ [parity_bit mi]
   ++ ho ++ [parity_bit ho]
   ++ date ++ [parity_bit date])%list.

(** The documented ranges of a decoded time. *)
Definition in_range (d : DecodedTime) : Prop :=
  0 <= minute d <= 59 /\ 0 <= stunde d <= 23 /\ 1 <= tag d <= 31
  /\ 1 <= wochentag d <= 7 /\ 1 <= monat d <= 12 /\ 0 <= jahr d <= 99.

(** What the BCD weights alone allow. *)
Definition in_bcd_range (d : DecodedTime) : Prop :=
  0 <= minute d <= 85 /\ 0 <= stunde d <= 45 /\ 0 <= tag d <= 45
  /\ 0 <= wochentag d <= 7 /\ 0 <= monat d <= 25 /\ 0 <= jahr d <= 165.

(** A [w]-bit field for any value its weights reach, also one that is no
    decimal number: the tens digit as large as its bits allow, what is
    left on the four units bits. *)
Definition to_bcd_wide (w : nat) (n : Z) : list Z :=
  let tens := Z.min (n / 10) (2 ^ Z.of_nat (w - 4) - 1) in
  firstn w (bits_le 4 (n - 10 * tens) ++ bits_le 4 tens)%list.

(** A minute frame for any field values within the weights: the layout of
    [encode], bits 1-16 and bit 19 at 0. *)
Definition encode_wide (d : DecodedTime) : list Z :=
  let z1 := match season d with CEST => 1 | CET => 0 end in
  let z2 := match season d with CEST => 0 | CET => 1 end in
  let mi := to_bcd_wide 7 (minute d) in
  let ho := to_bcd_wide 6 (stunde d) in
  let date := (to_bcd_wide 6 (tag d) ++ bits_le 3 (wochentag d)
               ++ to_bcd_wide 5 (monat d) ++ to_bcd_wide 8 (jahr d))%list in
  ([0] ++ repeat 0 16 ++ [z1; z2; 0; 1]
   ++ mi ++ [parity_bit mi]
   ++ ho ++ [parity_bit ho]
   ++ date ++ [parity_bit date])%list.

(** What the sampling loop keeps true of its state: the bit index counts
    the collected bits, and each of them is 0 or 1. *)
Definition rx_inv (s : rx) : Prop :=
  bitNum s = Z.of_nat (List.length (timeInfo s)) /\ Forall bit (timeInfo s).

(** A frame that is all zero except for the listed positions. *)
Definition frame_with (ones : list nat) : list Z :=
  map (fun i => if existsb (Nat.eqb i) ones then 1 else 0) (seq 0 59).

End Frame.

(** ** Pulse indices, as the specification words them *)

Module Cycle.

Import Clock.

(** Length of the half-day cycle, in pulses. *)
Definition half_day : Z := 720.

(** Pulse index of the time [h]:[m]. *)
Definition index_of (h m : Z) : Z := (h mod 12) * 60 + m.

(** The time string of a pulse index. *)
Definition hm_of (p : Z) : string := hm ((p mod half_day) / 60) (p mod 60).

(** A reading of the clock: hour 0-23, minute 0-59. *)
Definition reading_ok (now : clock_reading) : Prop :=
  0 <= fst now < 24 /\ 0 <= snd now < 60.

(** The persisted record reads back as [last_hm], [a], [b], and [last_hm]
    as the time [h]:[m]. *)
Definition stored (w : world) (last_hm : string) (a b : bool) (h m : Z) : Prop :=
  exists c, lastpulseat w = Some c
            /\ parse_record c = Ok (last_hm, a, b)
            /\ unpack_hm last_hm = Ok (h, m).

(** The events of [k] pulses that start from index [p] and phases
    [a], [b]: drive, release, persist, for each pulse. *)
Fixpoint pulse_events (p : Z) (a b : bool) (k : nat) : list event :=
  match k with
  | O => []
  | S k' =>
      Drive (negb a) (negb b) :: Release
      :: Persist (record_line (hm_of (p + 1)) (negb a) (negb b))
      :: pulse_events (p + 1) (negb a) (negb b) k'
  end.

(** The world after one pulse from index [p] and phases [a], [b]. *)
Definition pulsed (w : world) (p : Z) (a b : bool) : world :=
  mkWorld (Some (record_line (hm_of (p + 1)) (negb a) (negb b)))
          (firstruntime w)
          (log w ++ pulse_events p a b 1)%list.

(** The baseline the page of [index] shows. *)
Definition shown_base (w : world) : string :=
  match firstruntime w with
  | Some c => strip c
  | None => "(not set)"
  end.

(** Exactly one of the two phases is on. *)
Definition complementary (a b : bool) : Prop := a = negb b.

Definition range (n : nat) : list Z := map Z.of_nat (seq 0 n).

(** [f] applied to the last element of a list. *)
Fixpoint map_last {A : Type} (f : A -> A) (l : list A) : list A :=
  match l with
  | [] => []
  | [x] => [f x]
  | x :: r => x :: map_last f r
  end.

(** Decidable checks on the time string of [h]:[m], run over the whole
    dial below: it unpacks to [h] and [m], and a record line built on it
    reads back. *)
Definition hm_check (h m : Z) : bool :=
  match unpack_hm (hm h m) with
  | Ok (h', m') => (h' =? h) && (m' =? m)
  | Err _ => false
  end.

Definition record_check (h m : Z) : bool :=
  forallb (fun ab : bool * bool =>
             match parse_record (record_line (hm h m) (fst ab) (snd ab)) with
             | Ok (s, a, b) =>
                 String.eqb s (hm h m) && Bool.eqb a (fst ab) && Bool.eqb b (snd ab)
             | Err _ => false
             end)
          [(true, true); (true, false); (false, true); (false, false)].

End Cycle.

(** ** Sample inputs *)

Module Samples.

Import Dcf Frame Clock Cycle.
Local Open Scope list_scope.

(** A window of nine high samples after a low one: 45 ms, a zero. *)
Definition cell_45ms : rx := mkRx (0 :: repeat 1 9 ++ repeat 0 60) [] 0.

(** A window of forty high samples after a low one: 200 ms, a one. *)
Definition cell_200ms : rx := mkRx (0 :: repeat 1 40 ++ repeat 0 29) [] 0.

(** A window of eight high samples: exactly 40 ms, no bit. *)
Definition cell_40ms : rx := mkRx (0 :: repeat 1 8 ++ repeat 0 61) [1; 0] 2.

(** Markers and parities in order, but neither zone bit. *)
Definition frame_no_zone : list Z := frame_with [20%nat].

(** All seven minute bits set, with their parity bit: minute 85. *)
Definition frame_minute_85 : list Z :=
  frame_with [17; 20; 21; 22; 23; 24; 25; 26; 27; 28]%nat.

(** 13:45 on Monday 24 May 2021, summer time. *)
Definition may_24 : DecodedTime := mkTime 45 13 24 1 5 21 CEST.

Definition frame_may_24 : list Z := encode may_24 (repeat 0 16) 0.

(** The readings of one minute for a frame, a second of 200 samples per
    bit: high for 100 ms (a zero) or 200 ms (a one), then low. *)
Definition signal_of (t : list Z) : list Z :=
  flat_map (fun b => let n := if b =? 1 then 40%nat else 20%nat in
                     repeat 1 n ++ repeat 0 (200 - n)) t.

(** The face stands at 00:05 (pulse index 5). *)
Definition at_0005 : world :=
  mkWorld (Some (record_line "00:05" false true)) (Some "00:05") [].

(** The face stands at 05:00 (pulse index 300). *)
Definition at_0500 : world :=
  mkWorld (Some (record_line "05:00" false true)) (Some "05:00") [].

(** First run: a baseline of 03:15 and no persisted state. *)
Definition first_run : world := mkWorld None (Some "03:15") [].

(** Nothing configured. *)
Definition blank : world := mkWorld None None [].

End Samples.

(** ** main.py: the rest of the receiver *)

Module Receiver.

Import Dcf.

(** [ceil(1000/sleeptime) + 1] with [sleeptime = 50]: 1000/50 is exactly
    20.0. *)
Definition breakat : Z := 21.

(** [detectNewMinute(dcfpin)] from the count [countZeros] on, over the
    readings [dcfpin.value()] delivers: the readings left when it returns
    [True], [None] when they end first.  (The running maximum [mx] is
    never read.) *)
Fixpoint detect_from (countZeros : Z) (vs : list Z) : option (list Z) :=
  match vs with
  | [] => None
  | v :: rest =>
      let countZeros := if v =? 0 then countZeros + 1 else 0 in
      if breakat <=? countZeros then Some rest
      else detect_from countZeros rest
  end.

Definition detectNewMinute (vs : list Z) : option (list Z) := detect_from 0 vs.

(** No classification happens on the window [a]: [classify] leaves the
    state alone. *)
Definition quiet (a : list Z) : bool :=
  negb (edge a && gt_q (sum a) (thresh_samples noisethreshms)).

(** No classification happens while the readings [vs] pass through the
    window [a]. *)
Fixpoint quiet_run (a : list Z) (vs : list Z) : bool :=
  match vs with
  | [] => true
  | v :: rest => quiet (shift a v) && quiet_run (shift a v) rest
  end.

(** The window after the readings [vs]. *)
Definition slide (a : list Z) (vs : list Z) : list Z := fold_left shift vs a.

(** The window [computeTime] starts with. *)
Definition zeros : list Z := repeat 0 samples.

(** One second of clean signal for the bit [b] (200 readings). *)
Definition cell (b : Z) : list Z :=
  let n := if b =? 1 then 40%nat else 20%nat in
  (repeat 1 n ++ repeat 0 (200 - n))%list.

End Receiver.

(** ** main.py: the real-time clock *)

Module Rtc.

(** The exceptions [set_time] can raise. *)
Inductive error : Type :=
| IndexError
| ValueError.

Inductive res (A : Type) : Type :=
| Done (a : A)
| Fail (e : error).
Arguments Done {A} a.
Arguments Fail {A} e.

Definition andthen {A B : Type} (r : res A) (k : A -> res B) : res B :=
  match r with
  | Done a => k a
  | Fail e => Fail e
  end.

(** [s[i]] for [i >= 0] *)
Fixpoint char_at (s : string) (i : nat) : res ascii :=
  match s, i with
  | EmptyString, _ => Fail IndexError
  | String c _, O => Done c
  | String _ r, S i' => char_at r i'
  end.

(** [s[i] + s[j]] *)
Definition two_at (s : string) (i j : nat) : res string :=
  andthen (char_at s i) (fun c1 =>
  andthen (char_at s j) (fun c2 =>
  Done (String c1 (String c2 EmptyString)))).

(** [s.split(sep, n)]: at most [n] cuts. *)
Fixpoint split_max (sep : ascii) (s : string) (n : nat) {struct s} : list string :=
  match n, s with
  | O, _ => [s]
  | S _, EmptyString => [EmptyString]
  | S n', String c r =>
      if Ascii.eqb c sep then EmptyString :: split_max sep r n'
      else match split_max sep r n with
           | [] => [String c EmptyString]
           | p :: ps => String c p :: ps
           end
  end.

(** [l[i]] *)
Definition part (l : list string) (i : nat) : res string :=
  match nth_error l i with
  | Some s => Done s
  | None => Fail IndexError
  end.

(** The class attribute [w]. *)
Definition w : list string :=
  ["Sunday"; "Monday"; "Tuesday"; "Wednesday"; "Thursday"; "Friday"; "Saturday"]%string.

(** [l.index(x)] *)
Fixpoint index_in (l : list string) (x : string) : res Z :=
  match l with
  | [] => Fail ValueError
  | y :: r =>
      if String.eqb y x then Done 0
      else andthen (index_in r x) (fun i => Done (i + 1))
  end.

(** [s.replace(' ', '')] *)
Fixpoint drop_spaces (s : string) : string :=
  match s with
  | EmptyString => EmptyString
  | String c r =>
      if Ascii.eqb c " " then drop_spaces r else String c (drop_spaces r)
  end.

Definition hexval (c : ascii) : option Z :=
  let n := Z.of_nat (nat_of_ascii c) in
  if (48 <=? n) && (n <=? 57) then Some (n - 48)
  else if (97 <=? n) && (n <=? 102) then Some (n - 87)
  else if (65 <=? n) && (n <=? 70) then Some (n - 55)
  else None.

(** [binascii.unhexlify(s)]: one byte for each pair of hex digits; an odd
    length or another character is a [ValueError]. *)
Fixpoint unhexlify (s : string) : res (list Z) :=
  match s with
  | EmptyString => Done []
  | String _ EmptyString => Fail ValueError
  | String c1 (String c2 r) =>
      match hexval c1, hexval c2 with
      | Some a, Some b => andthen (unhexlify r) (fun l => Done (16 * a + b :: l))
      | _, _ => Fail ValueError
      end
  end.

(** [ds3231.set_time(new_time)]: the bytes written to the clock chip from
    register 0 on (seconds, minutes, hours, weekday, day, month, year). *)
Definition set_time (new_time : string) : res (list Z) :=
  andthen (two_at new_time 0 1) (fun hour =>
  andthen (two_at new_time 3 4) (fun minute =>
  andthen (two_at new_time 6 7) (fun second =>
  andthen (part (split_max "," new_time 2) 1) (fun name =>
  andthen (index_in w name) (fun i =>
  let week := ("0" ++ str (i + 1))%string in
  andthen (part (split_max "," new_time 2) 2) (fun date =>
  andthen (two_at date 2 3) (fun year =>
  andthen (two_at date 5 6) (fun month =>
  andthen (two_at date 8 9) (fun day =>
  unhexlify
    (drop_spaces
       (second ++ " " ++ minute ++ " " ++ hour ++ " " ++ week ++ " "
        ++ day ++ " " ++ month ++ " " ++ year)%string)))))))))).

(** The character of a decimal digit. *)
Definition digit_char (e : Z) : ascii := ascii_of_nat (48 + Z.to_nat e).

(** Two decimal digits as text. *)
Definition two (a b : Z) : string :=
  String (digit_char a) (String (digit_char b) EmptyString).

(** The layout of the time string [computeTime] returns, digit by digit:
    HH:MM:00,Weekday,2YYY-MM-DD. *)
Definition layout (h1 h2 m1 m2 : Z) (name : string)
           (y0 y1 y2 o1 o2 d1 d2 : Z) : string :=
  (two h1 h2 ++ ":" ++ two m1 m2 ++ ":00," ++ name ++ ","
   ++ String "2" (String (digit_char y0) (two y1 y2))
   ++ "-" ++ two o1 o2 ++ "-" ++ two d1 d2)%string.

(** The names [set_time] knows, with their index in [w]. *)
Definition named_days : list (string * Z) :=
  [("Sunday", 0); ("Monday", 1); ("Tuesday", 2); ("Wednesday", 3);
   ("Thursday", 4); ("Friday", 5); ("Saturday", 6)]%string.

(** No comma in the text. *)
Fixpoint comma_free (s : string) : bool :=
  match s with
  | EmptyString => true
  | String c r => negb (Ascii.eqb c ",") && comma_free r
  end.

(** What the checks below need of a digit character. *)
Definition digit_check (e : Z) : bool :=
  match hexval (digit_char e) with Some v => v =? e | None => false end
  && negb (Ascii.eqb (digit_char e) ",")
  && negb (Ascii.eqb (digit_char e) " ").

(** A two-digit number as the chip stores it. *)
Definition bcd_byte (n : Z) : Z := 16 * (n / 10) + n mod 10.

(** The register image of a decoded time: seconds 0, the fields in BCD,
    the weekday counted from Sunday = 1. *)
Definition registers (d : Dcf.DecodedTime) : list Z :=
  [0; bcd_byte (Dcf.minute d); bcd_byte (Dcf.stunde d);
   Dcf.wochentag d mod 7 + 1; bcd_byte (Dcf.tag d); bcd_byte (Dcf.monat d);
   bcd_byte (Dcf.jahr d mod 100)].

End Rtc.

(** ** main.py: one turn of the main loop *)

Module MainLoop.

Import Dcf Receiver.

(** How one turn of the [while True] of the main program ends. *)
Inductive turn : Type :=
| NoGap                                   (* the readings end in [detectNewMinute] *)
| NoFrame                                 (* the readings end in [computeTime] *)
| RadioFail (ab : bool * bool)            (* 'Radio Time Fail', nothing set *)
| Raised (e : Rtc.error)                  (* [rtc.set_time] raised *)
| ClockSet (registers : list Z) (p : minute_pulse) (ab : bool * bool).

(** One turn on the readings of [dcf.value()], from the phase pair [ab]:
    wait for the gap, decode the minute, set the chip, pulse the minute
    hand. *)
Definition main_turn (vs : list Z) (ab : bool * bool) : turn :=
  match detectNewMinute vs with
  | None => NoGap
  | Some vs1 =>
      match computeTime vs1 with
      | None => NoFrame
      | Some radiotime =>
          if negb (String.eqb radiotime failed) then
            match Rtc.set_time radiotime with
            | Rtc.Fail e => Raised e
            | Rtc.Done regs =>
                let '(ab', p) := main_pulse radiotime ab in
                ClockSet regs p ab'
            end
          else RadioFail ab
      end
  end.

End MainLoop.

(** ** webtime.py: the rest of the control panel *)

Module Panel.

Import Clock.
Local Open Scope clock_scope.

(** [for _ in range(n): advance_one(request)], the responses dropped. *)
Fixpoint advance_times (n : nat) : M unit :=
  match n with
  | O => ret tt
  | S n' => advance_one ;;; advance_times n'
  end.

(** [advance_five(request)] *)
Definition advance_five : M response := advance_times 5 ;;; index.

(** The phase after [n] pulses. *)
Definition flipped (n : nat) (a : bool) : bool := if Nat.even n then a else negb a.

(** The text holds a tab. *)
Fixpoint has_tab (s : string) : bool :=
  match s with
  | EmptyString => false
  | String c r => Ascii.eqb c (ascii_of_nat 9) || has_tab r
  end.

(** The minute after a reading of the clock. *)
Definition next_minute (now : clock_reading) : clock_reading :=
  if snd now =? 59 then ((fst now + 1) mod 24, 0) else (fst now, snd now + 1).

(** The readings of the [n] minutes after [now], as a loop sees them that
    runs [k + 1] times in each minute. *)
Fixpoint ticks (now : clock_reading) (k n : nat) : list clock_reading :=
  match n with
  | O => []
  | S n' => (repeat (next_minute now) (S k) ++ ticks (next_minute now) k n')%list
  end.

(** Decidable check, run over the whole day below: the minute after a
    reading is a reading, one pulse index further on the dial. *)
Definition next_minute_check (h m : Z) : bool :=
  let n := next_minute (h, m) in
  (0 <=? fst n) && (fst n <? 24) && (0 <=? snd n) && (snd n <? 60)
  && (((fst n mod 12) * 60 + snd n) =? ((h mod 12) * 60 + m + 1) mod 720).

End Panel.

(** ** webtime.py: setting the clock from the network *)

Module Net.

(** What [set_time] meets outside: the answer of the [k]-th call of
    [wlan.isconnected()], and the field [currentLocalTime] of the answer
    to its request ([None] when the request, the JSON or the key fails
    with an exception). *)
Record net : Type := mkNet {
  isconnected : nat -> bool;
  currentLocalTime : option string
}.

(** What [set_time] did: the value it returned, the tuple it gave to
    [RTC().datetime] if it did, the calls of [isconnected] and the
    two-second sleeps it made. *)
Record outcome : Type := mkOutcome {
  returned : bool;
  datetime : option (list Z);
  polls : nat;
  sleeps : nat
}.

(** [while not wlan.isconnected() and retries < 10: sleep(2); retries += 1]
    with [left] retries to go, at the [k]-th poll: the polls and the
    retries made when the loop ends. *)
Fixpoint wait_wifi (conn : nat -> bool) (k retries left : nat) : nat * nat :=
  if conn k then (S k, retries)
  else match left with
       | O => (S k, retries)
       | S left' => wait_wifi conn (S k) (S retries) left'
       end.

(** [s[i:j]] for [0 <= i <= j] *)
Definition cut (s : string) (i j : nat) : string := substring i (j - i) s.

(** The six [int(dt[i:j])] of [set_time], in their order. *)
Definition parse_local_time (dt : string) : result (list Z) :=
  rbind (int (cut dt 0 4)) (fun y =>
  rbind (int (cut dt 5 7)) (fun mo =>
  rbind (int (cut dt 8 10)) (fun d =>
  rbind (int (cut dt 11 13)) (fun h =>
  rbind (int (cut dt 14 16)) (fun mi =>
  rbind (int (cut dt 17 19)) (fun s =>
  Ok [y; mo; d; 0; h; mi; s; 0])))))).

(** [set_time(url, wlan)] *)
Definition set_time (n : net) : outcome :=
  let '(k, retries) := wait_wifi (isconnected n) 0 0 10 in
  if negb (isconnected n k) then mkOutcome false None (S k) retries
  else
    match currentLocalTime n with
    | None => mkOutcome false None (S k) retries
    | Some dt =>
        match parse_local_time dt with
        | Ok t => mkOutcome true (Some t) (S k) retries
        | Err _ => mkOutcome false None (S k) retries
        end
    end.

(** A number below 10000 on four digits, below 100 on two. *)
Definition four (y : Z) : string :=
  String (Rtc.digit_char (y / 1000))
    (String (Rtc.digit_char (y / 100 mod 10))
       (Rtc.two (y / 10 mod 10) (y mod 10))).

Definition pair (n : Z) : string := Rtc.two (n / 10) (n mod 10).

(** A time stamp: the six numbers at their places, any characters between
    them, anything after the seconds. *)
Definition stamp (y mo d h mi s : Z) (c1 c2 c3 c4 c5 : ascii) (rest : string) : string :=
  (four y ++ String c1 (pair mo ++ String c2 (pair d ++ String c3
     (pair h ++ String c4 (pair mi ++ String c5 (pair s ++ rest))))))%string.

(** Decidable checks, run over all values below. *)
Definition four_check (y : Z) : bool :=
  match int (four y) with Ok v => v =? y | Err _ => false end.

Definition pair_check (n : Z) : bool :=
  match int (pair n) with Ok v => v =? n | Err _ => false end.

End Net.

(** ** Facts about the built-ins *)

Module PyFacts.

Import Cycle.

Lemma range_forall (P : Z -> bool) (n : nat) :
  forallb P (range n) = true ->
  forall z, 0 <= z < Z.of_nat n -> P z = true.
Proof.
  intros H z Hz.
  rewrite forallb_forall in H. apply H.
  unfold range. apply in_map_iff. exists (Z.to_nat z). split.
  - lia.
  - apply in_seq. lia.
Qed.

Example str_samples : str 59 = "59" /\ str 0 = "0" /\ str (-3) = "-3".
Proof. repeat split; reflexivity. Qed.

Example int_samples :
  int " 07" = Ok 7 /\ int "x" = Err ValueError /\ int "" = Err ValueError
  /\ int "-12" = Ok (-12).
Proof. repeat split; reflexivity. Qed.

Example int_groups :
  int "1_0" = Ok 10 /\ int " +1_000_000 " = Ok 1000000
  /\ int "1__0" = Err ValueError /\ int "_1" = Err ValueError
  /\ int "1_" = Err ValueError /\ int "-_1" = Err ValueError
  /\ Clock.unpack_hm "1_0:05" = Ok (10, 5).
Proof. repeat split; reflexivity. Qed.

(** On plain text there is no digit group to undo. *)
Lemma ungroup_plain (s : string) :
  plain_chars s = true -> forall b, ungroup b s = Some s.
Proof.
  induction s as [|c r IH]; intros H b; [reflexivity|].
  cbn [plain_chars] in H. apply andb_prop in H. destruct H as [Hc Hr].
  cbn [ungroup].
  destruct (Ascii.eqb_spec c "_") as [->|_]; [discriminate Hc|].
  rewrite (IH Hr). reflexivity.
Qed.

Lemma int_plain (s : string) :
  plain s = true ->
  int s = match strip s with
          | String "+"%char r => nonempty_digits r
          | String "-"%char r => rbind (nonempty_digits r) (fun v => Ok (- v))
          | t => nonempty_digits t
          end.
Proof.
  intros H. unfold plain in H. apply andb_prop in H. destruct H as [_ H].
  assert (P : plain_chars (strip s) = true).
  { unfold strip.
    assert (L : forall t, plain_chars t = true -> plain_chars (lstrip t) = true).
    { induction t as [|c r IH]; intros Ht; [reflexivity|].
      cbn [lstrip]. destruct (is_space c); [|exact Ht].
      cbn [plain_chars] in Ht. apply andb_prop in Ht. apply IH, Ht. }
    assert (R : forall t, plain_chars t = true -> plain_chars (rstrip t) = true).
    { induction t as [|c r IH]; intros Ht; [reflexivity|].
      cbn [plain_chars] in Ht. apply andb_prop in Ht. destruct Ht as [Hc Hr].
      cbn [rstrip]. destruct (is_space c && String.eqb (rstrip r) ""); [reflexivity|].
      cbn [plain_chars]. rewrite Hc, (IH Hr). reflexivity. }
    apply R, L, H. }
  unfold int.
  destruct (strip s) as [|c r]; [reflexivity|].
  pose proof P as P'. cbn [plain_chars] in P'. apply andb_prop in P'.
  destruct P' as [_ Pr].
  pose proof (ungroup_plain _ P false) as E1.
  pose proof (ungroup_plain r Pr false) as E2.
  destruct c as [[] [] [] [] [] [] [] []];
    unfold grouped_digits; rewrite ?E1, ?E2; reflexivity.
Qed.

Example split_samples :
  split ":" "03:15" = ["03"; "15"]%string /\ split ":" "" = [""]%string
  /\ split ":" "a::" = ["a"; ""; ""]%string.
Proof. repeat split; reflexivity. Qed.

Example strip_samples : strip "  a b " = "a b"%string.
Proof. reflexivity. Qed.

Example pulsessince12_samples :
  Clock.pulsessince12 "03:15" = Ok 195 /\ Clock.pulsessince12 "15:15" = Ok 195
  /\ Clock.pulsessince12 "0315" = Err ValueError.
Proof. repeat split; reflexivity. Qed.

(** *** [strip] against [split] and [int] *)

Lemma space_not_colon (c : ascii) : is_space c = true -> Ascii.eqb c ":" = false.
Proof.
  destruct c as [[] [] [] [] [] [] [] []]; vm_compute; intros H;
    first [reflexivity | discriminate H].
Qed.

Lemma lstrip_idem (s : string) : lstrip (lstrip s) = lstrip s.
Proof.
  induction s as [|c r IH]; cbn [lstrip].
  - reflexivity.
  - destruct (is_space c) eqn:E; [exact IH|].
    cbn [lstrip]. rewrite E. reflexivity.
Qed.

Lemma rstrip_idem (s : string) : rstrip (rstrip s) = rstrip s.
Proof.
  induction s as [|c r IH]; cbn [rstrip].
  - reflexivity.
  - destruct (is_space c && String.eqb (rstrip r) "") eqn:E.
    + reflexivity.
    + cbn [rstrip]. rewrite IH, E. reflexivity.
Qed.

Lemma lstrip_rstrip (s : string) : lstrip (rstrip s) = rstrip (lstrip s).
Proof.
  induction s as [|c r IH]; cbn [lstrip rstrip].
  - reflexivity.
  - destruct (is_space c) eqn:E; cbn [andb].
    + destruct (String.eqb_spec (rstrip r) "") as [N|N].
      * rewrite <- IH, N. reflexivity.
      * cbn [lstrip]. rewrite E. exact IH.
    + cbn [lstrip rstrip]. rewrite E. reflexivity.
Qed.

Lemma int_lstrip (s : string) : int (lstrip s) = int s.
Proof.
  unfold int, strip. rewrite lstrip_idem. reflexivity.
Qed.

Lemma int_rstrip (s : string) : int (rstrip s) = int s.
Proof.
  unfold int, strip. rewrite lstrip_rstrip, rstrip_idem. reflexivity.
Qed.

Lemma split_nonempty (sep : ascii) (s : string) : split sep s <> [].
Proof.
  destruct s as [|c r]; cbn [split].
  - discriminate.
  - destruct (Ascii.eqb c sep); [discriminate|].
    destruct (split sep r); discriminate.
Qed.

Lemma split_lstrip (s : string) :
  split ":" (lstrip s)
  = match split ":" s with
    | p :: ps => lstrip p :: ps
    | [] => []
    end.
Proof.
  induction s as [|c r IH]; cbn [lstrip].
  - reflexivity.
  - destruct (is_space c) eqn:E.
    + cbn [split]. rewrite (space_not_colon c E), IH.
      pose proof (split_nonempty ":" r) as NE.
      destruct (split ":" r) as [|p ps]; [contradiction|].
      cbn [lstrip]. rewrite E. reflexivity.
    + cbn [split]. destruct (Ascii.eqb c ":").
      * reflexivity.
      * destruct (split ":" r) as [|p ps]; cbn [lstrip]; rewrite E; reflexivity.
Qed.

Lemma rstrip_empty_split (s : string) :
  rstrip s = ""%string -> split ":" s = [s].
Proof.
  induction s as [|c r IH]; cbn [rstrip split].
  - reflexivity.
  - destruct (is_space c) eqn:E; cbn [andb].
    + destruct (String.eqb_spec (rstrip r) "") as [N|N]; [|discriminate].
      intros _. rewrite (space_not_colon c E), (IH N). reflexivity.
    + discriminate.
Qed.

Lemma split_rstrip (s : string) :
  split ":" (rstrip s) = map_last rstrip (split ":" s).
Proof.
  induction s as [|c r IH].
  - reflexivity.
  - cbn [rstrip].
    destruct (is_space c && String.eqb (rstrip r) "") eqn:E.
    + apply andb_prop in E. destruct E as [Ec Er].
      apply String.eqb_eq in Er.
      cbn [split]. rewrite (space_not_colon c Ec), (rstrip_empty_split r Er).
      cbn [map_last rstrip]. rewrite Ec, Er. reflexivity.
    + cbn [split]. rewrite IH.
      pose proof (split_nonempty ":" r) as NE.
      destruct (Ascii.eqb c ":").
      * destruct (split ":" r) as [|q qs]; [contradiction|]. reflexivity.
      * destruct (split ":" r) as [|q qs] eqn:Sr; [contradiction|].
        destruct qs as [|q' qs'].
        -- cbn [map_last rstrip].
           destruct (is_space c && String.eqb (rstrip q) "") eqn:E'; [|reflexivity].
           exfalso.
           apply andb_prop in E'. destruct E' as [Ec Eq].
           apply String.eqb_eq in Eq.
           pose proof (rstrip_empty_split q Eq) as Sq.
           assert (R : rstrip r = ""%string).
           { pose proof IH as IH'. cbn [map_last] in IH'.
             rewrite Eq in IH'.
             destruct (rstrip r) as [|d t]; [reflexivity|].
             cbn [split] in IH'.
             destruct (Ascii.eqb d ":").
             - injection IH' as IH'. exfalso. exact (split_nonempty _ _ IH').
             - destruct (split ":" t); discriminate IH'. }
           rewrite Ec, R in E. discriminate E.
        -- reflexivity.
Qed.

Lemma sum_app (l1 l2 : list Z) : sum (l1 ++ l2) = sum l1 + sum l2.
Proof.
  unfold sum. induction l1 as [|x l1 IH]; simpl.
  - reflexivity.
  - rewrite IH. lia.
Qed.

Lemma even_mod2 (x : Z) : Z.even x = true -> (x mod 2 =? 1) = false.
Proof.
  intros H. rewrite Zmod_even, H. reflexivity.
Qed.

Lemma odd_mod2 (x : Z) : Z.odd x = true -> (x mod 2 =? 1) = true.
Proof.
  intros H. rewrite Zmod_odd, H. reflexivity.
Qed.

End PyFacts.

(** ** The decoder *)

Module DcfFacts.

Import Dcf Frame Cycle PyFacts Samples.
Local Open Scope list_scope.

Lemma item_bit (t : list Z) : Forall bit t -> forall i, bit (item t i).
Proof.
  intros H. unfold item. induction H as [|x l Hx Hl IH]; intros [|i]; simpl.
  - left; reflexivity.
  - left; reflexivity.
  - exact Hx.
  - apply IH.
Qed.

Lemma sum_bits_nonneg (l : list Z) : Forall bit l -> 0 <= sum l <= Z.of_nat (List.length l).
Proof.
  unfold sum. induction 1 as [|x l Hx Hl IH].
  - simpl. lia.
  - cbn [fold_right List.length]. destruct Hx; subst; lia.
Qed.

(** Thresholds, in samples: 8 for the noise limit, 36 for the split. *)
Lemma gt_noise (x : Z) : gt_q x (thresh_samples noisethreshms) = (8 <? x).
Proof.
  unfold gt_q, thresh_samples, Qle_bool. simpl.
  destruct (Z.leb_spec (x * 1000000) 8000000), (Z.ltb_spec 8 x); simpl; try reflexivity; lia.
Qed.

Lemma le_split (x : Z) : le_q x (thresh_samples zerothreshms) = (x <=? 36).
Proof.
  unfold le_q, thresh_samples, Qle_bool. simpl.
  destruct (Z.leb_spec (x * 1000000) 36000000), (Z.leb_spec x 36); simpl; try reflexivity; lia.
Qed.

(** C5. The bit classifier: a window that measures at most the noise
    threshold (40 ms, so in particular anything below it) yields no bit and
    leaves the bit index alone; a detected cell above the noise threshold
    and at most the split threshold (180 ms, included) yields bit 0; a
    detected cell above the split threshold yields bit 1. *)
Theorem classify_by_duration (s : rx) :
  (duration_ms (win s) <= noisethreshms -> classify s = s)
  /\ (edge (win s) = true ->
      noisethreshms < duration_ms (win s) <= zerothreshms ->
      classify s = mkRx (win s) (timeInfo s ++ [0]) (bitNum s + 1))
  /\ (edge (win s) = true ->
      zerothreshms < duration_ms (win s) ->
      classify s = mkRx (win s) (timeInfo s ++ [1]) (bitNum s + 1)).
Proof.
  unfold classify, duration_ms, samplespeed, noisethreshms, zerothreshms.
  rewrite gt_noise, le_split.
  repeat split.
  - intros H. destruct (edge (win s)); [|reflexivity].
    destruct (Z.ltb_spec 8 (sum (win s))); [lia|reflexivity].
  - intros -> [H1 H2].
    destruct (Z.ltb_spec 8 (sum (win s))); [|lia].
    destruct (Z.leb_spec (sum (win s)) 36); [reflexivity|lia].
  - intros -> H.
    destruct (Z.ltb_spec 8 (sum (win s))); [|lia].
    destruct (Z.leb_spec (sum (win s)) 36); [lia|reflexivity].
Qed.

Lemma classify_by_duration_witness :
  classify cell_40ms = cell_40ms
  /\ timeInfo (classify cell_45ms) = [0]
  /\ timeInfo (classify cell_200ms) = [1].
Proof.
  split; [|split].
  - apply (proj1 (classify_by_duration cell_40ms)). vm_compute. discriminate.
  - rewrite (proj1 (proj2 (classify_by_duration cell_45ms))).
    + reflexivity.
    + reflexivity.
    + vm_compute. split; [reflexivity | discriminate].
  - rewrite (proj2 (proj2 (classify_by_duration cell_200ms))).
    + reflexivity.
    + reflexivity.
    + vm_compute. reflexivity.
Defined.

(** C3. A frame with a wrong marker bit, an odd parity group, or neither
    zone bit set is answered with the failure value, and no decoded time is
    produced. *)
Theorem decode_rejects (t : list Z) :
  item t 0 <> 0 \/ item t 20 <> 1
  \/ Z.odd (sum (slice 21 29 t)) = true
  \/ Z.odd (sum (slice 29 36 t)) = true
  \/ Z.odd (sum (slice 36 59 t)) = true
  \/ (item t 17 <> 1 /\ item t 18 <> 1) ->
  decode t = None /\ frame_result t = failed.
Proof.
  intros H.
  assert (E : decode t = None).
  { unfold decode.
    destruct (Z.eqb_spec (item t 0) 0) as [E0|E0]; [|reflexivity].
    destruct (Z.eqb_spec (item t 20) 1) as [E20|E20]; [|reflexivity].
    cbn [negb orb].
    destruct (sum (slice 21 29 t) mod 2 =? 1) eqn:P1; [reflexivity|].
    destruct (sum (slice 29 36 t) mod 2 =? 1) eqn:P2; [reflexivity|].
    destruct (sum (slice 36 59 t) mod 2 =? 1) eqn:P3; [reflexivity|].
    cbn [orb].
    destruct H as [H|[H|[H|[H|[H|[H17 H18]]]]]];
      try contradiction;
      try (apply odd_mod2 in H; congruence).
    destruct (Z.eqb_spec (item t 17) 1); [contradiction|].
    destruct (Z.eqb_spec (item t 18) 1); [contradiction|].
    reflexivity. }
  split; [exact E|]. unfold frame_result. rewrite E. reflexivity.
Qed.

Lemma decode_rejects_witness :
  decode (frame_with [17%nat]) = None
  /\ frame_result (frame_with [17%nat]) = failed.
Proof.
  apply decode_rejects. right. left. vm_compute. discriminate.
Defined.

(** The fields the code sums bit by bit are the BCD values of the
    corresponding slices of the frame. *)
Lemma decode_accepts (t : list Z) :
  List.length t = 59%nat ->
  item t 0 = 0 -> item t 20 = 1 ->
  even_parity (slice 21 29 t) ->
  even_parity (slice 29 36 t) ->
  even_parity (slice 36 59 t) ->
  item t 17 = 1 \/ item t 18 = 1 ->
  decode t =
    Some (mkTime (bcd (slice 21 28 t)) (bcd (slice 29 35 t))
            (bcd (slice 36 42 t)) (bcd (slice 42 45 t))
            (bcd (slice 45 50 t)) (bcd (slice 50 58 t))
            (if item t 17 =? 1 then CEST else CET)).
Proof.
  intros L E0 E20 P1 P2 P3 HZ.
  unfold decode, even_parity in *.
  rewrite E0, E20, (even_mod2 _ P1), (even_mod2 _ P2), (even_mod2 _ P3).
  cbn [Z.eqb Pos.eqb negb orb].
  assert (F : forall x1 x2 x3 x4 x5 x6 y1 y2 y3 y4 y5 y6 : Z,
             x1 = y1 -> x2 = y2 -> x3 = y3 -> x4 = y4 -> x5 = y5 -> x6 = y6 ->
             (if item t 17 =? 1 then Some (mkTime x1 x2 x3 x4 x5 x6 CEST)
              else if item t 18 =? 1 then Some (mkTime x1 x2 x3 x4 x5 x6 CET)
              else None)
             = Some (mkTime y1 y2 y3 y4 y5 y6 (if item t 17 =? 1 then CEST else CET))).
  { intros; subst.
    destruct (Z.eqb_spec (item t 17) 1); [reflexivity|].
    destruct (Z.eqb_spec (item t 18) 1); [reflexivity|].
    destruct HZ; contradiction. }
  apply F;
    clear - L;
    do 59 (destruct t as [|? t]; [discriminate L|]);
    unfold bcd, weights, slice, item; cbn [nth skipn firstn weighted Nat.sub];
    ring.
Qed.

(** *** Round trip through the frame format *)

Lemma even_with_parity (l : list Z) : even_parity (l ++ [parity_bit l]).
Proof.
  unfold even_parity, parity_bit. rewrite sum_app.
  change (sum [sum l mod 2]) with (sum l mod 2 + 0).
  rewrite Z.add_0_r, Zmod_even, Z.even_add.
  destruct (Z.even (sum l)); reflexivity.
Qed.

Lemma bcd_to_bcd (n : Z) :
  (0 <= n < 80 -> bcd (to_bcd 7 n) = n)
  /\ (0 <= n < 40 -> bcd (to_bcd 6 n) = n)
  /\ (0 <= n < 20 -> bcd (to_bcd 5 n) = n)
  /\ (0 <= n < 100 -> bcd (to_bcd 8 n) = n)
  /\ (0 <= n < 8 -> bcd (bits_le 3 n) = n).
Proof.
  repeat split; intros H; apply Z.eqb_eq.
  - apply (range_forall (fun n => bcd (to_bcd 7 n) =? n) 80); [vm_compute; reflexivity | lia].
  - apply (range_forall (fun n => bcd (to_bcd 6 n) =? n) 40); [vm_compute; reflexivity | lia].
  - apply (range_forall (fun n => bcd (to_bcd 5 n) =? n) 20); [vm_compute; reflexivity | lia].
  - apply (range_forall (fun n => bcd (to_bcd 8 n) =? n) 100); [vm_compute; reflexivity | lia].
  - apply (range_forall (fun n => bcd (bits_le 3 n) =? n) 8); [vm_compute; reflexivity | lia].
Qed.

Lemma encode_length (k : DecodedTime) (pre : list Z) (leap : Z) :
  List.length (encode k pre leap) = (43 + List.length pre)%nat.
Proof.
  unfold encode. cbn [app List.length]. rewrite length_app. cbn. lia.
Qed.

Lemma encode_layout (k : DecodedTime) (pre : list Z) (leap : Z) :
  List.length pre = 16%nat ->
  let t := encode k pre leap in
  item t 0 = 0 /\ item t 20 = 1
  /\ item t 17 = match season k with CEST => 1 | CET => 0 end
  /\ item t 18 = match season k with CEST => 0 | CET => 1 end
  /\ slice 21 29 t = to_bcd 7 (minute k) ++ [parity_bit (to_bcd 7 (minute k))]
  /\ slice 29 36 t = to_bcd 6 (stunde k) ++ [parity_bit (to_bcd 6 (stunde k))]
  /\ slice 36 59 t =
       (to_bcd 6 (tag k) ++ bits_le 3 (wochentag k) ++ to_bcd 5 (monat k)
        ++ to_bcd 8 (jahr k))
       ++ [parity_bit (to_bcd 6 (tag k) ++ bits_le 3 (wochentag k)
                       ++ to_bcd 5 (monat k) ++ to_bcd 8 (jahr k))]
  /\ slice 21 28 t = to_bcd 7 (minute k)
  /\ slice 29 35 t = to_bcd 6 (stunde k)
  /\ slice 36 42 t = to_bcd 6 (tag k)
  /\ slice 42 45 t = bits_le 3 (wochentag k)
  /\ slice 45 50 t = to_bcd 5 (monat k)
  /\ slice 50 58 t = to_bcd 8 (jahr k).
Proof.
  intros L.
  do 16 (destruct pre as [|? pre]; [discriminate L|]).
  destruct pre; [|discriminate L].
  unfold encode, to_bcd, slice, item.
  cbn [app firstn skipn bits_le nth Nat.sub].
  repeat split; reflexivity.
Qed.

Lemma decode_encode (k : DecodedTime) (pre : list Z) (leap : Z) :
  in_range k -> List.length pre = 16%nat ->
  decode (encode k pre leap) = Some k.
Proof.
  intros (Hmi & Hh & Hd & Hw & Hmo & Hy) L.
  destruct (encode_layout k pre leap L)
    as (E0 & E20 & E17 & E18 & S1 & S2 & S3 & F1 & F2 & F3 & F4 & F5 & F6).
  rewrite decode_accepts.
  - rewrite F1, F2, F3, F4, F5, F6, E17.
    destruct (bcd_to_bcd (minute k)) as (B7 & _).
    destruct (bcd_to_bcd (stunde k)) as (_ & B6 & _).
    destruct (bcd_to_bcd (tag k)) as (_ & B6' & _).
    destruct (bcd_to_bcd (wochentag k)) as (_ & _ & _ & _ & B3).
    destruct (bcd_to_bcd (monat k)) as (_ & _ & B5 & _).
    destruct (bcd_to_bcd (jahr k)) as (_ & _ & _ & B8 & _).
    rewrite B7, B6, B6', B3, B5, B8 by lia.
    destruct k as [? ? ? ? ? ? []]; reflexivity.
  - rewrite encode_length, L. reflexivity.
  - exact E0.
  - exact E20.
  - rewrite S1. apply even_with_parity.
  - rewrite S2. apply even_with_parity.
  - rewrite S3. apply even_with_parity.
  - rewrite E17, E18. destruct (season k); [left|right]; reflexivity.
Qed.

Lemma bit_mod2 (x : Z) : bit (x mod 2).
Proof.
  unfold bit. pose proof (Z.mod_pos_bound x 2 ltac:(lia)). lia.
Qed.

Lemma bits_le_bits (k : nat) : forall n, Forall bit (bits_le k n).
Proof.
  induction k as [|k IH]; intros n; cbn [bits_le]; constructor.
  - apply bit_mod2.
  - apply IH.
Qed.

Lemma firstn_bits (n : nat) : forall l, Forall bit l -> Forall bit (firstn n l).
Proof.
  induction n as [|n IH]; intros l H; cbn [firstn].
  - constructor.
  - destruct H as [|x l Hx Hl]; constructor; [exact Hx | apply IH; exact Hl].
Qed.

(** *** Ranges of the decoded fields *)

Lemma item_01 (t : list Z) : Forall bit t -> forall i, 0 <= item t i <= 1.
Proof.
  intros H i. destruct (item_bit t H i) as [E|E]; rewrite E; lia.
Qed.

Lemma fields_bounded (t : list Z) (d : DecodedTime) :
  Forall bit t -> decode t = Some d -> in_bcd_range d.
Proof.
  intros H. unfold decode.
  destruct (negb (item t 0 =? 0) || negb (item t 20 =? 1)); [discriminate|].
  destruct (_ || _); [discriminate|].
  intros E.
  assert (E' : exists z, d =
    (mkTime
      (item t 21 + 2 * item t 22 + 4 * item t 23 + 8 * item t 24
       + 10 * item t 25 + 20 * item t 26 + 40 * item t 27)
      (item t 29 + 2 * item t 30 + 4 * item t 31 + 8 * item t 32
       + 10 * item t 33 + 20 * item t 34)
      (item t 36 + 2 * item t 37 + 4 * item t 38 + 8 * item t 39
       + 10 * item t 40 + 20 * item t 41)
      (item t 42 + 2 * item t 43 + 4 * item t 44)
      (item t 45 + 2 * item t 46 + 4 * item t 47 + 8 * item t 48
       + 10 * item t 49)
      (item t 50 + 2 * item t 51 + 4 * item t 52 + 8 * item t 53
       + 10 * item t 54 + 20 * item t 55 + 40 * item t 56 + 80 * item t 57)
      z)).
  { destruct (item t 17 =? 1); [exists CEST; congruence|].
    destruct (item t 18 =? 1); [exists CET; congruence|discriminate]. }
  destruct E' as [z ->]. clear E.
  unfold in_bcd_range. cbn [minute stunde tag wochentag monat jahr].
  repeat match goal with
         | |- context [item t ?i] =>
             let B := fresh "B" in
             pose proof (item_01 t H i) as B;
             generalize dependent (item t i); intros
         end.
  lia.
Qed.

Lemma radiotime_not_failed (d : DecodedTime) :
  0 <= stunde d <= 45 -> radiotime_of d <> failed.
Proof.
  intros H.
  assert (L : (len (twodigits (str (stunde d))) =? 2) = true).
  { apply (range_forall (fun h => len (twodigits (str h)) =? 2) 46);
      [vm_compute; reflexivity | lia]. }
  unfold radiotime_of, failed.
  destruct (twodigits (str (stunde d))) as [|c1 [|c2 [|c3 r]]];
    try (vm_compute in L; discriminate L).
  - cbn [append]. intros E. discriminate E.
  - exfalso. unfold len in L. cbn [String.length] in L.
    apply Z.eqb_eq in L. lia.
Qed.

(** Every string the receiver loop returns is the result of the frame
    stage on a complete frame of 59 classified bits. *)
Lemma classify_inv (s : rx) : rx_inv s -> rx_inv (classify s).
Proof.
  unfold rx_inv, classify. intros [Hn Hb].
  destruct (edge (win s)); [|split; assumption].
  destruct (gt_q _ _); [|split; assumption].
  assert (B0 : Forall bit [0]) by (constructor; [left; reflexivity | constructor]).
  assert (B1 : Forall bit [1]) by (constructor; [right; reflexivity | constructor]).
  destruct (le_q _ _); cbn [timeInfo bitNum]; rewrite length_app; cbn [List.length];
    (split; [lia|]);
    apply Forall_app; split; assumption.
Qed.

Lemma run_inv (vs : list Z) :
  forall (s : rx) (r : string),
    rx_inv s -> run s vs = Some r ->
    exists t, is_frame t /\ r = frame_result t.
Proof.
  induction vs as [|v vs IH]; intros s r Hs; cbn [run].
  - discriminate.
  - unfold step.
    set (s1 := classify _).
    assert (H1 : rx_inv s1).
    { apply classify_inv. destruct Hs as [Hn Hb]. split; assumption. }
    destruct (Z.eqb_spec (bitNum s1) 59) as [E|E].
    + intros R. injection R as <-. exists (timeInfo s1).
      destruct H1 as [Hn Hb]. split; [|reflexivity].
      split; [lia|assumption].
    + apply IH. exact H1.
Qed.

Lemma computeTime_frame (vs : list Z) (r : string) :
  computeTime vs = Some r -> exists t, is_frame t /\ r = frame_result t.
Proof.
  apply run_inv. split; [reflexivity | constructor].
Qed.

(** The loop on the sampled signal of a whole minute. *)
Example computeTime_may_24 :
  computeTime (signal_of frame_may_24) = Some "13:45:00,Monday,2021-05-24"%string.
Proof. vm_compute. reflexivity. Qed.

Lemma is_frameb_spec (t : list Z) : is_frameb t = true -> is_frame t.
Proof.
  unfold is_frameb, is_frame. intros H.
  apply andb_prop in H. destruct H as [L B].
  split.
  - apply Nat.eqb_eq. exact L.
  - apply Forall_forall. intros x Hx.
    rewrite forallb_forall in B. specialize (B x Hx).
    unfold bitb in B. apply orb_prop in B.
    destruct B as [B|B]; apply Z.eqb_eq in B; [left|right]; exact B.
Qed.

(** *** The claims about the frame stage *)

(** C2, as the code has it. For every 59-bit frame whose bit 0 is 0, whose
    bit 20 is 1, whose three parity groups are even and which has zone
    bit 17 or zone bit 18 set, the decoder succeeds: the returned string is
    not the failure value, and minute, hour, day, weekday, month and year
    are the BCD-weighted values of their bit groups; when the frame encodes
    a known time, that time is what the decoder recovers. *)
Theorem decode_valid_frame (t : list Z) :
  is_frame t ->
  item t 0 = 0 -> item t 20 = 1 ->
  even_parity (slice 21 29 t) ->
  even_parity (slice 29 36 t) ->
  even_parity (slice 36 59 t) ->
  item t 17 = 1 \/ item t 18 = 1 ->
  exists d,
    decode t = Some d
    /\ frame_result t = radiotime_of d
    /\ frame_result t <> failed
    /\ minute d = bcd (slice 21 28 t)
    /\ stunde d = bcd (slice 29 35 t)
    /\ tag d = bcd (slice 36 42 t)
    /\ wochentag d = bcd (slice 42 45 t)
    /\ monat d = bcd (slice 45 50 t)
    /\ jahr d = bcd (slice 50 58 t)
    /\ season d = (if item t 17 =? 1 then CEST else CET)
    /\ (forall k pre leap, in_range k -> t = encode k pre leap -> d = k).
Proof.
  intros [L B] E0 E20 P1 P2 P3 HZ.
  pose proof (decode_accepts t L E0 E20 P1 P2 P3 HZ) as D.
  eexists. split; [exact D|].
  assert (R : frame_result t = radiotime_of
                (mkTime (bcd (slice 21 28 t)) (bcd (slice 29 35 t))
                   (bcd (slice 36 42 t)) (bcd (slice 42 45 t))
                   (bcd (slice 45 50 t)) (bcd (slice 50 58 t))
                   (if item t 17 =? 1 then CEST else CET))).
  { unfold frame_result. rewrite D. reflexivity. }
  split; [exact R|].
  split.
  { rewrite R. apply radiotime_not_failed.
    destruct (fields_bounded t _ B D) as (_ & H & _). exact H. }
  do 7 (split; [reflexivity|]).
  intros k pre leap Hk ->.
  assert (Lp : List.length pre = 16%nat).
  { rewrite encode_length in L. lia. }
  rewrite (decode_encode k pre leap Hk Lp) in D.
  congruence.
Qed.

Lemma decode_valid_frame_witness :
  exists d, decode frame_may_24 = Some d /\ minute d = 45 /\ stunde d = 13.
Proof.
  destruct (decode_valid_frame frame_may_24) as (d & D & _ & _ & M & H & _).
  - apply is_frameb_spec. vm_compute. reflexivity.
  - reflexivity.
  - reflexivity.
  - vm_compute. reflexivity.
  - vm_compute. reflexivity.
  - vm_compute. reflexivity.
  - left. reflexivity.
  - exists d. split; [exact D|]. split; [rewrite M|rewrite H]; vm_compute; reflexivity.
Defined.

(** C2, as stated, fails: markers and parities are in order in this
    frame, but neither zone bit is set, and the decoder answers with the
    failure value. *)
Lemma decode_needs_zone_bit :
  is_frame frame_no_zone
  /\ item frame_no_zone 0 = 0 /\ item frame_no_zone 20 = 1
  /\ even_parity (slice 21 29 frame_no_zone)
  /\ even_parity (slice 29 36 frame_no_zone)
  /\ even_parity (slice 36 59 frame_no_zone)
  /\ decode frame_no_zone = None
  /\ frame_result frame_no_zone = failed.
Proof.
  split; [apply is_frameb_spec; vm_compute; reflexivity|].
  repeat split; vm_compute; reflexivity.
Qed.

(** Every value within the weights of a field has a bit pattern. *)
Lemma bcd_to_bcd_wide (n : Z) :
  (0 <= n <= 85 -> bcd (to_bcd_wide 7 n) = n)
  /\ (0 <= n <= 45 -> bcd (to_bcd_wide 6 n) = n)
  /\ (0 <= n <= 25 -> bcd (to_bcd_wide 5 n) = n)
  /\ (0 <= n <= 165 -> bcd (to_bcd_wide 8 n) = n).
Proof.
  repeat split; intros H; apply Z.eqb_eq.
  - apply (range_forall (fun n => bcd (to_bcd_wide 7 n) =? n) 86);
      [vm_compute; reflexivity | lia].
  - apply (range_forall (fun n => bcd (to_bcd_wide 6 n) =? n) 46);
      [vm_compute; reflexivity | lia].
  - apply (range_forall (fun n => bcd (to_bcd_wide 5 n) =? n) 26);
      [vm_compute; reflexivity | lia].
  - apply (range_forall (fun n => bcd (to_bcd_wide 8 n) =? n) 166);
      [vm_compute; reflexivity | lia].
Qed.

Lemma to_bcd_wide_bits (w : nat) (n : Z) : Forall bit (to_bcd_wide w n).
Proof.
  unfold to_bcd_wide. apply firstn_bits. apply Forall_app.
  split; apply bits_le_bits.
Qed.

Lemma encode_wide_is_frame (d : DecodedTime) : is_frame (encode_wide d).
Proof.
  split; [reflexivity|].
  unfold encode_wide.
  assert (B0 : bit 0) by (left; reflexivity).
  assert (B1 : bit 1) by (right; reflexivity).
  repeat (apply Forall_app; split);
    repeat first [ apply to_bcd_wide_bits | apply bits_le_bits
                 | apply Forall_nil
                 | apply Forall_cons;
                   [first [assumption | apply bit_mod2
                          | destruct (season d); assumption]|] ].
Qed.

Lemma decode_encode_wide (d : DecodedTime) :
  in_bcd_range d -> decode (encode_wide d) = Some d.
Proof.
  intros (Hmi & Hh & Hd & Hw & Hmo & Hy).
  set (t := encode_wide d).
  assert (S1 : slice 21 29 t
               = to_bcd_wide 7 (minute d) ++ [parity_bit (to_bcd_wide 7 (minute d))])
    by reflexivity.
  assert (S2 : slice 29 36 t
               = to_bcd_wide 6 (stunde d) ++ [parity_bit (to_bcd_wide 6 (stunde d))])
    by reflexivity.
  assert (S3 : slice 36 59 t
               = (to_bcd_wide 6 (tag d) ++ bits_le 3 (wochentag d)
                  ++ to_bcd_wide 5 (monat d) ++ to_bcd_wide 8 (jahr d))
                 ++ [parity_bit (to_bcd_wide 6 (tag d) ++ bits_le 3 (wochentag d)
                                 ++ to_bcd_wide 5 (monat d)
                                 ++ to_bcd_wide 8 (jahr d))])
    by reflexivity.
  assert (F1 : slice 21 28 t = to_bcd_wide 7 (minute d)) by reflexivity.
  assert (F2 : slice 29 35 t = to_bcd_wide 6 (stunde d)) by reflexivity.
  assert (F3 : slice 36 42 t = to_bcd_wide 6 (tag d)) by reflexivity.
  assert (F4 : slice 42 45 t = bits_le 3 (wochentag d)) by reflexivity.
  assert (F5 : slice 45 50 t = to_bcd_wide 5 (monat d)) by reflexivity.
  assert (F6 : slice 50 58 t = to_bcd_wide 8 (jahr d)) by reflexivity.
  assert (E17 : item t 17 = match season d with CEST => 1 | CET => 0 end)
    by reflexivity.
  assert (E18 : item t 18 = match season d with CEST => 0 | CET => 1 end)
    by reflexivity.
  rewrite decode_accepts.
  - rewrite F1, F2, F3, F4, F5, F6, E17.
    destruct (bcd_to_bcd_wide (minute d)) as (B7 & _).
    destruct (bcd_to_bcd_wide (stunde d)) as (_ & B6 & _).
    destruct (bcd_to_bcd_wide (tag d)) as (_ & B6' & _).
    destruct (bcd_to_bcd (wochentag d)) as (_ & _ & _ & _ & B3).
    destruct (bcd_to_bcd_wide (monat d)) as (_ & _ & B5 & _).
    destruct (bcd_to_bcd_wide (jahr d)) as (_ & _ & _ & B8).
    rewrite B7, B6, B6', B3, B5, B8 by lia.
    destruct d as [? ? ? ? ? ? []]; reflexivity.
  - reflexivity.
  - reflexivity.
  - reflexivity.
  - rewrite S1. apply even_with_parity.
  - rewrite S2. apply even_with_parity.
  - rewrite S3. apply even_with_parity.
  - rewrite E17, E18. destruct (season d); [left|right]; reflexivity.
Qed.

(** C7, as the code has it. Every successfully decoded time has its
    fields within the bounds of the BCD weights: minute 0-85, hour 0-45,
    day 0-45, weekday 0-7, month 0-25, year 0-165; and the marker, parity
    and zone checks enforce nothing narrower: every time with its fields
    within these bounds, up to 85:45 on day 45, weekday 7, of month 25 in
    year 165, is the decoding of a frame that passes them. *)
Theorem decoded_fields_bcd_bounded :
  (forall (t : list Z) (d : DecodedTime),
      is_frame t -> decode t = Some d ->
      in_bcd_range d /\ frame_result t = radiotime_of d
      /\ frame_result t <> failed)
  /\ (forall d : DecodedTime,
         in_bcd_range d ->
         exists t, is_frame t /\ decode t = Some d
                   /\ frame_result t = radiotime_of d)
  /\ in_bcd_range (mkTime 85 45 45 7 25 165 CEST)
  /\ in_bcd_range (mkTime 0 0 0 0 0 0 CET).
Proof.
  split; [|split; [|split]].
  - intros t d [L B] D.
    pose proof (fields_bounded t d B D) as R.
    split; [exact R|].
    assert (F : frame_result t = radiotime_of d).
    { unfold frame_result. rewrite D. reflexivity. }
    split; [exact F|].
    rewrite F. apply radiotime_not_failed.
    destruct R as (_ & H & _). exact H.
  - intros d R. exists (encode_wide d).
    split; [apply encode_wide_is_frame|].
    pose proof (decode_encode_wide d R) as D.
    split; [exact D|].
    unfold frame_result. rewrite D. reflexivity.
  - unfold in_bcd_range. cbn. lia.
  - unfold in_bcd_range. cbn. lia.
Qed.

Lemma decoded_fields_bcd_bounded_witness :
  (in_bcd_range (mkTime 85 0 0 0 0 0 CEST)
   /\ frame_result frame_minute_85 = "00:85:00,Invalid day of week,2000-00-00")
  /\ (exists t, is_frame t
                /\ decode t = Some (mkTime 85 45 45 7 25 165 CEST)
                /\ frame_result t = "45:85:00,Sunday,2165-25-45").
Proof.
  destruct decoded_fields_bcd_bounded as (Bound & Tight & Top & _).
  split.
  - destruct (Bound frame_minute_85 (mkTime 85 0 0 0 0 0 CEST)) as (R & F & _).
    + apply is_frameb_spec. vm_compute. reflexivity.
    + vm_compute. reflexivity.
    + split; [exact R|]. rewrite F. vm_compute. reflexivity.
  - destruct (Tight (mkTime 85 45 45 7 25 165 CEST) Top) as (t & Ft & D & F).
    exists t. split; [exact Ft|]. split; [exact D|].
    rewrite F. vm_compute. reflexivity.
Defined.

(** C7, as stated, fails: this frame passes the marker and parity checks
    and decodes, with minute 85, day 0, weekday 0 and month 0. *)
Lemma decoded_minute_out_of_range :
  is_frame frame_minute_85
  /\ decode frame_minute_85 = Some (mkTime 85 0 0 0 0 0 CEST)
  /\ ~ in_range (mkTime 85 0 0 0 0 0 CEST).
Proof.
  split; [apply is_frameb_spec; vm_compute; reflexivity|].
  split; [vm_compute; reflexivity|].
  unfold in_range. cbn [minute]. lia.
Qed.
End DcfFacts.

(** ** The stepper clock *)

Module ClockFacts.

Import Clock Cycle PyFacts.
Local Open Scope clock_scope.
Local Open Scope list_scope.

(** *** Time strings and record lines read back *)

Lemma hm_table :
  forallb (fun h => forallb (fun m => hm_check h m && record_check h m) (range 60))
          (range 24) = true.
Proof. vm_compute. reflexivity. Qed.

Lemma hm_table_at (h m : Z) :
  0 <= h < 24 -> 0 <= m < 60 -> hm_check h m = true /\ record_check h m = true.
Proof.
  intros Hh Hm.
  pose proof (range_forall _ 24 hm_table h Hh) as R. cbv beta in R.
  pose proof (range_forall _ 60 R m Hm) as R'. cbv beta in R'.
  apply andb_prop in R'. exact R'.
Qed.

Lemma unpack_hm_hm (h m : Z) :
  0 <= h < 24 -> 0 <= m < 60 -> unpack_hm (hm h m) = Ok (h, m).
Proof.
  intros Hh Hm. destruct (hm_table_at h m Hh Hm) as [C _].
  unfold hm_check in C.
  destruct (unpack_hm (hm h m)) as [[h' m']|]; [|discriminate].
  apply andb_prop in C. destruct C as [C1 C2].
  apply Z.eqb_eq in C1, C2. subst. reflexivity.
Qed.

Lemma parse_record_line (h m : Z) (a b : bool) :
  0 <= h < 24 -> 0 <= m < 60 ->
  parse_record (record_line (hm h m) a b) = Ok (hm h m, a, b).
Proof.
  intros Hh Hm. destruct (hm_table_at h m Hh Hm) as [_ C].
  unfold record_check in C. rewrite forallb_forall in C.
  specialize (C (a, b)). cbn [fst snd] in C.
  assert (I : In (a, b) [(true, true); (true, false); (false, true); (false, false)]).
  { destruct a, b; cbn; auto. }
  specialize (C I).
  destruct (parse_record (record_line (hm h m) a b)) as [[[s a'] b']|]; [|discriminate].
  apply andb_prop in C. destruct C as [C Cb].
  apply andb_prop in C. destruct C as [Cs Ca].
  apply String.eqb_eq in Cs. apply Bool.eqb_prop in Ca, Cb. subst. reflexivity.
Qed.

Lemma pulsessince12_unpack (s : string) (h m : Z) :
  unpack_hm s = Ok (h, m) -> pulsessince12 s = Ok (index_of h m).
Proof.
  unfold unpack_hm, pulsessince12, index_of, pulsefrequency.
  destruct (split ":" s) as [|p0 [|p1 [|p2 r]]]; try discriminate.
  destruct (int p0) as [h'|]; [|discriminate].
  destruct (int p1) as [m'|]; [|discriminate].
  cbn [rbind]. intros E. injection E as -> ->.
  f_equal.
  replace ((h mod 12) * 3600 + m * 60) with (((h mod 12) * 60 + m) * 60) by ring.
  apply Z.div_mul. discriminate.
Qed.

(** *** Index arithmetic on the half-day cycle *)

Lemma index_of_range (h m : Z) : 0 <= m < 60 -> 0 <= index_of h m < half_day.
Proof.
  unfold index_of, half_day. intros Hm.
  pose proof (Z.mod_pos_bound h 12 ltac:(lia)). lia.
Qed.

Lemma hm_of_fields (p : Z) :
  0 <= (p mod half_day) / 60 < 12 /\ 0 <= p mod 60 < 60
  /\ index_of ((p mod half_day) / 60) (p mod 60) = p mod half_day.
Proof.
  unfold index_of, half_day.
  pose proof (Z.mod_pos_bound p 720 ltac:(lia)) as B.
  pose proof (Z.mod_pos_bound p 60 ltac:(lia)) as B'.
  assert (D : 0 <= p mod 720 / 60 < 12).
  { split; [apply Z.div_pos; lia | apply Z.div_lt_upper_bound; lia]. }
  split; [exact D|]. split; [exact B'|].
  rewrite (Z.mod_small (p mod 720 / 60) 12) by exact D.
  assert (E : p mod 60 = (p mod 720) mod 60).
  { symmetry. apply Z.mod_mod_divide. exists 12. reflexivity. }
  rewrite E.
  pose proof (Z.div_mod (p mod 720) 60 ltac:(lia)). lia.
Qed.

Lemma advance_fields (h m : Z) :
  hm ((h + (m + 1) / 60) mod 12) ((m + 1) mod 60) = hm_of (index_of h m + 1).
Proof.
  unfold hm_of, index_of, half_day.
  assert (E1 : ((h mod 12) * 60 + m + 1) mod 60 = (m + 1) mod 60).
  { replace ((h mod 12) * 60 + m + 1) with (m + 1 + (h mod 12) * 60) by ring.
    apply Z.mod_add. lia. }
  assert (E2 : (((h mod 12) * 60 + m + 1) mod 720) / 60 = (h + (m + 1) / 60) mod 12).
  { pose proof (Z.div_mod (m + 1) 60 ltac:(lia)) as Dm.
    pose proof (Z.mod_pos_bound (m + 1) 60 ltac:(lia)) as Bm.
    pose proof (Z.div_mod h 12 ltac:(lia)) as Dh.
    pose proof (Z.mod_pos_bound h 12 ltac:(lia)) as Bh.
    set (q := (m + 1) / 60) in *. set (r := (m + 1) mod 60) in *.
    pose proof (Z.div_mod (h + q) 12 ltac:(lia)) as Dq.
    pose proof (Z.mod_pos_bound (h + q) 12 ltac:(lia)) as Bq.
    set (u := (h + q) mod 12) in *.
    assert (M : ((h mod 12) * 60 + m + 1) mod 720 = u * 60 + r).
    { symmetry. apply (Z.mod_unique _ _ ((h + q) / 12 - h / 12)); lia. }
    rewrite M. symmetry. apply (Z.div_unique _ _ _ r); lia. }
  rewrite E1, E2. reflexivity.
Qed.


Lemma hm_of_congr (p q : Z) : p mod half_day = q mod half_day -> hm_of p = hm_of q.
Proof.
  unfold hm_of, half_day. intros E.
  assert (E60 : p mod 60 = q mod 60).
  { rewrite <- (Z.mod_mod_divide p 720 60), <- (Z.mod_mod_divide q 720 60)
      by (exists 12; reflexivity).
    rewrite E. reflexivity. }
  rewrite E, E60. reflexivity.
Qed.

Lemma pulse_events_congr (k : nat) :
  forall p q a b,
    p mod half_day = q mod half_day -> pulse_events p a b k = pulse_events q a b k.
Proof.
  induction k as [|k IH]; intros p q a b E; cbn [pulse_events].
  - reflexivity.
  - assert (E1 : (p + 1) mod half_day = (q + 1) mod half_day).
    { unfold half_day in *.
      rewrite <- (Zplus_mod_idemp_l p), <- (Zplus_mod_idemp_l q), E. reflexivity. }
    rewrite (hm_of_congr _ _ E1), (IH _ _ _ _ E1). reflexivity.
Qed.

Lemma pulses_app (l1 l2 : list event) : pulses (l1 ++ l2) = (pulses l1 + pulses l2)%nat.
Proof.
  induction l1 as [|e l1 IH]; cbn [app pulses].
  - reflexivity.
  - destruct e; rewrite IH; reflexivity.
Qed.

Lemma pulses_pulse_events (k : nat) : forall p a b, pulses (pulse_events p a b k) = k.
Proof.
  induction k as [|k IH]; intros p a b; cbn [pulse_events pulses].
  - reflexivity.
  - rewrite IH. reflexivity.
Qed.

(** *** What the operations do to the world *)

Lemma unpack_hm_of (p : Z) :
  unpack_hm (hm_of p) = Ok ((p mod half_day) / 60, p mod 60).
Proof.
  destruct (hm_of_fields p) as (Hh & Hm & _).
  unfold hm_of. apply unpack_hm_hm; lia.
Qed.

Lemma parse_record_hm_of (p : Z) (a b : bool) :
  parse_record (record_line (hm_of p) a b) = Ok (hm_of p, a, b).
Proof.
  destruct (hm_of_fields p) as (Hh & Hm & _).
  unfold hm_of. apply parse_record_line; lia.
Qed.

Lemma pulsessince12_hm_of (p : Z) : pulsessince12 (hm_of p) = Ok (p mod half_day).
Proof.
  rewrite (pulsessince12_unpack _ _ _ (unpack_hm_of p)).
  destruct (hm_of_fields p) as (_ & _ & E). rewrite E. reflexivity.
Qed.

Lemma pulsessince12_now (now : clock_reading) :
  reading_ok now -> pulsessince12 (now_hm now) = Ok (index_of (fst now) (snd now)).
Proof.
  intros [Hh Hm]. apply pulsessince12_unpack. apply unpack_hm_hm; assumption.
Qed.

Lemma pulsetoclock_ok (last_hm : string) (a b : bool) (h m : Z) (w : world) :
  unpack_hm last_hm = Ok (h, m) ->
  pulsetoclock last_hm a b w
  = (Ok (hm_of (index_of h m + 1), negb a, negb b), pulsed w (index_of h m) a b).
Proof.
  intros U.
  unfold pulsetoclock, bind, emit, lift, try_, write_lastpulseat, ret, pulsed.
  cbn [lastpulseat firstruntime log]. rewrite U.
  rewrite advance_fields. cbn [pulse_events lastpulseat firstruntime log].
  rewrite <- !app_assoc. reflexivity.
Qed.

Lemma pulsetoclock_err (last_hm : string) (a b : bool) (e : exn) (w : world) :
  unpack_hm last_hm = Err e ->
  pulsetoclock last_hm a b w
  = (Err e, mkWorld (lastpulseat w) (firstruntime w)
              (log w ++ [Drive (negb a) (negb b); Release])).
Proof.
  intros U.
  unfold pulsetoclock, bind, emit, lift.
  cbn [lastpulseat firstruntime log]. rewrite U.
  rewrite <- !app_assoc. reflexivity.
Qed.

Lemma persisted_pulsed (w : world) (p : Z) (a b : bool) :
  stored (pulsed w p a b) (hm_of (p + 1)) (negb a) (negb b)
         (((p + 1) mod half_day) / 60) ((p + 1) mod 60)
  /\ persisted_index (pulsed w p a b) = Some ((p + 1) mod half_day)
  /\ persisted_phases (pulsed w p a b) = Some (negb a, negb b).
Proof.
  split; [|split].
  - eexists. split; [reflexivity|]. split.
    + apply parse_record_hm_of.
    + apply unpack_hm_of.
  - unfold persisted_index, pulsed. cbn [lastpulseat].
    rewrite parse_record_hm_of. cbn [rbind]. rewrite pulsessince12_hm_of. reflexivity.
  - unfold persisted_phases, pulsed. cbn [lastpulseat].
    rewrite parse_record_hm_of. reflexivity.
Qed.

Lemma stored_index (w : world) (last_hm : string) (a b : bool) (h m : Z) :
  stored w last_hm a b h m ->
  persisted_index w = Some (index_of h m) /\ persisted_phases w = Some (a, b).
Proof.
  intros (c & Hc & Hp & Hu).
  unfold persisted_index, persisted_phases. rewrite Hc, Hp. cbn [rbind].
  rewrite (pulsessince12_unpack _ _ _ Hu). split; reflexivity.
Qed.

Lemma calcoffset_stored (cur : string) (cp : Z) (w : world)
      (last_hm : string) (a b : bool) (h m : Z) :
  stored w last_hm a b h m ->
  pulsessince12 cur = Ok cp ->
  calcoffset cur w = (Ok (Some (cp - index_of h m, last_hm, a, b)), w).
Proof.
  intros (c & Hc & Hp & Hu) Hcur.
  unfold calcoffset, bind, try_, load_state, bind, read_lastpulseat, lift, ret.
  rewrite Hc, Hp, (pulsessince12_unpack _ _ _ Hu), Hcur. reflexivity.
Qed.

Lemma calcoffset_bootstrap (cur : string) (cp lp : Z) (w : world) (c : string) :
  lastpulseat w = None ->
  firstruntime w = Some c ->
  pulsessince12 (strip c) = Ok lp ->
  pulsessince12 cur = Ok cp ->
  calcoffset cur w
  = (Ok (Some (cp - lp, strip c, false, true)),
     mkWorld (Some (record_line (strip c) false true)) (Some c)
             (log w ++ [Persist (record_line (strip c) false true)])).
Proof.
  intros Hl Hf Hp Hcur.
  unfold calcoffset, bind, try_, load_state, bootstrap, bind, try_,
    read_lastpulseat, read_firstruntime, write_lastpulseat, lift, ret.
  rewrite Hl. cbn [fst snd]. rewrite Hf, Hp. cbn [firstruntime log].
  rewrite Hcur, Hf. reflexivity.
Qed.

Lemma calcoffset_no_baseline (cur : string) (w : world) :
  lastpulseat w = None -> firstruntime w = None ->
  calcoffset cur w = (Ok None, w).
Proof.
  intros Hl Hf.
  unfold calcoffset, bind, try_, load_state, bootstrap, bind, try_,
    read_lastpulseat, read_firstruntime, ret.
  rewrite Hl, Hf. reflexivity.
Qed.

(** [calcoffset] drives nothing: whatever it returns or raises, it adds no
    pulse to the log. *)
Lemma bootstrap_no_pulse (w : world) :
  pulses (log (snd (bootstrap w))) = pulses (log w).
Proof.
  unfold bootstrap, bind, try_, read_firstruntime, write_lastpulseat, lift, ret, raise.
  destruct (firstruntime w) as [c|]; [|reflexivity].
  destruct (pulsessince12 (strip c)) as [lp|e]; [|reflexivity].
  cbn [snd log]. rewrite pulses_app. cbn [pulses]. lia.
Qed.

Lemma calcoffset_no_pulse (cur : string) (w : world) :
  pulses (log (snd (calcoffset cur w))) = pulses (log w).
Proof.
  assert (T : forall (r : result (option (string * bool * bool * Z))) (w1 : world),
             pulses (log w1) = pulses (log w) ->
             pulses (log (snd (
               match r with
               | Ok st =>
                   match st with
                   | None => ret None
                   | Some (last_hm, a, b, last_p) =>
                       current_p <- lift (pulsessince12 cur) ;;
                       ret (Some (current_p - last_p, last_hm, a, b))
                   end w1
               | Err e => (Err e, w1)
               end))) = pulses (log w)).
  { intros r w1 H. unfold bind, lift, ret.
    destruct r as [[[[[last_hm a] b] lp]|]|e]; try exact H.
    destruct (pulsessince12 cur); exact H. }
  unfold calcoffset. unfold bind at 1.
  destruct (try_ _ _ w) as [r w1] eqn:E.
  assert (H : pulses (log w1) = pulses (log w)).
  { revert E. unfold try_, load_state, bind, read_lastpulseat, lift, ret, raise.
    pose proof (bootstrap_no_pulse w) as B.
    destruct (lastpulseat w) as [c|].
    - destruct (parse_record c) as [[[last_hm a] b]|e].
      + destruct (pulsessince12 last_hm) as [lp|e].
        * intros E. injection E as _ <-. reflexivity.
        * destruct e; intros E; try (injection E as _ <-; reflexivity).
          rewrite E in B. exact B.
      + destruct e; intros E; try (injection E as _ <-; reflexivity).
        rewrite E in B. exact B.
    - intros E. rewrite E in B. exact B. }
  specialize (T r w1 H). destruct r as [st|e]; exact T.
Qed.

(** [pulsetoclock] always drives exactly one pulse, also when it raises
    afterwards. *)
Lemma pulsetoclock_one_pulse (last_hm : string) (a b : bool) (w : world) :
  pulses (log (snd (pulsetoclock last_hm a b w))) = S (pulses (log w)).
Proof.
  destruct (unpack_hm last_hm) as [[h m]|e] eqn:U.
  - rewrite (pulsetoclock_ok _ _ _ _ _ _ U). unfold pulsed. cbn [snd log].
    rewrite pulses_app, pulses_pulse_events. lia.
  - rewrite (pulsetoclock_err _ _ _ _ _ U). cbn [snd log].
    rewrite pulses_app. cbn [pulses]. lia.
Qed.

Lemma clock_loop_body_stored (now : clock_reading) (w : world)
      (last_hm : string) (a b : bool) (h m : Z) :
  stored w last_hm a b h m ->
  reading_ok now ->
  clock_loop_body now w
  = (Ok tt,
     if index_of (fst now) (snd now) - index_of h m =? 0 then w
     else pulsed w (index_of h m) a b).
Proof.
  intros S R.
  pose proof S as (c & Hc & Hp & Hu).
  unfold clock_loop_body, bind.
  rewrite (calcoffset_stored _ _ _ _ _ _ _ _ S (pulsessince12_now _ R)).
  destruct (Z.eqb_spec (index_of (fst now) (snd now) - index_of h m) 0) as [E|E];
    cbn [negb].
  - reflexivity.
  - rewrite (pulsetoclock_ok _ _ _ _ _ _ Hu). reflexivity.
Qed.

Lemma mod_pred (x n : Z) : 0 < n -> 1 <= x mod n -> (x - 1) mod n = x mod n - 1.
Proof.
  intros Hn H.
  pose proof (Z.mod_pos_bound x n Hn) as B.
  pose proof (Z.div_mod x n ltac:(lia)) as D.
  symmetry. apply (Z.mod_unique _ _ (x / n)); lia.
Qed.

(** Repeating the loop body against one reading closes the deficit pulse
    by pulse: after as many iterations as the deficit modulo the half-day
    cycle, the persisted index is the target. *)
Lemma clock_loop_closes (n : nat) :
  forall (w : world) (last_hm : string) (a b : bool) (h m : Z) (now : clock_reading),
    stored w last_hm a b h m ->
    0 <= index_of h m < half_day ->
    reading_ok now ->
    Z.of_nat n = (index_of (fst now) (snd now) - index_of h m) mod half_day ->
    exists w',
      clock_loop (repeat now n) w = (Ok tt, w')
      /\ persisted_index w' = Some (index_of (fst now) (snd now))
      /\ firstruntime w' = firstruntime w
      /\ log w' = log w ++ pulse_events (index_of h m) a b n.
Proof.
  induction n as [|n IH]; intros w last_hm a b h m now S Hlp R Hn.
  - exists w. cbn [repeat clock_loop pulse_events].
    destruct R as [Rh Rm].
    pose proof (index_of_range (fst now) (snd now) Rm) as Hcp.
    assert (E : index_of (fst now) (snd now) = index_of h m).
    { unfold half_day in *.
      pose proof (Z.div_mod (index_of (fst now) (snd now) - index_of h m) 720 ltac:(lia)).
      lia. }
    rewrite E. split; [reflexivity|].
    split; [apply (stored_index _ _ _ _ _ _ S)|].
    split; [reflexivity|]. rewrite app_nil_r. reflexivity.
  - cbn [repeat clock_loop]. unfold bind.
    rewrite (clock_loop_body_stored _ _ _ _ _ _ _ S R).
    set (cp := index_of (fst now) (snd now)) in *.
    set (lp := index_of h m) in *.
    destruct (Z.eqb_spec (cp - lp) 0) as [E|E].
    { rewrite E in Hn. cbn in Hn. lia. }
    destruct (persisted_pulsed w lp a b) as (S' & _ & _).
    destruct (hm_of_fields (lp + 1)) as (_ & _ & I').
    destruct (IH (pulsed w lp a b) _ _ _ _ _ now S') as (w' & Hrun & Hidx & Hfr & Hlog).
    + rewrite I'. apply Z.mod_pos_bound. reflexivity.
    + exact R.
    + fold cp. rewrite I'. unfold half_day in *.
      rewrite Zminus_mod_idemp_r.
      replace (cp - (lp + 1)) with (cp - lp - 1) by ring.
      rewrite mod_pred; lia.
    + exists w'. split; [exact Hrun|]. split; [exact Hidx|].
      split; [rewrite Hfr; reflexivity|].
      rewrite Hlog. unfold pulsed. cbn [log pulse_events].
      rewrite <- app_assoc. cbn [app]. rewrite I'.
      rewrite (pulse_events_congr n ((lp + 1) mod half_day) (lp + 1)).
      * reflexivity.
      * unfold half_day. apply Z.mod_mod. discriminate.
Qed.

(** The pulse loop of [sync_clock]. *)
Lemma pulse_loop_ok (k : nat) :
  forall (w : world) (last_hm : string) (a b : bool) (h m : Z),
    unpack_hm last_hm = Ok (h, m) ->
    exists st w',
      pulse_loop k (last_hm, a, b) w = (Ok st, w')
      /\ firstruntime w' = firstruntime w
      /\ log w' = log w ++ pulse_events (index_of h m) a b k
      /\ (k <> O ->
          persisted_index w' = Some ((index_of h m + Z.of_nat k) mod half_day)).
Proof.
  induction k as [|k IH]; intros w last_hm a b h m U.
  - exists (last_hm, a, b), w. cbn [pulse_loop pulse_events]. unfold ret.
    split; [reflexivity|]. split; [reflexivity|].
    split; [rewrite app_nil_r; reflexivity|]. intros C. contradiction.
  - cbn [pulse_loop]. unfold bind.
    rewrite (pulsetoclock_ok _ _ _ _ _ _ U).
    set (lp := index_of h m) in *.
    destruct (hm_of_fields (lp + 1)) as (_ & _ & I').
    destruct (persisted_pulsed w lp a b) as (_ & Pidx & _).
    destruct (IH (pulsed w lp a b) _ (negb a) (negb b) _ _ (unpack_hm_of (lp + 1)))
      as (st & w' & Hrun & Hfr & Hlog & Hidx).
    exists st, w'. split; [exact Hrun|].
    split; [rewrite Hfr; reflexivity|].
    split.
    + rewrite Hlog. unfold pulsed. cbn [log pulse_events].
      rewrite <- app_assoc. cbn [app]. rewrite I'.
      rewrite (pulse_events_congr k ((lp + 1) mod half_day) (lp + 1)).
      * reflexivity.
      * unfold half_day. apply Z.mod_mod. discriminate.
    + intros _. destruct k as [|k'].
      * cbn [pulse_loop] in Hrun. unfold ret in Hrun.
        injection Hrun as _ <-. rewrite Pidx. reflexivity.
      * rewrite (Hidx ltac:(discriminate)), I'. unfold half_day.
        rewrite Zplus_mod_idemp_l. f_equal. f_equal. lia.
Qed.

Lemma index_ok (w : world) : index w = (Ok (Page (shown_base w)), w).
Proof.
  unfold index, shown_base, bind, try_, read_firstruntime, ret.
  destruct (firstruntime w) as [c|]; reflexivity.
Qed.

(** The end of [sync_clock] once [calcoffset] has answered with a positive
    offset. *)
Lemma catch_up_from (now : clock_reading) (w w1 : world) (k : Z)
      (last_hm : string) (a b : bool) (h m : Z) :
  calcoffset (now_hm now) w = (Ok (Some (k, last_hm, a, b)), w1) ->
  unpack_hm last_hm = Ok (h, m) ->
  0 < k ->
  exists w',
    catch_up now w = (Ok (Page (shown_base w1)), w')
    /\ firstruntime w' = firstruntime w1
    /\ log w' = log w1 ++ pulse_events (index_of h m) a b (Z.to_nat k)
    /\ persisted_index w' = Some ((index_of h m + k) mod half_day).
Proof.
  intros C U Hk.
  destruct (pulse_loop_ok (Z.to_nat k) w1 last_hm a b h m U)
    as (st & w' & Hrun & Hfr & Hlog & Hidx).
  exists w'.
  unfold catch_up. unfold bind at 1. rewrite C.
  destruct (Z.eqb_spec k 0) as [E|E]; [lia|]. cbn [negb].
  rewrite Z.max_r by lia.
  unfold bind. rewrite Hrun. unfold ret. rewrite index_ok.
  unfold shown_base. rewrite Hfr.
  split; [reflexivity|]. split; [reflexivity|]. split; [exact Hlog|].
  rewrite Hidx by lia. rewrite Z2Nat.id by lia. reflexivity.
Qed.

Lemma calcoffset_indexed (cur : string) (cp lp : Z) (w : world) :
  persisted_index w = Some lp ->
  pulsessince12 cur = Ok cp ->
  exists last_hm a b, calcoffset cur w = (Ok (Some (cp - lp, last_hm, a, b)), w).
Proof.
  unfold persisted_index. intros P Hcur.
  destruct (lastpulseat w) as [c|] eqn:Hc; [|discriminate].
  destruct (parse_record c) as [[[last_hm a] b]|e] eqn:Hp; [|discriminate].
  cbn [rbind] in P.
  destruct (pulsessince12 last_hm) as [lp'|e] eqn:Hl; [|discriminate].
  injection P as ->.
  exists last_hm, a, b.
  unfold calcoffset, bind, try_, load_state, bind, read_lastpulseat, lift, ret.
  rewrite Hc, Hp, Hl, Hcur. reflexivity.
Qed.

(** The catch-up of [sync_clock] does nothing when the target index is
    not ahead of the persisted one. *)
Lemma catch_up_idle (now : clock_reading) (w : world) (lp : Z) :
  reading_ok now ->
  persisted_index w = Some lp ->
  index_of (fst now) (snd now) - lp <= 0 ->
  catch_up now w = (Ok (Page (shown_base w)), w).
Proof.
  intros R P Hk.
  destruct (calcoffset_indexed _ _ _ w P (pulsessince12_now now R))
    as (last_hm & a & b & C).
  unfold catch_up. unfold bind at 1. rewrite C.
  destruct (Z.eqb_spec (index_of (fst now) (snd now) - lp) 0) as [E|E]; cbn [negb].
  - unfold bind, ret. apply index_ok.
  - rewrite Z.max_l by lia. cbn [Z.to_nat pulse_loop].
    unfold bind, ret. apply index_ok.
Qed.

(** *** The claims about the controller *)

(** C1, as the code has it. [calcoffset] returns the raw difference of the
    two pulse indices, a number strictly between minus and plus the
    half-day cycle that is negative when the target index is the smaller
    one. The clock loop never runs the face backward: any non-zero offset,
    negative ones included, makes an iteration apply one forward pulse,
    which moves the persisted index one step on modulo the cycle, and as
    many iterations as the difference taken modulo the cycle bring the
    persisted index to the target. *)
Theorem offset_is_raw_difference (w : world) (last_hm : string) (a b : bool)
        (h m : Z) (now : clock_reading) :
  stored w last_hm a b h m ->
  0 <= m < 60 ->
  reading_ok now ->
  let lp := index_of h m in
  let cp := index_of (fst now) (snd now) in
  calcoffset (now_hm now) w = (Ok (Some (cp - lp, last_hm, a, b)), w)
  /\ - half_day < cp - lp < half_day
  /\ (cp - lp <> 0 ->
      clock_loop_body now w = (Ok tt, pulsed w lp a b)
      /\ persisted_index (pulsed w lp a b) = Some ((lp + 1) mod half_day))
  /\ (exists w',
        clock_loop (repeat now (Z.to_nat ((cp - lp) mod half_day))) w = (Ok tt, w')
        /\ persisted_index w' = Some cp
        /\ pulses (log w') = (pulses (log w) + Z.to_nat ((cp - lp) mod half_day))%nat).
Proof.
  intros S Hm R lp cp.
  pose proof (index_of_range h m Hm) as Hlp. fold lp in Hlp.
  pose proof (index_of_range (fst now) (snd now) (proj2 R)) as Hcp. fold cp in Hcp.
  split; [apply (calcoffset_stored _ _ _ _ _ _ _ _ S (pulsessince12_now _ R))|].
  split; [lia|].
  split.
  - intros N. rewrite (clock_loop_body_stored _ _ _ _ _ _ _ S R).
    fold lp cp. destruct (Z.eqb_spec (cp - lp) 0); [contradiction|].
    split; [reflexivity|]. apply persisted_pulsed.
  - destruct (clock_loop_closes (Z.to_nat ((cp - lp) mod half_day))
                w last_hm a b h m now S Hlp R)
      as (w' & Hrun & Hidx & _ & Hlog).
    + rewrite Z2Nat.id; [reflexivity|]. apply Z.mod_pos_bound. reflexivity.
    + exists w'. split; [exact Hrun|]. split; [exact Hidx|].
      rewrite Hlog, pulses_app, pulses_pulse_events. reflexivity.
Qed.

Lemma offset_is_raw_difference_witness :
  calcoffset "03:00" Samples.at_0500
  = (Ok (Some (180 - 300, "05:00", false, true)), Samples.at_0500)
  /\ exists w',
       clock_loop (repeat (3, 0) 600) Samples.at_0500 = (Ok tt, w')
       /\ persisted_index w' = Some 180.
Proof.
  destruct (offset_is_raw_difference Samples.at_0500 "05:00" false true 5 0 (3, 0))
    as (C & _ & _ & (w' & Hrun & Hidx & _)).
  - eexists. split; [reflexivity|]. split; vm_compute; reflexivity.
  - lia.
  - split; cbn; lia.
  - split; [exact C|]. exists w'. split; [exact Hrun | exact Hidx].
Defined.

(** C1, as stated, fails: with the face at 05:00 and the target 03:00 the
    offset comes back as -120, not as the 600 pulses of the wrapped cycle,
    and [sync_clock], which pulses [max(0, offset)] times, applies none. *)
Lemma offset_not_normalised :
  fst (calcoffset "03:00" Samples.at_0500) = Ok (Some (-120, "05:00", false, true))
  /\ pulses (log (snd (sync_clock (Some "05:00") (3, 0) Samples.blank))) = O.
Proof.
  repeat split; vm_compute; reflexivity.
Qed.

(** The catch-up on a persisted state at pulse index [lp], with a target
    index [cp] that is [k = cp - lp > 0] ahead: [k] pulses, each followed
    by the write of the updated record, the last of which stands for the
    target index. *)
Lemma catch_up_stored_offset (w : world) (last_hm : string) (a b : bool)
        (h m : Z) (now : clock_reading) :
  stored w last_hm a b h m ->
  reading_ok now ->
  let lp := index_of h m in
  let cp := index_of (fst now) (snd now) in
  0 < cp - lp ->
  exists resp w',
    catch_up now w = (Ok resp, w')
    /\ log w' = log w ++ pulse_events lp a b (Z.to_nat (cp - lp))
    /\ pulses (log w') = (pulses (log w) + Z.to_nat (cp - lp))%nat
    /\ persisted_index w' = Some cp.
Proof.
  intros S R lp cp Hk.
  pose proof S as (c & Hc & Hp & Hu).
  pose proof (calcoffset_stored _ _ _ _ _ _ _ _ S (pulsessince12_now _ R)) as C.
  fold lp cp in C.
  destruct (catch_up_from now w w (cp - lp) last_hm a b h m C Hu Hk)
    as (w' & Hrun & _ & Hlog & Hidx).
  exists (Page (shown_base w)), w'. split; [exact Hrun|]. split; [exact Hlog|].
  split.
  - rewrite Hlog, pulses_app, pulses_pulse_events. reflexivity.
  - rewrite Hidx. fold lp. replace (lp + (cp - lp)) with cp by ring.
    f_equal. apply Z.mod_small.
    apply (index_of_range (fst now) (snd now) (proj2 R)).
Qed.

Example catch_up_0005_0008 :
  exists resp w',
    catch_up (0, 8) Samples.at_0005 = (Ok resp, w')
    /\ log w' = [Drive true false; Release; Persist (record_line "00:06" true false);
                 Drive false true; Release; Persist (record_line "00:07" false true);
                 Drive true false; Release; Persist (record_line "00:08" true false)]
    /\ pulses (log w') = 3%nat
    /\ persisted_index w' = Some 8.
Proof.
  destruct (catch_up_stored_offset Samples.at_0005 "00:05" false true 0 5 (0, 8))
    as (resp & w' & Hrun & Hlog & Hn & Hidx).
  - eexists. split; [reflexivity|]. split; vm_compute; reflexivity.
  - split; cbn; lia.
  - vm_compute. reflexivity.
  - exists resp, w'. split; [exact Hrun|].
    split; [rewrite Hlog; vm_compute; reflexivity|].
    split; [exact Hn | exact Hidx].
Qed.

(** The whole of [sync_clock] on the same figures: baseline 00:05 entered
    at 00:08. *)
Example sync_clock_three_pulses :
  sync_clock (Some "00:05") (0, 8) Samples.blank
  = (Ok (Page "00:05"),
     mkWorld (Some (record_line "00:08" true false)) (Some "00:05")
       [Baseline "00:05"; Persist (record_line "00:05" false true);
        Drive true false; Release; Persist (record_line "00:06" true false);
        Drive false true; Release; Persist (record_line "00:07" false true);
        Drive true false; Release; Persist (record_line "00:08" true false)]).
Proof. vm_compute. reflexivity. Qed.

(** C6, as the code has it. An iteration of the clock loop applies one
    pulse at a time: of two iterations against the same reading, the second
    applies no pulse exactly when the deficit before the first, taken
    modulo the half-day cycle, was at most one pulse; at offset zero both
    iterations leave the world as it is. *)
Theorem second_reconcile_idle (w : world) (last_hm : string) (a b : bool)
        (h m : Z) (now : clock_reading) :
  stored w last_hm a b h m ->
  0 <= m < 60 ->
  reading_ok now ->
  let lp := index_of h m in
  let cp := index_of (fst now) (snd now) in
  exists w1 w2,
    clock_loop_body now w = (Ok tt, w1)
    /\ clock_loop_body now w1 = (Ok tt, w2)
    /\ (pulses (log w2) = pulses (log w1) <-> (cp - lp) mod half_day <= 1)
    /\ (cp = lp -> w1 = w /\ w2 = w).
Proof.
  intros S Hm R lp cp.
  pose proof (index_of_range h m Hm) as Hlp. fold lp in Hlp.
  pose proof (index_of_range (fst now) (snd now) (proj2 R)) as Hcp. fold cp in Hcp.
  pose proof (clock_loop_body_stored now w _ _ _ _ _ S R) as B1. fold lp cp in B1.
  unfold half_day in *.
  destruct (Z.eqb_spec (cp - lp) 0) as [E|E].
  - exists w, w. split; [exact B1|]. split; [exact B1|].
    split; [|intros _; split; reflexivity].
    replace (cp - lp) with 0 by lia. cbn. split; [lia | reflexivity].
  - destruct (persisted_pulsed w lp a b) as (S' & _ & _).
    destruct (hm_of_fields (lp + 1)) as (_ & _ & I'). unfold half_day in I'.
    pose proof (clock_loop_body_stored now (pulsed w lp a b) _ _ _ _ _ S' R) as B2.
    fold cp in B2. unfold half_day in B2. rewrite I' in B2.
    eexists. eexists. split; [exact B1|]. split; [exact B2|].
    split; [|intros C; lia].
    pose proof (Z.mod_pos_bound (lp + 1) 720 ltac:(lia)) as Bl.
    pose proof (Z.mod_pos_bound (cp - lp) 720 ltac:(lia)) as Bd.
    pose proof (Z.div_mod (lp + 1) 720 ltac:(lia)) as Dl.
    pose proof (Z.div_mod (cp - lp) 720 ltac:(lia)) as Dd.
    destruct (Z.eqb_spec (cp - (lp + 1) mod 720) 0) as [E2|E2].
    + split; [intros _; lia | reflexivity].
    + split.
      * unfold pulsed at 1. cbn [log]. rewrite pulses_app, pulses_pulse_events. lia.
      * intros D. exfalso. lia.
Qed.

Lemma second_reconcile_idle_witness :
  exists w1 w2,
    clock_loop_body (0, 6) Samples.at_0005 = (Ok tt, w1)
    /\ clock_loop_body (0, 6) w1 = (Ok tt, w2)
    /\ pulses (log w2) = pulses (log w1).
Proof.
  destruct (second_reconcile_idle Samples.at_0005 "00:05" false true 0 5 (0, 6))
    as (w1 & w2 & H1 & H2 & Hiff & _).
  - eexists. split; [reflexivity|]. split; vm_compute; reflexivity.
  - lia.
  - split; cbn; lia.
  - exists w1, w2. split; [exact H1|]. split; [exact H2|].
    apply Hiff. vm_compute. discriminate.
Defined.

(** The pulse loop of [sync_clock], by contrast, closes the whole deficit
    at once: run again on the state it leaves, against the same reading,
    the end of [sync_clock] applies no pulse. *)
Lemma catch_up_twice (w : world) (last_hm : string) (a b : bool)
      (h m : Z) (now : clock_reading) :
  stored w last_hm a b h m ->
  reading_ok now ->
  exists r1 w1,
    catch_up now w = (Ok r1, w1)
    /\ catch_up now w1 = (Ok (Page (shown_base w1)), w1).
Proof.
  intros S R.
  set (lp := index_of h m). set (cp := index_of (fst now) (snd now)).
  pose proof S as (c & Hc & Hp & Hu).
  destruct (Z_lt_le_dec 0 (cp - lp)) as [Hk|Hk].
  - pose proof (calcoffset_stored _ _ _ _ _ _ _ _ S (pulsessince12_now _ R)) as C.
    fold lp cp in C.
    destruct (catch_up_from now w w (cp - lp) last_hm a b h m C Hu Hk)
      as (w1 & Hrun & _ & _ & Hidx).
    exists (Page (shown_base w)), w1. split; [exact Hrun|].
    apply (catch_up_idle now w1 _ R Hidx).
    fold lp cp. replace (lp + (cp - lp)) with cp by ring.
    rewrite Z.mod_small by apply (index_of_range (fst now) (snd now) (proj2 R)).
    lia.
  - destruct (stored_index _ _ _ _ _ _ S) as [P _].
    pose proof (catch_up_idle now w _ R P Hk) as I.
    exists (Page (shown_base w)), w. split; exact I.
Qed.

(** [sync_clock] as a whole starts again from the baseline it is given:
    the same request a second time repeats the pulses. *)
Example sync_clock_twice :
  let w1 := snd (sync_clock (Some "00:05") (0, 8) Samples.blank) in
  let w2 := snd (sync_clock (Some "00:05") (0, 8) w1) in
  pulses (log w1) = 3%nat /\ pulses (log w2) = 6%nat.
Proof. split; vm_compute; reflexivity. Qed.

(** C6, as stated, fails: with the face at 00:05 and the target 00:08, the
    first iteration applies one pulse and the second, against the same
    target, applies another. *)
Lemma second_iteration_pulses_again :
  exists w1 w2,
    clock_loop_body (0, 8) Samples.at_0005 = (Ok tt, w1)
    /\ clock_loop_body (0, 8) w1 = (Ok tt, w2)
    /\ pulses (log w1) = 1%nat
    /\ pulses (log w2) = 2%nat.
Proof.
  eexists. eexists.
  split; [vm_compute; reflexivity|].
  split; [vm_compute; reflexivity|].
  split; vm_compute; reflexivity.
Qed.

(** C8. A pulse that completes keeps the phase pair complementary, in
    memory and in the record it persists: for [pulsetoclock] of webtime.py
    and for [pulseminute] of main.py with the update the main loop makes
    after it. Every bootstrap starts from a complementary pair: the one
    [calcoffset] persists when it finds no record, and the one the main
    loop of main.py starts with. *)
Theorem phases_stay_complementary (a b : bool) :
  complementary a b ->
  (forall last_hm w new_hm a' b' w',
      pulsetoclock last_hm a b w = (Ok (new_hm, a', b'), w') ->
      complementary a' b'
      /\ persisted_phases w' = Some (a', b')
      /\ lastpulseat w' = Some (record_line new_hm a' b'))
  /\ (forall timestring,
         let p := Dcf.pulseminute timestring a b in
         complementary (fst (Dcf.driven p)) (snd (Dcf.driven p))
         /\ Dcf.written p
            = (timestring ++ Dcf.tab ++ str_bool (fst (Dcf.driven p))
               ++ Dcf.tab ++ str_bool (snd (Dcf.driven p)))%string
         /\ complementary (fst (fst (Dcf.main_pulse timestring (a, b))))
                          (snd (fst (Dcf.main_pulse timestring (a, b)))))
  /\ (forall cur w r w',
         lastpulseat w = None ->
         calcoffset cur w = (Ok (Some r), w') ->
         let '(_, last_hm, a0, b0) := r in
         complementary a0 b0
         /\ lastpulseat w' = Some (record_line last_hm a0 b0))
  /\ complementary (fst Dcf.initial_phases) (snd Dcf.initial_phases).
Proof.
  unfold complementary. intros ->.
  split; [|split; [|split]].
  - intros last_hm w new_hm a' b' w' P.
    destruct (unpack_hm last_hm) as [[h m]|e] eqn:U.
    + rewrite (pulsetoclock_ok _ _ _ _ _ _ U) in P.
      injection P as <- <- <- <-.
      destruct (persisted_pulsed w (index_of h m) (negb b) b) as (_ & _ & Pp).
      split; [reflexivity|]. split; [exact Pp | reflexivity].
    + rewrite (pulsetoclock_err _ _ _ _ _ U) in P. discriminate P.
  - intros timestring. destruct b; repeat split; reflexivity.
  - intros cur w [[[off last_hm] a0] b0] w' Hl.
    unfold calcoffset, bind, try_, load_state, bootstrap, bind, try_,
      read_lastpulseat, read_firstruntime, write_lastpulseat, lift, ret.
    rewrite Hl.
    destruct (firstruntime w) as [c|]; [|discriminate].
    destruct (pulsessince12 (strip c)) as [lp|e]; [|discriminate].
    destruct (pulsessince12 cur) as [cp|e]; [|discriminate].
    intros E. injection E as <- <- <- <- <-.
    split; reflexivity.
  - reflexivity.
Qed.

Lemma phases_stay_complementary_witness :
  persisted_phases (snd (pulsetoclock "00:05" false true Samples.at_0005))
  = Some (true, false).
Proof.
  destruct (phases_stay_complementary false true) as (P & _).
  - reflexivity.
  - destruct (P "00:05" Samples.at_0005 "00:06" true false
                (snd (pulsetoclock "00:05" false true Samples.at_0005)))
      as (_ & H & _).
    + vm_compute. reflexivity.
    + exact H.
Defined.

(** C9. With no persisted record, [calcoffset] starts from the baseline:
    it persists the baseline with the initial phase pair, and that write
    comes before any pulse of the caller. With no baseline either it
    answers with the failure tuple, and neither the clock loop nor
    [sync_clock] applies a pulse. With baseline 03:15 and target 03:16 the
    first reconcile applies exactly one pulse. *)
Theorem bootstrap_from_baseline (w : world) (now : clock_reading) :
  lastpulseat w = None ->
  reading_ok now ->
  (firstruntime w = None ->
     calcoffset (now_hm now) w = (Ok None, w)
     /\ clock_loop_body now w = (Ok tt, w)
     /\ catch_up now w = (Ok (Status 500 "Synchronization failed."), w))
  /\ (forall c lp,
         firstruntime w = Some c ->
         pulsessince12 (strip c) = Ok lp ->
         let init := record_line (strip c) false true in
         calcoffset (now_hm now) w
         = (Ok (Some (index_of (fst now) (snd now) - lp, strip c, false, true)),
            mkWorld (Some init) (Some c) (log w ++ [Persist init]))
         /\ (exists l, log (snd (clock_loop_body now w)) = log w ++ Persist init :: l)
         /\ (exists l, log (snd (catch_up now w)) = log w ++ Persist init :: l))
  /\ (firstruntime w = Some "03:15"%string -> now = (3, 16) ->
      let events := [Persist (record_line "03:15" false true);
                     Drive true false; Release;
                     Persist (record_line "03:16" true false)] in
      (exists w', clock_loop_body now w = (Ok tt, w')
                  /\ log w' = log w ++ events
                  /\ pulses (log w') = S (pulses (log w))
                  /\ persisted_index w' = Some 196)
      /\ (exists resp w', catch_up now w = (Ok resp, w')
                          /\ log w' = log w ++ events
                          /\ pulses (log w') = S (pulses (log w))
                          /\ persisted_index w' = Some 196)).
Proof.
  intros Hl R.
  pose proof (pulsessince12_now now R) as Hcur.
  split; [|split].
  - intros Hf.
    pose proof (calcoffset_no_baseline (now_hm now) w Hl Hf) as C.
    split; [exact C|].
    unfold clock_loop_body, catch_up, bind. rewrite C. split; reflexivity.
  - intros c lp Hf Hp init.
    pose proof (calcoffset_bootstrap _ _ _ w c Hl Hf Hp Hcur) as C. fold init in C.
    split; [exact C|].
    set (w0 := mkWorld (Some init) (Some c) (log w ++ [Persist init])) in *.
    assert (P : forall last_hm a b,
               exists l, log (snd (pulsetoclock last_hm a b w0)) = log w ++ Persist init :: l).
    { intros last_hm a b. destruct (unpack_hm last_hm) as [[h m]|e] eqn:U.
      - rewrite (pulsetoclock_ok _ _ _ _ _ _ U). unfold pulsed, w0. cbn [snd log].
        rewrite <- app_assoc. eexists. reflexivity.
      - rewrite (pulsetoclock_err _ _ _ _ _ U). unfold w0. cbn [snd log].
        rewrite <- app_assoc. eexists. reflexivity. }
    split.
    + unfold clock_loop_body, bind. rewrite C.
      destruct (negb _).
      * destruct (P (strip c) false true) as [l Hlog].
        destruct (pulsetoclock (strip c) false true w0) as [[st|e] w'];
          exists l; exact Hlog.
      * exists []. reflexivity.
    + unfold catch_up. unfold bind at 1. rewrite C.
      assert (L : forall n st w1,
                 (exists l, log w1 = log w ++ Persist init :: l) ->
                 exists l, log (snd (pulse_loop n st w1)) = log w ++ Persist init :: l).
      { induction n as [|n IH]; intros [[s x] y] w1 [l Hw1].
        - exists l. exact Hw1.
        - cbn [pulse_loop]. unfold bind.
          assert (Q : exists l', log (snd (pulsetoclock s x y w1)) = log w ++ Persist init :: l').
          { destruct (unpack_hm s) as [[h' m']|e] eqn:U.
            - rewrite (pulsetoclock_ok _ _ _ _ _ _ U). unfold pulsed. cbn [snd log].
              rewrite Hw1, <- app_assoc. eexists. reflexivity.
            - rewrite (pulsetoclock_err _ _ _ _ _ U). cbn [snd log].
              rewrite Hw1, <- app_assoc. eexists. reflexivity. }
          destruct (pulsetoclock s x y w1) as [[st'|e] w2]; cbn [snd] in Q.
          + apply IH. exact Q.
          + exact Q. }
      assert (W0 : exists l, log w0 = log w ++ Persist init :: l)
        by (exists []; reflexivity).
      destruct (negb _).
      * unfold bind.
        destruct (L (Z.to_nat (Z.max 0 (index_of (fst now) (snd now) - lp)))
                    (strip c, false, true) w0 W0) as [l Hlog].
        destruct (pulse_loop _ _ w0) as [[st|e] w'] eqn:E; cbn [snd] in Hlog.
        -- unfold ret. rewrite index_ok.
           exists l. exact Hlog.
        -- exists l. exact Hlog.
      * unfold bind, ret. rewrite index_ok.
        exact W0.
  - intros Hf -> events.
    assert (Hp : pulsessince12 (strip "03:15") = Ok 195) by reflexivity.
    pose proof (calcoffset_bootstrap _ _ _ w _ Hl Hf Hp Hcur) as C.
    assert (U : unpack_hm (strip "03:15") = Ok (3, 15)) by reflexivity.
    change (index_of (fst (3, 16)) (snd (3, 16)) - 195) with 1 in C.
    set (w0 := mkWorld _ _ _) in C.
    destruct (persisted_pulsed w0 (index_of 3 15) false true) as (_ & Pi & _).
    split.
    + exists (pulsed w0 (index_of 3 15) false true).
      unfold clock_loop_body, bind. rewrite C. cbn [Z.eqb negb].
      rewrite (pulsetoclock_ok _ _ _ _ _ _ U).
      split; [reflexivity|].
      assert (Lg : log (pulsed w0 (index_of 3 15) false true) = log w ++ events).
      { unfold pulsed, w0. cbn [log]. rewrite <- app_assoc. reflexivity. }
      split; [exact Lg|]. split; [|exact Pi].
      rewrite Lg, pulses_app. cbn. lia.
    + destruct (catch_up_from (3, 16) w w0 1 _ false true 3 15 C U ltac:(lia))
        as (w' & Hrun & _ & Hlog & Hidx).
      exists (Page (shown_base w0)), w'. split; [exact Hrun|].
      assert (Lg : log w' = log w ++ events).
      { rewrite Hlog. unfold w0. cbn [log]. rewrite <- app_assoc. reflexivity. }
      split; [exact Lg|]. split; [|exact Hidx].
      rewrite Lg, pulses_app. cbn. lia.
Qed.

Lemma bootstrap_from_baseline_witness :
  exists w',
    clock_loop_body (3, 16) Samples.first_run = (Ok tt, w')
    /\ pulses (log w') = 1%nat.
Proof.
  destruct (bootstrap_from_baseline Samples.first_run (3, 16)) as (_ & _ & H).
  - reflexivity.
  - split; cbn; lia.
  - destruct H as ((w' & Hrun & _ & Hn & _) & _); [reflexivity | reflexivity |].
    exists w'. split; [exact Hrun | exact Hn].
Defined.

(** The whole of [sync_clock] in the bootstrap scenario: baseline 03:15
    entered at 03:16, whatever was stored before. *)
Example sync_clock_bootstrap_one_pulse :
  pulses (log (snd (sync_clock (Some "03:15") (3, 16) Samples.blank))) = 1%nat
  /\ pulses (log (snd (sync_clock (Some "03:15") (3, 16) Samples.at_0500))) = 1%nat.
Proof. split; vm_compute; reflexivity. Qed.

(** C10. One iteration of the clock loop applies at most one pulse,
    whatever the offset: none when [calcoffset] answers with the failure
    tuple or with offset zero, exactly one for any other offset. *)
Theorem clock_loop_body_at_most_one_pulse (now : clock_reading) (w : world) :
  let w' := snd (clock_loop_body now w) in
  (pulses (log w') <= S (pulses (log w)))%nat
  /\ (forall w1, calcoffset (now_hm now) w = (Ok None, w1) ->
                 pulses (log w') = pulses (log w))
  /\ (forall w1 last_hm a b,
         calcoffset (now_hm now) w = (Ok (Some (0, last_hm, a, b)), w1) ->
         pulses (log w') = pulses (log w))
  /\ (forall w1 offset last_hm a b,
         calcoffset (now_hm now) w = (Ok (Some (offset, last_hm, a, b)), w1) ->
         offset <> 0 ->
         pulses (log w') = S (pulses (log w))).
Proof.
  pose proof (calcoffset_no_pulse (now_hm now) w) as N.
  unfold clock_loop_body, bind.
  destruct (calcoffset (now_hm now) w) as [[[[[[off last_hm] a] b]|]|e] w1];
    cbn [snd] in N.
  - pose proof (pulsetoclock_one_pulse last_hm a b w1) as P1.
    destruct (Z.eqb_spec off 0) as [E|E]; cbn [negb].
    + cbn [snd ret]. unfold ret. cbn [snd].
      split; [lia|]. split; [intros; exact N|].
      split; [intros; exact N|].
      intros w2 off' s x y H. injection H as <- _ _ _ _. contradiction.
    + destruct (pulsetoclock last_hm a b w1) as [[st|e] w2];
        unfold ret; cbn [snd] in *;
        (split; [lia|]); (split; [intros ? H; discriminate H|]);
        (split; [intros ? ? ? ? H; injection H as -> _ _ _ _; contradiction|]);
        intros; lia.
  - unfold ret. cbn [snd].
    split; [lia|]. split; [intros; exact N|].
    split; intros; discriminate.
  - cbn [snd].
    split; [lia|]. split; [intros; discriminate|].
    split; intros; discriminate.
Qed.

(** *** [sync_clock] from the form to the last pulse *)

(** An accepted request stores the baseline, removes the old record and
    goes on to the catch-up. *)
Lemma sync_clock_accepted (new : string) (now : clock_reading) (w : world) :
  new <> ""%string ->
  check_time new = Ok tt ->
  sync_clock (Some new) now w
  = catch_up now
      (mkWorld None (Some new)
         (log w ++ Baseline new
            :: match lastpulseat w with Some _ => [Forget] | None => [] end)).
Proof.
  intros Hne Hc. unfold sync_clock.
  destruct new as [|c0 r0]; [contradiction|].
  rewrite Hc.
  unfold bind, try_, write_firstruntime, remove_lastpulseat, ret.
  cbn [lastpulseat firstruntime log].
  destruct (lastpulseat w); cbn [lastpulseat firstruntime log].
  - rewrite <- app_assoc. reflexivity.
  - reflexivity.
Qed.

Lemma unpack_hm_strip (s : string) : unpack_hm (strip s) = unpack_hm s.
Proof.
  unfold unpack_hm, strip. rewrite split_rstrip, split_lstrip.
  destruct (split ":" s) as [|p0 [|p1 [|p2 r]]]; cbn [map_last].
  - reflexivity.
  - reflexivity.
  - rewrite int_lstrip, int_rstrip. reflexivity.
  - destruct r; reflexivity.
Qed.

Lemma check_time_ok (new : string) (h m : Z) :
  unpack_hm new = Ok (h, m) -> 0 <= h < 24 -> 0 <= m < 60 ->
  check_time new = Ok tt.
Proof.
  intros U Hh Hm. unfold check_time. rewrite U. cbn [rbind].
  destruct (Z.leb_spec 0 h); [|lia]. destruct (Z.ltb_spec h 24); [|lia].
  destruct (Z.leb_spec 0 m); [|lia]. destruct (Z.ltb_spec m 60); [|lia].
  reflexivity.
Qed.

(** C4. A request that [sync_clock] accepts, with a baseline [k > 0]
    pulses behind the reading of the clock: the baseline is stored and
    persisted as the pulse state, then exactly [k] pulses are driven, one
    after the other, each followed by the write of the updated record
    before the next pulse is driven; the record persisted last stands for
    the target pulse index. *)
Theorem sync_clock_applies_offset (new : string) (h m : Z)
        (now : clock_reading) (w : world) :
  new <> ""%string ->
  unpack_hm new = Ok (h, m) ->
  0 <= h < 24 -> 0 <= m < 60 ->
  reading_ok now ->
  let lp := index_of h m in
  let cp := index_of (fst now) (snd now) in
  0 < cp - lp ->
  exists w',
    sync_clock (Some new) now w = (Ok (Page (strip new)), w')
    /\ log w'
       = log w
         ++ (Baseline new
             :: match lastpulseat w with Some _ => [Forget] | None => [] end)
         ++ Persist (record_line (strip new) false true)
            :: pulse_events lp false true (Z.to_nat (cp - lp))
    /\ pulses (log w') = (pulses (log w) + Z.to_nat (cp - lp))%nat
    /\ persisted_index w' = Some cp.
Proof.
  intros Hne U Hh Hm R lp cp Hk.
  pose proof (check_time_ok new h m U Hh Hm) as Hc.
  pose proof (pulsessince12_now now R) as Hcur.
  assert (Us : unpack_hm (strip new) = Ok (h, m)).
  { rewrite unpack_hm_strip. exact U. }
  pose proof (pulsessince12_unpack _ _ _ Us) as Hp.
  set (w1 := mkWorld None (Some new)
               (log w ++ Baseline new
                  :: match lastpulseat w with Some _ => [Forget] | None => [] end)).
  pose proof (calcoffset_bootstrap _ _ _ w1 new eq_refl eq_refl Hp Hcur) as C.
  fold lp cp in C.
  destruct (catch_up_from now w1 _ (cp - lp) (strip new) false true h m C Us Hk)
    as (w' & Hrun & Hfr & Hlog & Hidx).
  unfold shown_base in Hrun. cbn [firstruntime] in Hrun.
  exists w'.
  rewrite (sync_clock_accepted new now w Hne Hc). fold w1.
  split; [exact Hrun|].
  assert (Lg : log w'
               = log w
                 ++ (Baseline new
                     :: match lastpulseat w with Some _ => [Forget] | None => [] end)
                 ++ Persist (record_line (strip new) false true)
                    :: pulse_events lp false true (Z.to_nat (cp - lp))).
  { rewrite Hlog. unfold w1. cbn [log]. fold lp.
    rewrite <- !app_assoc. reflexivity. }
  split; [exact Lg|].
  split.
  - rewrite Lg, !pulses_app. cbn [pulses]. rewrite pulses_pulse_events.
    destruct (lastpulseat w); cbn [pulses]; lia.
  - rewrite Hidx. fold lp. replace (lp + (cp - lp)) with cp by ring.
    f_equal. apply Z.mod_small.
    apply (index_of_range (fst now) (snd now) (proj2 R)).
Qed.

Lemma sync_clock_applies_offset_witness :
  exists w',
    sync_clock (Some "00:05"%string) (0, 8) Samples.blank = (Ok (Page "00:05"), w')
    /\ log w'
       = [Baseline "00:05"; Persist (record_line "00:05" false true);
          Drive true false; Release; Persist (record_line "00:06" true false);
          Drive false true; Release; Persist (record_line "00:07" false true);
          Drive true false; Release; Persist (record_line "00:08" true false)]
    /\ pulses (log w') = 3%nat
    /\ persisted_index w' = Some 8.
Proof.
  destruct (sync_clock_applies_offset "00:05" 0 5 (0, 8) Samples.blank)
    as (w' & Hrun & Hlog & Hn & Hidx).
  - discriminate.
  - reflexivity.
  - lia.
  - lia.
  - split; cbn; lia.
  - vm_compute. reflexivity.
  - exists w'. split; [exact Hrun|].
    split; [rewrite Hlog; vm_compute; reflexivity|].
    split; [exact Hn | exact Hidx].
Defined.

End ClockFacts.

(** ** The receiver loop *)

Module ReceiverFacts.

Import Dcf Frame Cycle PyFacts DcfFacts Receiver.
Local Open Scope list_scope.

(** *** The minute gap *)

Lemma detect_from_zeros (k : nat) :
  forall c rest,
    0 <= c -> breakat <= c + Z.of_nat k -> c < breakat ->
    exists rest', detect_from c (repeat 0 k ++ rest) = Some rest'.
Proof.
  unfold breakat.
  induction k as [|k IH]; intros c rest Hc Hk Hlt.
  - lia.
  - cbn [repeat app detect_from Z.eqb]. unfold breakat.
    destruct (Z.leb_spec 21 (c + 1)).
    + eexists. reflexivity.
    + apply IH; lia.
Qed.

Lemma detect_from_complete (l1 : list Z) :
  forall c l2,
    0 <= c < breakat ->
    exists rest, detect_from c (l1 ++ repeat 0 21 ++ l2) = Some rest.
Proof.
  unfold breakat.
  induction l1 as [|v l1 IH]; intros c l2 Hc.
  - cbn [app]. apply detect_from_zeros; unfold breakat; lia.
  - cbn [app detect_from]. unfold breakat.
    destruct (v =? 0).
    + destruct (Z.leb_spec 21 (c + 1)); [eexists; reflexivity|].
      apply IH. lia.
    + cbn [Z.leb Z.compare]. apply IH. lia.
Qed.

Lemma repeat_snoc (k : nat) : repeat 0 k ++ [0] = repeat 0 (S k).
Proof.
  induction k as [|k IH]; cbn [repeat app].
  - reflexivity.
  - rewrite IH. reflexivity.
Qed.

Lemma detect_from_sound (vs : list Z) :
  forall c rest,
    0 <= c < breakat ->
    detect_from c vs = Some rest ->
    exists p,
      repeat 0 (Z.to_nat c) ++ vs = p ++ repeat 0 21 ++ rest
      /\ detect_from 0 (p ++ repeat 0 20) = None.
Proof.
  unfold breakat.
  induction vs as [|v vs IH]; intros c rest Hc; cbn [detect_from].
  - discriminate.
  - unfold breakat. destruct (Z.eqb_spec v 0) as [->|Hv].
    + destruct (Z.leb_spec 21 (c + 1)).
      * intros E. injection E as <-. exists [].
        assert (c = 20) by lia. subst c. split; reflexivity.
      * intros E. destruct (IH (c + 1) rest ltac:(lia) E) as (p & Hp & Hn).
        exists p. split; [|exact Hn].
        rewrite <- Hp. replace (Z.to_nat (c + 1)) with (S (Z.to_nat c)) by lia.
        rewrite <- repeat_snoc, <- app_assoc. reflexivity.
    + cbn [Z.leb Z.compare]. intros E.
      destruct (IH 0 rest ltac:(lia) E) as (p & Hp & Hn).
      cbn [Z.to_nat repeat app] in Hp.
      exists (repeat 0 (Z.to_nat c) ++ v :: p). split.
      * rewrite Hp, <- app_assoc. reflexivity.
      * rewrite <- app_assoc. cbn [app].
        assert (G : forall k c', 0 <= c' -> c' + Z.of_nat k < 21 ->
                      detect_from c' (repeat 0 k ++ v :: p ++ repeat 0 20)
                      = detect_from 0 (p ++ repeat 0 20)).
        { induction k as [|k IHk]; intros c' Hc' Hk.
          - cbn [repeat app detect_from].
            destruct (Z.eqb_spec v 0); [contradiction|]. reflexivity.
          - cbn [repeat app detect_from Z.eqb]. unfold breakat.
            destruct (Z.leb_spec 21 (c' + 1)); [lia|].
            apply IHk; lia. }
        rewrite G by lia. exact Hn.
Qed.

(** X1. [detectNewMinute] returns exactly when the readings contain 21
    consecutive zeros, right after the first such run: what it consumed
    ends with 21 zeros and had no 21 zeros in a row before its last
    reading. *)
Theorem detectNewMinute_first_gap (vs : list Z) :
  ((exists l1 l2, vs = l1 ++ repeat 0 21 ++ l2) ->
   exists rest, detectNewMinute vs = Some rest)
  /\ (forall rest,
         detectNewMinute vs = Some rest ->
         exists p, vs = p ++ repeat 0 21 ++ rest
                   /\ detectNewMinute (p ++ repeat 0 20) = None).
Proof.
  unfold detectNewMinute. split.
  - intros (l1 & l2 & ->). apply detect_from_complete. unfold breakat. lia.
  - intros rest E.
    destruct (detect_from_sound vs 0 rest ltac:(unfold breakat; lia) E) as (p & Hp & Hn).
    exists p. split; [exact Hp | exact Hn].
Qed.


Lemma detectNewMinute_first_gap_witness :
  exists rest, detectNewMinute ([1; 0; 1] ++ repeat 0 21 ++ [1; 1]) = Some rest.
Proof.
  apply (proj1 (detectNewMinute_first_gap ([1; 0; 1] ++ repeat 0 21 ++ [1; 1]))).
  exists [1; 0; 1], [1; 1]. reflexivity.
Defined.

Example detectNewMinute_sample :
  detectNewMinute (1 :: repeat 0 5 ++ 1 :: repeat 0 21 ++ [1; 0]) = Some [1; 0].
Proof. reflexivity. Qed.

(** *** The sampling loop *)

Lemma classify_quiet (s : rx) : quiet (win s) = true -> classify s = s.
Proof.
  unfold quiet, classify. intros Q.
  destruct (edge (win s)); [|reflexivity].
  destruct (gt_q _ _); [discriminate Q | reflexivity].
Qed.

Lemma classify_bit (a ti : list Z) (bn : Z) :
  edge a = true -> 8 < sum a ->
  classify (mkRx a ti bn)
  = mkRx a (ti ++ [if sum a <=? 36 then 0 else 1]) (bn + 1).
Proof.
  intros E H. unfold classify. cbn [win timeInfo bitNum].
  rewrite E, gt_noise, le_split.
  destruct (Z.ltb_spec 8 (sum a)); [|lia].
  destruct (sum a <=? 36); reflexivity.
Qed.

Lemma run_quiet (vs : list Z) :
  forall a ti bn rest,
    bn <> 59 ->
    quiet_run a vs = true ->
    run (mkRx a ti bn) (vs ++ rest) = run (mkRx (slide a vs) ti bn) rest.
Proof.
  induction vs as [|v vs IH]; intros a ti bn rest Hbn Q.
  - reflexivity.
  - cbn [quiet_run] in Q. apply andb_prop in Q. destruct Q as [Q1 Q2].
    cbn [app run]. unfold step. cbn [win timeInfo bitNum].
    rewrite classify_quiet by exact Q1. cbn [bitNum].
    destruct (Z.eqb_spec bn 59); [contradiction|].
    unfold slide. cbn [fold_left]. apply IH; assumption.
Qed.

(** One second of clean signal, from a window of zeros: the bit is
    classified once, at the 69th reading, and the window is back to zeros
    at the end of the second. *)
Lemma run_cell (b : Z) (ti : list Z) (bn : Z) (rest : list Z) :
  bit b -> bn <> 59 ->
  run (mkRx zeros ti bn) (cell b ++ rest)
  = if bn + 1 =? 59 then Some (frame_result (ti ++ [b]))
    else run (mkRx zeros (ti ++ [b]) (bn + 1)) rest.
Proof.
  intros Hb Hbn.
  assert (Split : cell b = firstn 68 (cell b) ++ nth 68 (cell b) 0 :: skipn 69 (cell b))
    by (destruct Hb; subst b; reflexivity).
  rewrite Split, <- app_assoc.
  rewrite run_quiet;
    [|exact Hbn | destruct Hb; subst b; vm_compute; reflexivity].
  cbn [app run]. unfold step. cbn [win timeInfo bitNum].
  rewrite classify_bit;
    [| destruct Hb; subst b; vm_compute; reflexivity
     | destruct Hb; subst b; vm_compute; reflexivity].
  cbn [bitNum timeInfo].
  assert (B : (if sum (shift (slide zeros (firstn 68 (cell b))) (nth 68 (cell b) 0)) <=? 36
               then 0 else 1) = b)
    by (destruct Hb; subst b; vm_compute; reflexivity).
  rewrite B.
  destruct (Z.eqb_spec (bn + 1) 59) as [E|E]; [reflexivity|].
  rewrite run_quiet;
    [|exact E | destruct Hb; subst b; vm_compute; reflexivity].
  f_equal. f_equal. destruct Hb; subst b; vm_compute; reflexivity.
Qed.

Lemma signal_of_cons (b : Z) (bits : list Z) :
  Samples.signal_of (b :: bits) = cell b ++ Samples.signal_of bits.
Proof. reflexivity. Qed.

Lemma run_signal (bits : list Z) :
  forall ti rest,
    Forall bit bits ->
    bits <> [] ->
    (List.length ti + List.length bits = 59)%nat ->
    run (mkRx zeros ti (Z.of_nat (List.length ti))) (Samples.signal_of bits ++ rest)
    = Some (frame_result (ti ++ bits)).
Proof.
  induction bits as [|b bits IH]; intros ti rest Hb Hne Hlen.
  - contradiction.
  - rewrite signal_of_cons, <- app_assoc.
    inversion Hb as [|? ? Hb1 Hb2]; subst.
    cbn [List.length] in Hlen.
    rewrite run_cell; [|exact Hb1 | lia].
    destruct (Z.eqb_spec (Z.of_nat (List.length ti) + 1) 59) as [E|E].
    + destruct bits; [reflexivity | cbn [List.length] in Hlen; lia].
    + replace (Z.of_nat (List.length ti) + 1)
        with (Z.of_nat (List.length (ti ++ [b])))
        by (rewrite length_app; cbn [List.length]; lia).
      rewrite IH.
      * rewrite <- app_assoc. reflexivity.
      * exact Hb2.
      * destruct bits; [cbn [List.length] in Hlen; lia | discriminate].
      * rewrite length_app. cbn [List.length]. lia.
Qed.

(** X2. Whatever the readings, a string that [computeTime] returns is the
    verdict of the frame stage on exactly 59 collected bits, each 0 or 1:
    the failure value, or the time string of a decoded time. *)
Theorem computeTime_returns_frame_verdict (vs : list Z) (r : string) :
  computeTime vs = Some r ->
  exists t,
    is_frame t
    /\ r = frame_result t
    /\ (r = failed \/ exists d, decode t = Some d /\ r = radiotime_of d).
Proof.
  intros H. destruct (computeTime_frame vs r H) as (t & Ft & ->).
  exists t. split; [exact Ft|]. split; [reflexivity|].
  unfold frame_result. destruct (decode t) as [d|].
  - right. exists d. split; reflexivity.
  - left. reflexivity.
Qed.

Lemma computeTime_returns_frame_verdict_witness :
  exists t, is_frame t
            /\ "13:45:00,Monday,2021-05-24"%string = frame_result t.
Proof.
  destruct (computeTime_returns_frame_verdict
              (Samples.signal_of Samples.frame_may_24)
              "13:45:00,Monday,2021-05-24") as (t & Ft & E & _).
  - vm_compute. reflexivity.
  - exists t. split; [exact Ft | exact E].
Defined.

(** X3. On the clean signal of any 59-bit frame (each second high for
    100 ms for a zero, 200 ms for a one, sampled every 5 ms),
    [computeTime] collects exactly the bits of the frame and returns the
    verdict of the frame stage on it, whatever readings follow. *)
Theorem computeTime_clean_signal (t rest : list Z) :
  is_frame t ->
  computeTime (Samples.signal_of t ++ rest) = Some (frame_result t).
Proof.
  intros [L B].
  apply (run_signal t [] rest B).
  - intros E. rewrite E in L. discriminate L.
  - exact L.
Qed.

Lemma computeTime_clean_signal_witness :
  computeTime (Samples.signal_of Samples.frame_minute_85 ++ [1; 1; 0])
  = Some "00:85:00,Invalid day of week,2000-00-00"%string.
Proof.
  rewrite (computeTime_clean_signal Samples.frame_minute_85 [1; 1; 0]).
  - vm_compute. reflexivity.
  - apply is_frameb_spec. vm_compute. reflexivity.
Defined.

(** *** From the air to the time string *)

Lemma to_bcd_bits (w : nat) (n : Z) : Forall bit (to_bcd w n).
Proof.
  unfold to_bcd. apply firstn_bits. apply Forall_app.
  split; apply bits_le_bits.
Qed.

Lemma encode_is_frame (k : DecodedTime) (pre : list Z) (leap : Z) :
  List.length pre = 16%nat -> Forall bit pre -> bit leap ->
  is_frame (encode k pre leap).
Proof.
  intros L Hpre Hleap. split.
  - rewrite encode_length, L. reflexivity.
  - unfold encode.
    assert (B0 : bit 0) by (left; reflexivity).
    assert (B1 : bit 1) by (right; reflexivity).
    repeat (apply Forall_app; split);
      repeat first [ apply to_bcd_bits | apply bits_le_bits | assumption
                   | constructor; [first [assumption | apply bit_mod2
                                         | destruct (season k); assumption]|] ];
      try constructor.
Qed.

Lemma computeTime_encode (k : DecodedTime) (pre : list Z) (leap : Z)
      (rest : list Z) :
  in_range k ->
  List.length pre = 16%nat -> Forall bit pre -> bit leap ->
  computeTime (Samples.signal_of (encode k pre leap) ++ rest)
  = Some (radiotime_of k).
Proof.
  intros Hk L Hpre Hleap.
  pose proof (run_signal (encode k pre leap) [] rest) as R.
  destruct (encode_is_frame k pre leap L Hpre Hleap) as [Le Be].
  unfold computeTime, init. change (repeat 0 samples) with zeros.
  cbn [List.length app] in R. change (Z.of_nat 0) with 0 in R.
  rewrite R.
  - unfold frame_result. rewrite (decode_encode k pre leap Hk L). reflexivity.
  - exact Be.
  - intros E. rewrite E in Le. discriminate Le.
  - exact Le.
Qed.

(** X4. From the air to the string: the clean signal of the minute frame
    of a known time within the calendar ranges makes [computeTime] return
    the time string of exactly that time. *)
Theorem computeTime_known_time (k : DecodedTime) (pre : list Z) (leap : Z)
        (rest : list Z) :
  in_range k ->
  List.length pre = 16%nat -> Forall bit pre -> bit leap ->
  computeTime (Samples.signal_of (encode k pre leap) ++ rest)
  = Some (radiotime_of k).
Proof.
  apply computeTime_encode.
Qed.

Lemma computeTime_known_time_witness :
  computeTime (Samples.signal_of Samples.frame_may_24 ++ [])
  = Some "13:45:00,Monday,2021-05-24"%string.
Proof.
  unfold Samples.frame_may_24.
  rewrite (computeTime_known_time Samples.may_24 (repeat 0 16) 0 []).
  - reflexivity.
  - unfold in_range. cbn. lia.
  - reflexivity.
  - repeat constructor.
  - left. reflexivity.
Defined.
End ReceiverFacts.

(** ** The real-time clock *)

Module RtcFacts.

Import Dcf Frame Cycle PyFacts DcfFacts Rtc.

Example set_time_sample :
  set_time "13:45:50,Monday,2021-05-24" = Done [80; 69; 19; 2; 36; 5; 33].
Proof. reflexivity. Qed.


Lemma digit_char_facts (e : Z) :
  0 <= e < 10 ->
  hexval (digit_char e) = Some e
  /\ Ascii.eqb (digit_char e) "," = false
  /\ Ascii.eqb (digit_char e) " " = false.
Proof.
  intros H.
  assert (C : digit_check e = true).
  { apply (range_forall digit_check 10); [vm_compute; reflexivity | lia]. }
  unfold digit_check in C.
  apply andb_prop in C. destruct C as [C C3].
  apply andb_prop in C. destruct C as [C1 C2].
  destruct (hexval (digit_char e)) as [v|]; [|discriminate C1].
  apply Z.eqb_eq in C1. subst v.
  split; [reflexivity|].
  split; [destruct (Ascii.eqb (digit_char e) ","); [discriminate C2 | reflexivity]
         | destruct (Ascii.eqb (digit_char e) " "); [discriminate C3 | reflexivity]].
Qed.

Lemma split_max_comma_free (x : string) :
  forall r n,
    comma_free x = true ->
    split_max "," (x ++ String "," r) (S n) = x :: split_max "," r n.
Proof.
  induction x as [|c x IH]; intros r n H.
  - reflexivity.
  - cbn [comma_free] in H. apply andb_prop in H. destruct H as [Hc Hx].
    cbn [append split_max].
    destruct (Ascii.eqb c ","); [discriminate Hc|].
    rewrite (IH r n Hx). reflexivity.
Qed.

Lemma drop_spaces_app (x y : string) :
  drop_spaces (x ++ y) = (drop_spaces x ++ drop_spaces y)%string.
Proof.
  induction x as [|c x IH]; cbn [append drop_spaces].
  - reflexivity.
  - destruct (Ascii.eqb c " "); [exact IH|].
    cbn [append]. rewrite IH. reflexivity.
Qed.

Lemma twodigits_str (x : Z) :
  0 <= x < 100 -> Dcf.twodigits (str x) = two (x / 10) (x mod 10).
Proof.
  intros H. apply String.eqb_eq.
  apply (range_forall
           (fun x => String.eqb (Dcf.twodigits (str x)) (two (x / 10) (x mod 10))) 100);
    [vm_compute; reflexivity | lia].
Qed.

Lemma str_year (j : Z) :
  0 <= j < 200 ->
  str (2000 + j)
  = String "2" (String (digit_char (j / 100)) (two (j mod 100 / 10) (j mod 10))).
Proof.
  intros H. apply String.eqb_eq.
  apply (range_forall
           (fun j => String.eqb (str (2000 + j))
                       (String "2" (String (digit_char (j / 100))
                                      (two (j mod 100 / 10) (j mod 10))))) 200);
    [vm_compute; reflexivity | lia].
Qed.

Lemma two_facts (a b : Z) :
  0 <= a < 10 -> 0 <= b < 10 ->
  comma_free (two a b) = true
  /\ drop_spaces (two a b) = two a b
  /\ (forall r, unhexlify (two a b ++ r)
                = andthen (unhexlify r) (fun l => Done (16 * a + b :: l))).
Proof.
  intros Ha Hb.
  destruct (digit_char_facts a Ha) as (Xa & Ca & Sa).
  destruct (digit_char_facts b Hb) as (Xb & Cb & Sb).
  unfold two. cbn [comma_free drop_spaces append unhexlify].
  rewrite Ca, Cb, Sa, Sb, Xa, Xb. repeat split; reflexivity.
Qed.

Lemma week_text (i : Z) : 0 <= i < 7 -> ("0" ++ str (i + 1))%string = two 0 (i + 1).
Proof.
  intros H. apply String.eqb_eq.
  apply (range_forall (fun i => String.eqb ("0" ++ str (i + 1)) (two 0 (i + 1))) 7);
    [vm_compute; reflexivity | lia].
Qed.

Lemma index_in_w_range (name : string) (i : Z) :
  index_in w name = Done i -> 0 <= i < 7.
Proof.
  unfold w. cbn [index_in].
  repeat match goal with
         | |- context [String.eqb ?a name] => destruct (String.eqb a name)
         end;
    cbn [andthen]; intros E; try discriminate E; injection E as <-; lia.
Qed.

(** [set_time] on a string of the layout of [computeTime]: the register
    image, once the weekday name is found in [w]. *)
Lemma set_time_layout (h1 h2 m1 m2 y0 y1 y2 o1 o2 d1 d2 : Z) (name : string) :
  0 <= h1 < 10 -> 0 <= h2 < 10 -> 0 <= m1 < 10 -> 0 <= m2 < 10 ->
  0 <= y1 < 10 -> 0 <= y2 < 10 ->
  0 <= o1 < 10 -> 0 <= o2 < 10 -> 0 <= d1 < 10 -> 0 <= d2 < 10 ->
  comma_free name = true ->
  set_time (layout h1 h2 m1 m2 name y0 y1 y2 o1 o2 d1 d2)
  = andthen (index_in w name) (fun i =>
      Done [0; 16 * m1 + m2; 16 * h1 + h2; i + 1; 16 * d1 + d2; 16 * o1 + o2;
            16 * y1 + y2]).
Proof.
  intros Hh1 Hh2 Hm1 Hm2 Hy1 Hy2 Ho1 Ho2 Hd1 Hd2 Hname.
  destruct (two_facts h1 h2 Hh1 Hh2) as (Ch & Sh & Uh).
  destruct (two_facts m1 m2 Hm1 Hm2) as (Cm & Sm & Um).
  destruct (two_facts y1 y2 Hy1 Hy2) as (_ & Sy & Uy).
  destruct (two_facts o1 o2 Ho1 Ho2) as (_ & So & Uo).
  destruct (two_facts d1 d2 Hd1 Hd2) as (_ & Sd & Ud).
  destruct (two_facts 0 0 ltac:(lia) ltac:(lia)) as (_ & S0 & U0).
  set (date := (String "2" (String (digit_char y0) (two y1 y2))
                ++ "-" ++ two o1 o2 ++ "-" ++ two d1 d2)%string).
  set (t8 := (two h1 h2 ++ ":" ++ two m1 m2 ++ ":00")%string).
  assert (E : layout h1 h2 m1 m2 name y0 y1 y2 o1 o2 d1 d2
              = (t8 ++ String "," (name ++ String "," date))%string).
  { unfold layout, t8, date, two. cbn [append]. reflexivity. }
  assert (Sp : split_max "," (layout h1 h2 m1 m2 name y0 y1 y2 o1 o2 d1 d2) 2
               = [t8; name; date]).
  { rewrite E. rewrite split_max_comma_free, split_max_comma_free.
    - reflexivity.
    - exact Hname.
    - unfold t8, two in *. cbn [append comma_free] in *.
      apply andb_prop in Ch. destruct Ch as [Ch1 Ch2].
      apply andb_prop in Ch2. destruct Ch2 as [Ch2 _].
      apply andb_prop in Cm. destruct Cm as [Cm1 Cm2].
      apply andb_prop in Cm2. destruct Cm2 as [Cm2 _].
      rewrite Ch1, Ch2, Cm1, Cm2. reflexivity. }
  unfold set_time. rewrite Sp.
  assert (T1 : two_at (layout h1 h2 m1 m2 name y0 y1 y2 o1 o2 d1 d2) 0 1
               = Done (two h1 h2)) by reflexivity.
  assert (T2 : two_at (layout h1 h2 m1 m2 name y0 y1 y2 o1 o2 d1 d2) 3 4
               = Done (two m1 m2)) by reflexivity.
  assert (T3 : two_at (layout h1 h2 m1 m2 name y0 y1 y2 o1 o2 d1 d2) 6 7
               = Done (two 0 0)) by reflexivity.
  assert (D1 : two_at date 2 3 = Done (two y1 y2)) by reflexivity.
  assert (D2 : two_at date 5 6 = Done (two o1 o2)) by reflexivity.
  assert (D3 : two_at date 8 9 = Done (two d1 d2)) by reflexivity.
  rewrite T1, T2, T3. cbn [andthen part nth_error].
  destruct (index_in w name) as [i|e] eqn:Hi; [|reflexivity].
  pose proof (index_in_w_range name i Hi) as Ri.
  destruct (two_facts 0 (i + 1) ltac:(lia) ltac:(lia)) as (_ & Sw & Uw).
  cbn [andthen].
  rewrite D1, D2, D3. cbn [andthen].
  rewrite (week_text i Ri).
  rewrite !drop_spaces_app, S0, Sm, Sh, Sw, Sd, So, Sy.
  change (drop_spaces " ") with EmptyString.
  cbn [append].
  replace (two y1 y2) with (two y1 y2 ++ "")%string by reflexivity.
  rewrite U0, Um, Uh, Uw, Ud, Uo, Uy. cbn [unhexlify andthen].
  reflexivity.
Qed.

(** The time string of a decoded time has the layout [set_time] reads. *)
Lemma radiotime_layout (d : DecodedTime) :
  in_bcd_range d ->
  radiotime_of d
  = layout (stunde d / 10) (stunde d mod 10) (minute d / 10) (minute d mod 10)
           (weekday (wochentag d))
           (jahr d / 100) (jahr d mod 100 / 10) (jahr d mod 10)
           (monat d / 10) (monat d mod 10) (tag d / 10) (tag d mod 10).
Proof.
  intros (Hmi & Hh & Hd & Hw & Hmo & Hy).
  unfold radiotime_of, layout.
  rewrite !twodigits_str by lia. rewrite str_year by lia. reflexivity.
Qed.

Lemma tens_units (x : Z) :
  0 <= x < 100 -> 0 <= x / 10 < 10 /\ 0 <= x mod 10 < 10.
Proof.
  intros H. split.
  - split; [apply Z.div_pos; lia | apply Z.div_lt_upper_bound; lia].
  - apply Z.mod_pos_bound. lia.
Qed.

Lemma set_time_registers (t : list Z) (d : DecodedTime) :
  Forall bit t ->
  decode t = Some d ->
  1 <= wochentag d <= 7 ->
  set_time (frame_result t) = Done (registers d).
Proof.
  intros B D Hw.
  pose proof (fields_bounded t d B D) as R.
  assert (F : frame_result t = radiotime_of d).
  { unfold frame_result. rewrite D. reflexivity. }
  rewrite F, (radiotime_layout d R).
  destruct R as (Hmi & Hh & Hd & _ & Hmo & Hy).
  destruct (tens_units (minute d) ltac:(lia)) as [? ?].
  destruct (tens_units (stunde d) ltac:(lia)) as [? ?].
  destruct (tens_units (tag d) ltac:(lia)) as [? ?].
  destruct (tens_units (monat d) ltac:(lia)) as [? ?].
  destruct (tens_units (jahr d mod 100)
              ltac:(apply Z.mod_pos_bound; lia)) as [? Hy2].
  rewrite (Z.mod_mod_divide (jahr d) 100 10) in Hy2 by (exists 10; reflexivity).
  rewrite set_time_layout; try assumption.
  - assert (I : index_in w (weekday (wochentag d)) = Done (wochentag d mod 7)).
    { assert (C : wochentag d = 1 \/ wochentag d = 2 \/ wochentag d = 3
                  \/ wochentag d = 4 \/ wochentag d = 5 \/ wochentag d = 6
                  \/ wochentag d = 7) by lia.
      repeat (destruct C as [C|C]; [rewrite C; reflexivity|]).
      rewrite C. reflexivity. }
    rewrite I. cbn [andthen]. unfold registers, bcd_byte.
    rewrite (Z.mod_mod_divide (jahr d) 100 10) by (exists 10; reflexivity).
    reflexivity.
  - assert (C : wochentag d = 1 \/ wochentag d = 2 \/ wochentag d = 3
                \/ wochentag d = 4 \/ wochentag d = 5 \/ wochentag d = 6
                \/ wochentag d = 7) by lia.
    repeat (destruct C as [C|C]; [rewrite C; reflexivity|]).
    rewrite C. reflexivity.
Qed.

(** X5. What the receiver hands to the clock chip: for a decoded time
    whose weekday is 1 (Monday) to 7 (Sunday), [set_time] on the string
    [computeTime] returned writes seconds 0 and minute, hour, day, month
    and two-digit year in BCD, with the weekday counted from Sunday = 1. *)
Theorem set_time_of_decoded (t : list Z) (d : DecodedTime) :
  Forall bit t ->
  decode t = Some d ->
  1 <= wochentag d <= 7 ->
  set_time (frame_result t) = Done (registers d).
Proof.
  apply set_time_registers.
Qed.

Lemma set_time_of_decoded_witness :
  set_time (frame_result Samples.frame_may_24) = Done [0; 69; 19; 2; 36; 5; 33].
Proof.
  rewrite (set_time_of_decoded Samples.frame_may_24 Samples.may_24).
  - reflexivity.
  - apply is_frameb_spec. vm_compute. reflexivity.
  - vm_compute. reflexivity.
  - cbn. lia.
Defined.

(** X6. A frame can pass every check of the decoder with its three
    weekday bits at zero; [computeTime] then returns a string with the
    words "Invalid day of week", and [set_time] on that string raises
    [ValueError]: the name is not in its list. *)
Theorem set_time_rejects_weekday_zero (t : list Z) (d : DecodedTime) :
  Forall bit t ->
  decode t = Some d ->
  wochentag d = 0 ->
  frame_result t <> failed /\ set_time (frame_result t) = Fail ValueError.
Proof.
  intros B D Hw.
  pose proof (fields_bounded t d B D) as R.
  assert (F : frame_result t = radiotime_of d).
  { unfold frame_result. rewrite D. reflexivity. }
  split.
  { rewrite F. apply radiotime_not_failed. destruct R as (_ & H & _). exact H. }
  rewrite F, (radiotime_layout d R).
  destruct R as (Hmi & Hh & Hd & _ & Hmo & Hy).
  destruct (tens_units (minute d) ltac:(lia)) as [? ?].
  destruct (tens_units (stunde d) ltac:(lia)) as [? ?].
  destruct (tens_units (tag d) ltac:(lia)) as [? ?].
  destruct (tens_units (monat d) ltac:(lia)) as [? ?].
  destruct (tens_units (jahr d mod 100)
              ltac:(apply Z.mod_pos_bound; lia)) as [? Hy2].
  rewrite (Z.mod_mod_divide (jahr d) 100 10) in Hy2 by (exists 10; reflexivity).
  rewrite set_time_layout; try assumption.
  - rewrite Hw. reflexivity.
  - rewrite Hw. reflexivity.
Qed.

Lemma set_time_rejects_weekday_zero_witness :
  set_time (frame_result Samples.frame_minute_85) = Fail ValueError.
Proof.
  apply (set_time_rejects_weekday_zero Samples.frame_minute_85
           (mkTime 85 0 0 0 0 0 CEST)).
  - apply is_frameb_spec. vm_compute. reflexivity.
  - vm_compute. reflexivity.
  - reflexivity.
Defined.

End RtcFacts.

(** ** The main loop of the receiver *)

Module MainFacts.

Import Dcf Frame Cycle PyFacts DcfFacts Receiver ReceiverFacts Rtc RtcFacts MainLoop.
Local Open Scope list_scope.

Lemma detect_from_exact (p : list Z) :
  forall c r,
    0 <= c ->
    detect_from c (p ++ repeat 0 20) = None ->
    detect_from c (p ++ repeat 0 21 ++ r) = Some r.
Proof.
  induction p as [|v p IH]; intros c r Hc H.
  - cbn [app] in *.
    assert (c = 0).
    { destruct (Z.eq_dec c 0) as [E|E]; [exact E|exfalso].
      destruct (Z_lt_le_dec c breakat) as [L|L].
      - destruct (detect_from_zeros 20 c [] Hc) as [rest' E'].
        + unfold breakat. lia.
        + exact L.
        + rewrite app_nil_r in E'. congruence.
      - cbn [repeat detect_from Z.eqb] in H. unfold breakat in *.
        destruct (Z.leb_spec 21 (c + 1)); [discriminate H | lia]. }
    subst c. reflexivity.
  - cbn [app detect_from] in *. unfold breakat in *.
    destruct (v =? 0).
    + destruct (Z.leb_spec 21 (c + 1)); [discriminate H|].
      apply IH; [lia | exact H].
    + cbn [Z.leb Z.compare] in *. apply IH; [lia | exact H].
Qed.

(** X7. One turn of the main loop on a clean minute: after the first gap
    of 21 zero readings, the clean signal of a 59-bit frame either fails
    the checks, and then neither the chip nor the minute hand is touched;
    or decodes with weekday 0, and then [rtc.set_time] raises [ValueError]
    before any pulse; or decodes with a weekday from 1 to 7, and then the
    chip gets the register image of the decoded time and the minute hand
    one pulse, recorded with the time string and the flipped phases. *)
Theorem main_turn_clean_minute (p t rest : list Z) (ab : bool * bool) :
  detectNewMinute (p ++ repeat 0 20) = None ->
  is_frame t ->
  main_turn (p ++ repeat 0 21 ++ Samples.signal_of t ++ rest) ab
  = match decode t with
    | None => RadioFail ab
    | Some d =>
        if wochentag d =? 0 then Raised ValueError
        else ClockSet (registers d)
                      (pulseminute (radiotime_of d) (fst ab) (snd ab))
                      (negb (fst ab), fst ab)
    end.
Proof.
  intros G Ft. unfold main_turn, detectNewMinute in *.
  rewrite (detect_from_exact p 0 _ ltac:(lia) G).
  pose proof Ft as [L B].
  pose proof (run_signal t [] rest B) as R.
  unfold computeTime, init. change (repeat 0 samples) with zeros.
  cbn [List.length app] in R. change (Z.of_nat 0) with 0 in R.
  rewrite R; [| intros E; rewrite E in L; discriminate L | exact L].
  destruct (decode t) as [d|] eqn:D.
  - pose proof (fields_bounded t d B D) as Rg.
    assert (F : frame_result t = radiotime_of d).
    { unfold frame_result. rewrite D. reflexivity. }
    assert (N : String.eqb (frame_result t) failed = false).
    { apply String.eqb_neq. rewrite F. apply radiotime_not_failed.
      destruct Rg as (_ & H & _). exact H. }
    rewrite N. cbn [negb].
    destruct (Z.eqb_spec (wochentag d) 0) as [W|W].
    + assert (S : set_time (frame_result t) = Fail ValueError).
      { rewrite F, (radiotime_layout d Rg).
        destruct Rg as (Hmi & Hh & Hd & _ & Hmo & Hy).
        destruct (tens_units (minute d) ltac:(lia)) as [? ?].
        destruct (tens_units (stunde d) ltac:(lia)) as [? ?].
        destruct (tens_units (tag d) ltac:(lia)) as [? ?].
        destruct (tens_units (monat d) ltac:(lia)) as [? ?].
        destruct (tens_units (jahr d mod 100)
                    ltac:(apply Z.mod_pos_bound; lia)) as [? Hy2].
        rewrite (Z.mod_mod_divide (jahr d) 100 10) in Hy2 by (exists 10; reflexivity).
        rewrite set_time_layout; try assumption; rewrite W; reflexivity. }
      rewrite S. reflexivity.
    + destruct Rg as (_ & _ & _ & Hw & _).
      rewrite (set_time_registers t d B D ltac:(lia)).
      rewrite F. unfold main_pulse. cbn [returned pulseminute].
      rewrite Bool.negb_involutive. reflexivity.
  - unfold frame_result. rewrite D. reflexivity.
Qed.

Lemma main_turn_clean_minute_witness :
  main_turn ([1; 0; 0; 1] ++ repeat 0 21
             ++ Samples.signal_of Samples.frame_may_24 ++ [0; 1]) (true, false)
  = ClockSet [0; 69; 19; 2; 36; 5; 33]
             (pulseminute "13:45:00,Monday,2021-05-24" true false)
             (false, true).
Proof.
  rewrite (main_turn_clean_minute [1; 0; 0; 1] Samples.frame_may_24 [0; 1]).
  - vm_compute. reflexivity.
  - vm_compute. reflexivity.
  - apply is_frameb_spec. vm_compute. reflexivity.
Defined.

End MainFacts.

(** ** Time strings, records and the control panel *)

Module PanelFacts.

Import Clock Cycle PyFacts ClockFacts Panel.
Local Open Scope clock_scope.
Local Open Scope list_scope.

(** *** Reading back what was written *)

(** X8. Time strings round trip: the string the code formats for hour
    [h] (0-23) and minute [m] (0-59) unpacks to [h] and [m]; its pulse
    index is [(h mod 12) * 60 + m], a number from 0 to 719, the same for
    the hour twelve hours later. *)
Theorem time_string_round_trip (h m : Z) :
  0 <= h < 24 -> 0 <= m < 60 ->
  unpack_hm (hm h m) = Ok (h, m)
  /\ pulsessince12 (hm h m) = Ok ((h mod 12) * 60 + m)
  /\ 0 <= (h mod 12) * 60 + m < 720
  /\ (h < 12 -> pulsessince12 (hm (h + 12) m) = pulsessince12 (hm h m)).
Proof.
  intros Hh Hm.
  pose proof (unpack_hm_hm h m Hh Hm) as U.
  split; [exact U|].
  split; [apply (pulsessince12_unpack _ _ _ U)|].
  split; [apply (index_of_range h m Hm)|].
  intros H12.
  rewrite (pulsessince12_unpack _ _ _ U).
  rewrite (pulsessince12_unpack _ _ _ (unpack_hm_hm (h + 12) m ltac:(lia) Hm)).
  unfold index_of.
  replace (h + 12) with (h + 1 * 12) by ring. rewrite Z.mod_add by lia.
  reflexivity.
Qed.

Lemma time_string_round_trip_witness :
  pulsessince12 (hm 15 15) = pulsessince12 (hm 3 15).
Proof.
  destruct (time_string_round_trip 3 15) as (_ & _ & _ & H); [lia | lia |].
  apply H. lia.
Defined.

(** X9. Records round trip: the line [pulsetoclock] writes for any pulse
    index and phase pair is read back by [calcoffset] as the same time
    string and the same phases, and stands for the index modulo 720. *)
Theorem record_round_trip (p : Z) (a b : bool) (fr : option string) (l : list event) :
  parse_record (record_line (hm_of p) a b) = Ok (hm_of p, a, b)
  /\ persisted_index (mkWorld (Some (record_line (hm_of p) a b)) fr l)
     = Some (p mod half_day)
  /\ persisted_phases (mkWorld (Some (record_line (hm_of p) a b)) fr l)
     = Some (a, b).
Proof.
  pose proof (parse_record_hm_of p a b) as P.
  split; [exact P|].
  unfold persisted_index, persisted_phases. cbn [lastpulseat].
  rewrite P. cbn [rbind]. rewrite pulsessince12_hm_of. split; reflexivity.
Qed.

Lemma pulsessince12_strip (s : string) : pulsessince12 (strip s) = pulsessince12 s.
Proof.
  unfold pulsessince12, strip. rewrite split_rstrip, split_lstrip.
  destruct (split ":" s) as [|p0 [|p1 [|p2 r]]]; cbn [map_last].
  - reflexivity.
  - reflexivity.
  - rewrite int_lstrip, int_rstrip. reflexivity.
  - rewrite int_lstrip.
    destruct r; reflexivity.
Qed.

(** X10. White space around a time string never changes how it is read:
    [sync_clock] validates the text of the form as it comes, [calcoffset]
    reads the baseline stripped, and both see the same hour and minute
    (or the same error). *)
Theorem strip_does_not_change_reading (s : string) :
  unpack_hm (strip s) = unpack_hm s
  /\ pulsessince12 (strip s) = pulsessince12 s
  /\ check_time (strip s) = check_time s.
Proof.
  split; [apply unpack_hm_strip|].
  split; [apply pulsessince12_strip|].
  unfold check_time. rewrite unpack_hm_strip. reflexivity.
Qed.


(** *** Errors *)

Lemma grouped_digits_err (s : string) (e : exn) :
  grouped_digits s = Err e -> e = ValueError.
Proof.
  unfold grouped_digits, nonempty_digits.
  destruct (ungroup false s) as [t|]; [destruct t; [|destruct (digits_val 0 _)]|];
    intros E; first [discriminate E | injection E as <-; reflexivity].
Qed.

Lemma int_err (s : string) (e : exn) : int s = Err e -> e = ValueError.
Proof.
  unfold int.
  destruct (strip s) as [|c r]; [apply grouped_digits_err|].
  assert (G : rbind (grouped_digits r) (fun v => Ok (- v)) = Err e -> e = ValueError).
  { destruct (grouped_digits r) as [v|e'] eqn:D; cbn [rbind]; [discriminate|].
    intros E. injection E as <-. apply (grouped_digits_err _ _ D). }
  destruct c as [[] [] [] [] [] [] [] []];
    first [exact G | apply grouped_digits_err].
Qed.

Lemma unpack_hm_err (s : string) (e : exn) : unpack_hm s = Err e -> e = ValueError.
Proof.
  unfold unpack_hm.
  destruct (split ":" s) as [|p0 [|p1 [|p2 r]]];
    try (intros E; injection E as <-; reflexivity).
  destruct (int p0) as [h|e0] eqn:E0; cbn [rbind].
  - destruct (int p1) as [m|e1] eqn:E1; cbn [rbind].
    + discriminate.
    + intros E. injection E as <-. apply (int_err _ _ E1).
  - intros E. injection E as <-. apply (int_err _ _ E0).
Qed.

Lemma pulsessince12_err (s : string) (e : exn) :
  pulsessince12 s = Err e -> e = ValueError.
Proof.
  unfold pulsessince12.
  destruct (split ":" s) as [|p0 [|p1 r]];
    try (intros E; injection E as <-; reflexivity).
  destruct (int p0) as [h|e0] eqn:E0; cbn [rbind].
  - destruct (int p1) as [m|e1] eqn:E1; cbn [rbind].
    + discriminate.
    + intros E. injection E as <-. apply (int_err _ _ E1).
  - intros E. injection E as <-. apply (int_err _ _ E0).
Qed.

Lemma parse_record_err (c : string) (e : exn) :
  parse_record c = Err e -> e = ValueError.
Proof.
  unfold parse_record.
  destruct (split _ (strip c)) as [|p0 [|p1 [|p2 [|p3 r]]]];
    intros E; first [discriminate E | injection E as <-; reflexivity].
Qed.

(** X11. [pulsetoclock] drives the motor before it reads the time: on a
    time string of plain text that is not exactly two integers around one
    colon it drives and releases the pulse, persists nothing and raises
    [ValueError], so the hand is one minute ahead of the record.  (Plain
    text, where [int] means the same to every interpreter: the statement
    draws a conclusion from a string that [int] refuses.) *)
Theorem pulsetoclock_unreadable_time (last_hm : string) (a b : bool)
        (e : exn) (w : world) :
  plain last_hm = true ->
  unpack_hm last_hm = Err e ->
  pulsetoclock last_hm a b w
  = (Err ValueError,
     mkWorld (lastpulseat w) (firstruntime w)
             (log w ++ [Drive (negb a) (negb b); Release])).
Proof.
  intros _ U. rewrite (unpack_hm_err _ _ U) in U.
  apply pulsetoclock_err. exact U.
Qed.

Lemma pulsetoclock_unreadable_time_witness :
  pulsetoclock "03:15:00" false true Samples.first_run
  = (Err ValueError, mkWorld None (Some "03:15"%string) [Drive true false; Release]).
Proof.
  apply (pulsetoclock_unreadable_time "03:15:00" false true ValueError).
  - reflexivity.
  - reflexivity.
Defined.

(** *** Many pulses *)

Lemma flipped_succ (n : nat) (a : bool) : flipped n (negb a) = flipped (S n) a.
Proof.
  unfold flipped. rewrite Nat.even_succ, <- Nat.negb_even.
  destruct (Nat.even n), a; reflexivity.
Qed.

Lemma pulse_loop_state (n : nat) :
  forall (w : world) (last_hm : string) (a b : bool) (h m : Z),
    unpack_hm last_hm = Ok (h, m) ->
    exists w',
      pulse_loop (S n) (last_hm, a, b) w
      = (Ok (hm_of (index_of h m + Z.of_nat (S n)), flipped (S n) a, flipped (S n) b), w')
      /\ lastpulseat w'
         = Some (record_line (hm_of (index_of h m + Z.of_nat (S n)))
                             (flipped (S n) a) (flipped (S n) b))
      /\ firstruntime w' = firstruntime w
      /\ pulses (log w') = (pulses (log w) + S n)%nat.
Proof.
  induction n as [|n IH]; intros w last_hm a b h m U.
  - cbn [pulse_loop]. unfold bind. rewrite (pulsetoclock_ok _ _ _ _ _ _ U).
    exists (pulsed w (index_of h m) a b). unfold ret.
    split; [reflexivity|]. split; [reflexivity|]. split; [reflexivity|].
    unfold pulsed. cbn [log]. rewrite pulses_app, pulses_pulse_events. reflexivity.
  - change (pulse_loop (S (S n)) (last_hm, a, b))
      with (bind (pulsetoclock last_hm a b) (fun st' => pulse_loop (S n) st')).
    unfold bind at 1. rewrite (pulsetoclock_ok _ _ _ _ _ _ U).
    set (lp := index_of h m).
    destruct (hm_of_fields (lp + 1)) as (_ & _ & I').
    destruct (IH (pulsed w lp a b) _ (negb a) (negb b) _ _ (unpack_hm_of (lp + 1)))
      as (w' & Hrun & Hrec & Hfr & Hn).
    rewrite I' in Hrun, Hrec.
    assert (C : hm_of ((lp + 1) mod half_day + Z.of_nat (S n))
                = hm_of (lp + Z.of_nat (S (S n)))).
    { apply hm_of_congr. unfold half_day.
      rewrite Zplus_mod_idemp_l. f_equal. lia. }
    rewrite C, !(flipped_succ (S n)) in Hrun, Hrec.
    exists w'. split; [exact Hrun|]. split; [exact Hrec|].
    split; [rewrite Hfr; reflexivity|].
    rewrite Hn. unfold pulsed. cbn [log].
    rewrite pulses_app, pulses_pulse_events. lia.
Qed.

(** X12. After [n >= 1] pulses in a row from a readable time string the
    state in memory and the persisted record agree: the time of index
    [lp + n], both phases flipped [n] times. The dial is a cycle of 720:
    720 pulses from the time string of any index bring back the same
    string and the same phases. *)
Theorem pulse_loop_advances (n : nat) (w : world) (last_hm : string)
        (a b : bool) (h m : Z) :
  unpack_hm last_hm = Ok (h, m) ->
  n <> O ->
  (exists w',
      pulse_loop n (last_hm, a, b) w
      = (Ok (hm_of (index_of h m + Z.of_nat n), flipped n a, flipped n b), w')
      /\ lastpulseat w'
         = Some (record_line (hm_of (index_of h m + Z.of_nat n))
                             (flipped n a) (flipped n b))
      /\ pulses (log w') = (pulses (log w) + n)%nat)
  /\ (exists w',
         pulse_loop 720 (hm_of (index_of h m), a, b) w
         = (Ok (hm_of (index_of h m), a, b), w')
         /\ lastpulseat w' = Some (record_line (hm_of (index_of h m)) a b)).
Proof.
  intros U Hn. split.
  - destruct n as [|n]; [contradiction|].
    destruct (pulse_loop_state n w last_hm a b h m U) as (w' & H1 & H2 & _ & H3).
    exists w'. split; [exact H1|]. split; [exact H2 | exact H3].
  - set (p := index_of h m).
    destruct (hm_of_fields p) as (_ & _ & I).
    destruct (pulse_loop_state 719 w (hm_of p) a b _ _ (unpack_hm_of p))
      as (w' & H1 & H2 & _ & _).
    rewrite I in H1, H2.
    assert (C : hm_of (p mod half_day + Z.of_nat 720) = hm_of p).
    { apply hm_of_congr. unfold half_day.
      rewrite Zplus_mod_idemp_l.
      change (Z.of_nat 720) with (1 * 720). apply Z.mod_add. discriminate. }
    rewrite C in H1, H2.
    change (flipped 720 a) with a in H1, H2.
    change (flipped 720 b) with b in H1, H2.
    exists w'. split; [exact H1 | exact H2].
Qed.

Lemma pulse_loop_advances_witness :
  exists w',
    pulse_loop 2 ("11:59"%string, false, true) Samples.blank
    = (Ok (hm_of (index_of 11 59 + 2), false, true), w').
Proof.
  destruct (pulse_loop_advances 2 Samples.blank "11:59" false true 11 59)
    as ((w' & H & _) & _).
  - reflexivity.
  - discriminate.
  - exists w'. exact H.
Defined.

Lemma unreadable_raises (c cur : string) (now : clock_reading) (w : world) :
  lastpulseat w = Some c ->
  persisted_index w = None ->
  calcoffset cur w = (Err ValueError, w)
  /\ clock_loop_body now w = (Err ValueError, w).
Proof.
  intros Hc Hp.
  assert (G : forall s, calcoffset s w = (Err ValueError, w)).
  { intros s. unfold persisted_index in Hp. rewrite Hc in Hp.
    unfold calcoffset, bind, try_, load_state, bind, read_lastpulseat, lift, ret, raise.
    rewrite Hc.
    destruct (parse_record c) as [[[last_hm a] b]|e] eqn:P; cbn [rbind] in Hp.
    - destruct (pulsessince12 last_hm) as [lp|e] eqn:L; [discriminate Hp|].
      rewrite (pulsessince12_err _ _ L). reflexivity.
    - rewrite (parse_record_err _ _ P). reflexivity. }
  split; [apply G|].
  unfold clock_loop_body, bind. rewrite G. reflexivity.
Qed.

(** X13. A record that cannot be read is not replaced by the baseline:
    when [lastpulseat.txt] exists and holds plain text, but not three
    tab-separated fields with a readable time, [calcoffset] raises
    [ValueError] and leaves both files alone, and so does an iteration of
    the clock loop, without a pulse.  (Plain text, where [strip] and [int]
    mean the same to every interpreter.) *)
Theorem calcoffset_unreadable_record (c cur : string) (now : clock_reading)
        (w : world) :
  lastpulseat w = Some c ->
  plain c = true ->
  persisted_index w = None ->
  calcoffset cur w = (Err ValueError, w)
  /\ clock_loop_body now w = (Err ValueError, w).
Proof.
  intros Hc _ Hp. exact (unreadable_raises c cur now w Hc Hp).
Qed.

Lemma calcoffset_unreadable_record_witness :
  calcoffset "03:16" (mkWorld (Some "03:15"%string) (Some "03:15"%string) [])
  = (Err ValueError, mkWorld (Some "03:15"%string) (Some "03:15"%string) []).
Proof.
  apply (calcoffset_unreadable_record "03:15" "03:16" (3, 16)).
  - reflexivity.
  - reflexivity.
  - reflexivity.
Defined.

(** *** What the bootstrap leaves behind *)

Lemma split_app_sep (sep : ascii) (x y : string) :
  split sep (x ++ String sep y) = split sep x ++ split sep y.
Proof.
  induction x as [|c x IH]; cbn [append split].
  - rewrite Ascii.eqb_refl. reflexivity.
  - destruct (Ascii.eqb c sep).
    + rewrite IH. reflexivity.
    + rewrite IH. pose proof (split_nonempty sep x) as NE.
      destruct (split sep x) as [|q qs]; [contradiction|]. reflexivity.
Qed.

Lemma split_no_tab (s : string) :
  has_tab s = false -> split (ascii_of_nat 9) s = [s].
Proof.
  induction s as [|c s IH]; cbn [has_tab split]; intros H.
  - reflexivity.
  - apply orb_false_elim in H. destruct H as [Hc Hs].
    rewrite Hc, (IH Hs). reflexivity.
Qed.

Lemma split_with_tab (s : string) :
  has_tab s = true -> (2 <= List.length (split (ascii_of_nat 9) s))%nat.
Proof.
  induction s as [|c s IH]; cbn [has_tab split]; intros H.
  - discriminate H.
  - pose proof (split_nonempty (ascii_of_nat 9) s) as NE.
    destruct (Ascii.eqb c (ascii_of_nat 9)) eqn:Ec.
    + destruct (split (ascii_of_nat 9) s); [contradiction|]. cbn [List.length]. lia.
    + cbn [orb] in H. specialize (IH H).
      destruct (split (ascii_of_nat 9) s) as [|q qs]; [contradiction|].
      cbn [List.length] in *. lia.
Qed.

Lemma lstrip_head (s : string) (a : ascii) (r : string) :
  lstrip s = String a r -> is_space a = false.
Proof.
  induction s as [|c s IH]; cbn [lstrip].
  - discriminate.
  - destruct (is_space c) eqn:E; [exact IH|].
    intros H. injection H as <- _. exact E.
Qed.

Lemma strip_head (s : string) (a : ascii) (r : string) :
  strip s = String a r -> is_space a = false.
Proof.
  unfold strip. destruct (lstrip s) as [|c t] eqn:L.
  - discriminate.
  - pose proof (lstrip_head s c t L) as Hc.
    cbn [rstrip]. rewrite Hc. cbn [andb]. intros H. injection H as <- _. exact Hc.
Qed.

Lemma rstrip_app (x y : string) :
  rstrip y <> EmptyString -> rstrip (x ++ y) = (x ++ rstrip y)%string.
Proof.
  intros Hy. induction x as [|c x IH]; cbn [append rstrip].
  - reflexivity.
  - rewrite IH.
    destruct (String.eqb_spec (x ++ rstrip y) "") as [E|E].
    + exfalso. destruct x; cbn [append] in E; [contradiction | discriminate E].
    + rewrite Bool.andb_false_r. reflexivity.
Qed.

(** The record line of a stripped, non-empty time string is left alone by
    [strip], and splits at the tabs of the string and at its own two. *)
Lemma record_line_fields (s : string) (a b : bool) :
  s <> EmptyString ->
  strip s = s ->
  split (ascii_of_nat 9) (strip (record_line s a b))
  = split (ascii_of_nat 9) s ++ [str_bool a; str_bool b].
Proof.
  intros Hne Hs.
  destruct s as [|c r] eqn:Es; [contradiction|]. rewrite <- Es in *.
  assert (Hc : is_space c = false).
  { apply (strip_head s c r). rewrite Hs. exact Es. }
  assert (St : strip (record_line s a b) = record_line s a b).
  { unfold strip, record_line.
    assert (L : lstrip (s ++ tab ++ str_bool a ++ tab ++ str_bool b)
                = (s ++ tab ++ str_bool a ++ tab ++ str_bool b)%string).
    { rewrite Es. cbn [append lstrip]. rewrite Hc. reflexivity. }
    rewrite L. rewrite rstrip_app.
    - destruct a, b; reflexivity.
    - destruct a, b; discriminate. }
  rewrite St. unfold record_line, tab.
  change (String (ascii_of_nat 9) "" ++ str_bool a
          ++ String (ascii_of_nat 9) "" ++ str_bool b)%string
    with (String (ascii_of_nat 9) (str_bool a ++ String (ascii_of_nat 9) (str_bool b))).
  rewrite !split_app_sep.
  destruct a, b; reflexivity.
Qed.

Lemma strip_idem (s : string) : strip (strip s) = strip s.
Proof.
  unfold strip. rewrite lstrip_rstrip, lstrip_idem, rstrip_idem. reflexivity.
Qed.

Lemma pulsessince12_nonempty (s : string) (p : Z) :
  pulsessince12 s = Ok p -> s <> EmptyString.
Proof.
  intros H E. subst s. discriminate H.
Qed.

(** X14. What the bootstrap persists can be read back exactly when the
    stripped baseline holds no tab: then a second [calcoffset] returns the
    same offset, time and phases and writes nothing; with a tab inside
    (white space that [int] tolerates next to the digits) the record has
    too many fields, and the second [calcoffset] raises [ValueError]. *)
Theorem bootstrap_record_read_back (cur c : string) (cp lp : Z) (w : world) :
  lastpulseat w = None ->
  firstruntime w = Some c ->
  pulsessince12 (strip c) = Ok lp ->
  pulsessince12 cur = Ok cp ->
  let w1 := snd (calcoffset cur w) in
  (has_tab (strip c) = false ->
   calcoffset cur w1 = (Ok (Some (cp - lp, strip c, false, true)), w1))
  /\ (has_tab (strip c) = true -> calcoffset cur w1 = (Err ValueError, w1)).
Proof.
  intros Hl Hf Hp Hcur w1.
  unfold w1. rewrite (calcoffset_bootstrap cur cp lp w c Hl Hf Hp Hcur). cbn [snd].
  pose proof (record_line_fields (strip c) false true
                (pulsessince12_nonempty _ _ Hp) (strip_idem c)) as F.
  unfold calcoffset, bind, try_, load_state, bind, read_lastpulseat, lift, ret, raise.
  cbn [lastpulseat]. unfold parse_record. rewrite F.
  split; intros T.
  - rewrite (split_no_tab _ T). cbn [app str_bool lower String.eqb].
    change (String.eqb (lower "False") "true") with false.
    change (String.eqb (lower "True") "true") with true.
    rewrite Hp, Hcur. reflexivity.
  - pose proof (split_with_tab _ T) as L.
    destruct (split (ascii_of_nat 9) (strip c)) as [|q [|q' qs]];
      cbn [List.length] in L; try lia.
    destruct qs as [|q2 [|q3 qs]]; reflexivity.
Qed.

Lemma bootstrap_record_read_back_witness :
  let tabbed := String "3" (String (ascii_of_nat 9) ":15") in
  let w1 := snd (calcoffset "03:16" (mkWorld None (Some tabbed) [])) in
  calcoffset "03:16" w1 = (Err ValueError, w1).
Proof.
  intros tabbed w1.
  destruct (bootstrap_record_read_back "03:16" tabbed 196 195
              (mkWorld None (Some tabbed) [])) as (_ & H).
  - reflexivity.
  - reflexivity.
  - reflexivity.
  - reflexivity.
  - apply H. reflexivity.
Defined.

(** *** [sync_clock] on every request *)

Lemma sync_clock_not_ahead (new : string) (h m : Z) (now : clock_reading)
      (w : world) :
  new <> ""%string ->
  unpack_hm new = Ok (h, m) ->
  0 <= h < 24 -> 0 <= m < 60 ->
  reading_ok now ->
  index_of (fst now) (snd now) - index_of h m <= 0 ->
  sync_clock (Some new) now w
  = (Ok (Page (strip new)),
     mkWorld (Some (record_line (strip new) false true)) (Some new)
       (log w
        ++ (Baseline new
            :: match lastpulseat w with Some _ => [Forget] | None => [] end)
        ++ [Persist (record_line (strip new) false true)])).
Proof.
  intros Hne U Hh Hm R Hk.
  pose proof (check_time_ok new h m U Hh Hm) as Hc.
  pose proof (pulsessince12_now now R) as Hcur.
  assert (Us : unpack_hm (strip new) = Ok (h, m)).
  { rewrite unpack_hm_strip. exact U. }
  pose proof (pulsessince12_unpack _ _ _ Us) as Hp.
  rewrite (sync_clock_accepted new now w Hne Hc).
  set (w1 := mkWorld None (Some new) _).
  pose proof (calcoffset_bootstrap _ _ _ w1 new eq_refl eq_refl Hp Hcur) as C.
  unfold catch_up. unfold bind at 1. rewrite C.
  set (w2 := mkWorld (Some _) _ _).
  assert (W2 : w2 = mkWorld (Some (record_line (strip new) false true)) (Some new)
                      (log w
                       ++ (Baseline new
                           :: match lastpulseat w with
                              | Some _ => [Forget]
                              | None => []
                              end)
                       ++ [Persist (record_line (strip new) false true)])).
  { unfold w2, w1. cbn [log]. rewrite <- app_assoc. reflexivity. }
  destruct (Z.eqb_spec (index_of (fst now) (snd now) - index_of h m) 0) as [E|E];
    cbn [negb].
  - unfold bind, ret. rewrite index_ok. rewrite <- W2. reflexivity.
  - rewrite Z.max_l by lia. cbn [Z.to_nat pulse_loop].
    unfold bind, ret. rewrite index_ok. rewrite <- W2. reflexivity.
Qed.

(** X15. [sync_clock] raises nothing, whatever the form holds: for a
    form field of plain text, any stored state and any reading of the
    clock, either it answers 400 and leaves the world untouched (no time,
    or a time that is not two integers [h:m] with [0 <= h < 24] and
    [0 <= m < 60]), or the time is accepted and, the files being written
    as they are in this store, it answers with the page, the baseline file
    holds the text of the form and a record is persisted.  (The two
    answers 500 of the source need a write that fails or a baseline that
    is gone after it was written; the store of [world] has neither.) *)
Theorem sync_clock_always_answers (initial_time : option string)
        (now : clock_reading) (w : world) :
  reading_ok now ->
  (forall new, initial_time = Some new -> plain new = true) ->
  (exists msg, sync_clock initial_time now w = (Ok (Status 400 msg), w)
               /\ (initial_time = None \/ initial_time = Some ""%string
                   \/ exists new e, initial_time = Some new
                                    /\ check_time new = Err e))
  \/ (exists new w',
         initial_time = Some new
         /\ check_time new = Ok tt
         /\ sync_clock initial_time now w = (Ok (Page (strip new)), w')
         /\ firstruntime w' = Some new
         /\ lastpulseat w' <> None).
Proof.
  intros R _.
  destruct initial_time as [new|].
  2:{ left. eexists. split; [reflexivity|]. left. reflexivity. }
  destruct (String.eqb_spec new "") as [E|Hne].
  { subst new. left. eexists. split; [reflexivity|]. right. left. reflexivity. }
  destruct (check_time new) as [[]|e] eqn:Hc.
  2:{ left. eexists. split.
      - unfold sync_clock. destruct new; [contradiction|]. rewrite Hc. reflexivity.
      - right. right. exists new, e. split; [reflexivity | exact Hc]. }
  right. exists new.
  assert (U : exists h m, unpack_hm new = Ok (h, m) /\ 0 <= h < 24 /\ 0 <= m < 60).
  { unfold check_time in Hc. destruct (unpack_hm new) as [[h m]|]; [|discriminate Hc].
    cbn [rbind] in Hc. exists h, m. split; [reflexivity|].
    destruct (Z.leb_spec 0 h); [|discriminate Hc].
    destruct (Z.ltb_spec h 24); [|discriminate Hc].
    destruct (Z.leb_spec 0 m); [|discriminate Hc].
    destruct (Z.ltb_spec m 60); [|discriminate Hc]. lia. }
  destruct U as (h & m & U & Hh & Hm).
  destruct (Z_lt_le_dec 0 (index_of (fst now) (snd now) - index_of h m)) as [Hk|Hk].
  - pose proof (pulsessince12_now now R) as Hcur.
    assert (Us : unpack_hm (strip new) = Ok (h, m)).
    { rewrite unpack_hm_strip. exact U. }
    pose proof (pulsessince12_unpack _ _ _ Us) as Hp.
    set (w1 := mkWorld None (Some new)
                 (log w ++ Baseline new
                    :: match lastpulseat w with Some _ => [Forget] | None => [] end)).
    pose proof (calcoffset_bootstrap _ _ _ w1 new eq_refl eq_refl Hp Hcur) as C.
    destruct (catch_up_from now w1 _ _ (strip new) false true h m C Us Hk)
      as (w' & Hrun & Hfr & _ & Hidx).
    exists w'. split; [reflexivity|]. split; [exact Hc|].
    rewrite (sync_clock_accepted new now w Hne Hc). fold w1.
    split; [exact Hrun|]. split; [exact Hfr|].
    unfold persisted_index in Hidx. intros N. rewrite N in Hidx. discriminate Hidx.
  - eexists. split; [reflexivity|]. split; [exact Hc|].
    split; [apply (sync_clock_not_ahead new h m now w Hne U Hh Hm R Hk)|].
    split; [reflexivity | discriminate].
Qed.

Lemma sync_clock_always_answers_witness :
  exists msg, sync_clock (Some "24:00"%string) (3, 16) Samples.at_0500
              = (Ok (Status 400 msg), Samples.at_0500).
Proof.
  destruct (sync_clock_always_answers (Some "24:00"%string) (3, 16) Samples.at_0500)
    as [(msg & H & _)|(new & w' & E & C & _)].
  - split; cbn; lia.
  - intros new E. injection E as <-. reflexivity.
  - exists msg. exact H.
  - injection E as <-. discriminate C.
Defined.

(** X16. A baseline that is not behind the clock: [sync_clock] stores it,
    removes the old record, persists the baseline as the pulse state and
    applies no pulse. *)
Theorem sync_clock_baseline_not_behind (new : string) (h m : Z)
        (now : clock_reading) (w : world) :
  new <> ""%string ->
  unpack_hm new = Ok (h, m) ->
  0 <= h < 24 -> 0 <= m < 60 ->
  reading_ok now ->
  index_of (fst now) (snd now) - index_of h m <= 0 ->
  exists w',
    sync_clock (Some new) now w = (Ok (Page (strip new)), w')
    /\ firstruntime w' = Some new
    /\ lastpulseat w' = Some (record_line (strip new) false true)
    /\ pulses (log w') = pulses (log w).
Proof.
  intros Hne U Hh Hm R Hk.
  eexists. split; [apply (sync_clock_not_ahead new h m now w Hne U Hh Hm R Hk)|].
  split; [reflexivity|]. split; [reflexivity|].
  cbn [log]. rewrite !pulses_app. cbn [pulses].
  destruct (lastpulseat w); cbn [pulses]; lia.
Qed.

Lemma sync_clock_baseline_not_behind_witness :
  exists w',
    sync_clock (Some "05:00"%string) (3, 0) Samples.at_0005 = (Ok (Page "05:00"), w')
    /\ lastpulseat w' = Some (record_line "05:00" false true).
Proof.
  destruct (sync_clock_baseline_not_behind "05:00" 5 0 (3, 0) Samples.at_0005)
    as (w' & H1 & _ & H2 & _).
  - discriminate.
  - reflexivity.
  - lia.
  - lia.
  - split; cbn; lia.
  - vm_compute. discriminate.
  - exists w'. split; [exact H1 | exact H2].
Defined.

(** X17. A baseline that [sync_clock] accepts can stop the clock loop:
    when the text holds a tab next to its digits and is not behind the
    clock, the record [sync_clock] leaves has four fields, and every
    iteration of the clock loop after it raises [ValueError] without a
    pulse. *)
Theorem sync_clock_tab_stops_loop (new : string) (h m : Z)
        (now now' : clock_reading) (w : world) :
  new <> ""%string ->
  unpack_hm new = Ok (h, m) ->
  0 <= h < 24 -> 0 <= m < 60 ->
  has_tab (strip new) = true ->
  reading_ok now ->
  index_of (fst now) (snd now) - index_of h m <= 0 ->
  exists w',
    sync_clock (Some new) now w = (Ok (Page (strip new)), w')
    /\ clock_loop_body now' w' = (Err ValueError, w').
Proof.
  intros Hne U Hh Hm T R Hk.
  pose proof (sync_clock_not_ahead new h m now w Hne U Hh Hm R Hk) as Sy.
  set (w' := mkWorld _ _ _) in Sy.
  exists w'. split; [exact Sy|].
  assert (Hidx : persisted_index w' = None);
    [|exact (proj2 (unreadable_raises (record_line (strip new) false true)
                      EmptyString now' w' eq_refl Hidx))].
  assert (Us : unpack_hm (strip new) = Ok (h, m)).
  { rewrite unpack_hm_strip. exact U. }
  pose proof (pulsessince12_unpack _ _ _ Us) as Hp.
  pose proof (record_line_fields (strip new) false true
                (pulsessince12_nonempty _ _ Hp) (strip_idem new)) as F.
  unfold persisted_index, w'. cbn [lastpulseat]. unfold parse_record. rewrite F.
  pose proof (split_with_tab _ T) as L.
  destruct (split (ascii_of_nat 9) (strip new)) as [|q [|q' qs]];
    cbn [List.length] in L; try lia.
  destruct qs as [|q2 [|q3 qs]]; reflexivity.
Qed.

Lemma sync_clock_tab_stops_loop_witness :
  let tabbed := String "3" (String (ascii_of_nat 9) ":15") in
  exists w',
    sync_clock (Some tabbed) (3, 15) Samples.blank = (Ok (Page tabbed), w')
    /\ clock_loop_body (3, 16) w' = (Err ValueError, w').
Proof.
  intros tabbed.
  apply (sync_clock_tab_stops_loop tabbed 3 15 (3, 15) (3, 16) Samples.blank).
  - discriminate.
  - reflexivity.
  - lia.
  - lia.
  - reflexivity.
  - split; cbn; lia.
  - vm_compute. discriminate.
Defined.

(** X18. A baseline with a third part (seconds, say) is read by
    [calcoffset], which looks at the first two parts only, but not by
    [pulsetoclock], which wants exactly two: on a first run with such a
    baseline and a non-zero offset, an iteration of the clock loop
    persists the baseline, drives one pulse and raises [ValueError]; the
    record still stands for the baseline. *)
Theorem baseline_with_third_part (w : world) (c s t : string) (h m : Z)
        (now : clock_reading) :
  lastpulseat w = None ->
  firstruntime w = Some c ->
  strip c = (s ++ String ":" t)%string ->
  unpack_hm s = Ok (h, m) ->
  reading_ok now ->
  index_of (fst now) (snd now) - index_of h m <> 0 ->
  let init := record_line (strip c) false true in
  calcoffset (now_hm now) w
  = (Ok (Some (index_of (fst now) (snd now) - index_of h m, strip c, false, true)),
     mkWorld (Some init) (Some c) (log w ++ [Persist init]))
  /\ clock_loop_body now w
     = (Err ValueError,
        mkWorld (Some init) (Some c)
                (log w ++ [Persist init; Drive true false; Release])).
Proof.
  intros Hl Hf Hs U R Hk init.
  assert (Sp : split ":" (strip c) = split ":" s ++ split ":" t).
  { rewrite Hs. apply split_app_sep. }
  assert (P : pulsessince12 (strip c) = Ok (index_of h m)).
  { pose proof (pulsessince12_unpack s h m U) as Ps.
    unfold pulsessince12 in *. rewrite Sp.
    unfold unpack_hm in U.
    destruct (split ":" s) as [|p0 [|p1 [|p2 r]]]; try discriminate U.
    exact Ps. }
  assert (Ue : unpack_hm (strip c) = Err ValueError).
  { unfold unpack_hm in *. rewrite Sp.
    pose proof (split_nonempty ":" t) as NE.
    destruct (split ":" s) as [|p0 [|p1 [|p2 r]]]; try discriminate U.
    destruct (split ":" t) as [|q qs]; [contradiction|]. reflexivity. }
  pose proof (calcoffset_bootstrap _ _ _ w c Hl Hf P (pulsessince12_now now R)) as C.
  fold init in C. split; [exact C|].
  unfold clock_loop_body, bind. rewrite C.
  destruct (Z.eqb_spec (index_of (fst now) (snd now) - index_of h m) 0);
    [contradiction|]. cbn [negb].
  rewrite (pulsetoclock_err _ _ _ _ _ Ue). cbn [lastpulseat firstruntime log negb].
  rewrite <- app_assoc. reflexivity.
Qed.

Lemma baseline_with_third_part_witness :
  clock_loop_body (3, 16) (mkWorld None (Some "03:15:00"%string) [])
  = (Err ValueError,
     mkWorld (Some (record_line "03:15:00" false true)) (Some "03:15:00"%string)
       [Persist (record_line "03:15:00" false true); Drive true false; Release]).
Proof.
  destruct (baseline_with_third_part (mkWorld None (Some "03:15:00"%string) [])
              "03:15:00" "03:15" "00" 3 15 (3, 16)) as (_ & H).
  - reflexivity.
  - reflexivity.
  - reflexivity.
  - reflexivity.
  - split; cbn; lia.
  - vm_compute. discriminate.
  - exact H.
Defined.

(** *** The advance buttons *)

Lemma advance_one_from (w : world) (last_hm : string) (a b : bool) (h m : Z) :
  stored w last_hm a b h m ->
  advance_one w = (Ok (Page (shown_base w)), pulsed w (index_of h m) a b).
Proof.
  intros (c & Hc & Hp & Hu).
  unfold advance_one, bind, try_, read_lastpulseat, lift, ret.
  rewrite Hc, Hp. rewrite (pulsetoclock_ok _ _ _ _ _ _ Hu).
  rewrite index_ok. reflexivity.
Qed.

(** X19. [advance_one] drives exactly one pulse whenever the record can
    be split into its three fields or a baseline exists (also when the
    time in it then turns out unreadable and [pulsetoclock] raises); with
    neither it answers 500 and touches nothing. From a readable record it
    moves the persisted index one step on and flips the phases. *)
Theorem advance_one_pulses (w : world) :
  (persisted_phases w <> None \/ firstruntime w <> None ->
   pulses (log (snd (advance_one w))) = S (pulses (log w)))
  /\ (persisted_phases w = None -> firstruntime w = None ->
      advance_one w = (Ok (Status 500 "No baseline to advance."), w))
  /\ (forall last_hm a b h m,
         stored w last_hm a b h m ->
         advance_one w = (Ok (Page (shown_base w)), pulsed w (index_of h m) a b)
         /\ persisted_index (pulsed w (index_of h m) a b)
            = Some ((index_of h m + 1) mod half_day)
         /\ persisted_phases (pulsed w (index_of h m) a b) = Some (negb a, negb b)).
Proof.
  assert (P1 : forall s x y w0,
             pulses (log (snd ((pulsetoclock s x y ;;; index) w0)))
             = S (pulses (log w0))).
  { intros s x y w0. unfold bind.
    pose proof (pulsetoclock_one_pulse s x y w0) as H.
    destruct (pulsetoclock s x y w0) as [[st|e] w1]; cbn [snd] in *.
    - rewrite index_ok. exact H.
    - exact H. }
  split; [|split].
  - unfold persisted_phases, advance_one.
    unfold bind at 1. unfold try_ at 1. unfold bind at 1. unfold read_lastpulseat at 1.
    destruct (lastpulseat w) as [c|].
    + unfold bind at 1. unfold lift at 1.
      destruct (parse_record c) as [[[s x] y]|e].
      * intros _. unfold ret at 1. apply P1.
      * unfold try_, bind, read_firstruntime, ret.
        destruct (firstruntime w) as [f|].
        -- intros _. apply (P1 (strip f) false true w).
        -- intros [H|H]; contradiction.
    + unfold try_, bind, read_firstruntime, ret.
      destruct (firstruntime w) as [f|].
      * intros _. apply (P1 (strip f) false true w).
      * intros [H|H]; contradiction.
  - unfold persisted_phases, advance_one, bind, try_, read_lastpulseat,
      read_firstruntime, lift, ret.
    intros Hp Hf.
    destruct (lastpulseat w) as [c|]; [|rewrite Hf; reflexivity].
    destruct (parse_record c) as [[[s x] y]|e];
      [discriminate Hp | rewrite Hf; reflexivity].
  - intros last_hm a b h m S.
    split; [apply (advance_one_from w last_hm a b h m S)|].
    destruct (persisted_pulsed w (index_of h m) a b) as (_ & H1 & H2).
    split; [exact H1 | exact H2].
Qed.

Lemma advance_one_pulses_witness :
  advance_one Samples.blank = (Ok (Status 500 "No baseline to advance."), Samples.blank)
  /\ pulses (log (snd (advance_one Samples.first_run))) = 1%nat.
Proof.
  destruct (advance_one_pulses Samples.blank) as (_ & H & _).
  destruct (advance_one_pulses Samples.first_run) as (H' & _).
  split.
  - apply H; reflexivity.
  - apply H'. right. discriminate.
Defined.

(** X20. Where [calcoffset] gives up, [advance_one] repairs: on a record
    that cannot be split into three fields it falls back to the baseline
    with the initial phases, pulses once and overwrites the record with a
    readable one. *)
Theorem advance_one_repairs_record (w : world) (c : string) (h m : Z) :
  persisted_phases w = None ->
  firstruntime w = Some c ->
  unpack_hm (strip c) = Ok (h, m) ->
  advance_one w = (Ok (Page (strip c)), pulsed w (index_of h m) false true)
  /\ persisted_index (pulsed w (index_of h m) false true)
     = Some ((index_of h m + 1) mod half_day).
Proof.
  intros Hp Hf U.
  split; [|apply persisted_pulsed].
  unfold persisted_phases in Hp.
  unfold advance_one, bind, try_, read_lastpulseat, read_firstruntime, lift, ret.
  assert (G : pulsetoclock (strip c) false true w
              = (Ok (hm_of (index_of h m + 1), true, false),
                 pulsed w (index_of h m) false true))
    by exact (pulsetoclock_ok (strip c) false true h m w U).
  assert (I : index (pulsed w (index_of h m) false true)
              = (Ok (Page (strip c)), pulsed w (index_of h m) false true)).
  { rewrite index_ok. unfold shown_base, pulsed. cbn [firstruntime].
    rewrite Hf. reflexivity. }
  destruct (lastpulseat w) as [r|].
  - destruct (parse_record r) as [[[s x] y]|e]; [discriminate Hp|].
    rewrite Hf, G, I. reflexivity.
  - rewrite Hf, G, I. reflexivity.
Qed.

Lemma advance_one_repairs_record_witness :
  persisted_index
    (snd (advance_one (mkWorld (Some "garbage"%string) (Some "03:15"%string) [])))
  = Some 196.
Proof.
  destruct (advance_one_repairs_record
              (mkWorld (Some "garbage"%string) (Some "03:15"%string) [])
              "03:15" 3 15) as (H1 & H2).
  - reflexivity.
  - reflexivity.
  - reflexivity.
  - rewrite H1. cbn [snd]. rewrite H2. reflexivity.
Defined.

Lemma advance_times_from (n : nat) :
  forall (w : world) (last_hm : string) (a b : bool) (h m : Z),
    stored w last_hm a b h m ->
    exists w',
      advance_times n w = (Ok tt, w')
      /\ firstruntime w' = firstruntime w
      /\ log w' = log w ++ pulse_events (index_of h m) a b n
      /\ (n <> O ->
          persisted_index w' = Some ((index_of h m + Z.of_nat n) mod half_day)
          /\ persisted_phases w' = Some (flipped n a, flipped n b)).
Proof.
  induction n as [|n IH]; intros w last_hm a b h m S.
  - exists w. cbn [advance_times pulse_events]. unfold ret.
    split; [reflexivity|]. split; [reflexivity|].
    split; [rewrite app_nil_r; reflexivity|]. intros C. contradiction.
  - cbn [advance_times]. unfold bind.
    rewrite (advance_one_from w last_hm a b h m S).
    set (lp := index_of h m) in *.
    destruct (persisted_pulsed w lp a b) as (S' & Pi & Pp).
    destruct (hm_of_fields (lp + 1)) as (_ & _ & I').
    destruct (IH (pulsed w lp a b) _ _ _ _ _ S') as (w' & Hrun & Hfr & Hlog & Hidx).
    exists w'. split; [exact Hrun|].
    split; [rewrite Hfr; reflexivity|].
    split.
    + rewrite Hlog. unfold pulsed. cbn [log pulse_events].
      rewrite <- app_assoc. cbn [app]. rewrite I'.
      rewrite (pulse_events_congr n ((lp + 1) mod half_day) (lp + 1)).
      * reflexivity.
      * unfold half_day. apply Z.mod_mod. discriminate.
    + intros _. destruct n as [|n'].
      * cbn [advance_times] in Hrun. unfold ret in Hrun.
        injection Hrun as <-. split; [exact Pi | exact Pp].
      * destruct (Hidx ltac:(discriminate)) as [H1 H2].
        rewrite H1, H2, I', !flipped_succ. unfold half_day.
        rewrite Zplus_mod_idemp_l. split; [|reflexivity].
        f_equal. f_equal. lia.
Qed.

(** X21. [advance_five] from a readable record: five pulses, each
    followed by its record; the persisted index is five steps on modulo
    720 and the phases end flipped. With no record and no baseline every
    one of its five advances fails, yet it answers with the page, and
    nothing is driven or written. *)
Theorem advance_five_pulses (w : world) (last_hm : string) (a b : bool) (h m : Z) :
  (stored w last_hm a b h m ->
   exists w',
     advance_five w = (Ok (Page (shown_base w)), w')
     /\ log w' = log w ++ pulse_events (index_of h m) a b 5
     /\ persisted_index w' = Some ((index_of h m + 5) mod half_day)
     /\ persisted_phases w' = Some (negb a, negb b))
  /\ (persisted_phases w = None -> firstruntime w = None ->
      advance_five w = (Ok (Page "(not set)"), w)).
Proof.
  split.
  - intros S.
    destruct (advance_times_from 5 w last_hm a b h m S)
      as (w' & Hrun & Hfr & Hlog & Hidx).
    destruct (Hidx ltac:(discriminate)) as [H1 H2].
    exists w'. unfold advance_five, bind. rewrite Hrun, index_ok.
    unfold shown_base. rewrite Hfr.
    split; [reflexivity|]. split; [exact Hlog|]. split; [exact H1 | exact H2].
  - intros Hp Hf.
    assert (A : advance_one w = (Ok (Status 500 "No baseline to advance."), w)).
    { unfold persisted_phases in Hp.
      unfold advance_one, bind, try_, read_lastpulseat, read_firstruntime, lift, ret.
      destruct (lastpulseat w) as [c|]; [|rewrite Hf; reflexivity].
      destruct (parse_record c) as [[[s x] y]|e];
        [discriminate Hp | rewrite Hf; reflexivity]. }
    unfold advance_five. cbn [advance_times]. unfold bind.
    rewrite !A. unfold ret. rewrite index_ok. unfold shown_base. rewrite Hf.
    reflexivity.
Qed.

Lemma advance_five_pulses_witness :
  (exists w', advance_five Samples.at_0005 = (Ok (Page "00:05"), w')
              /\ persisted_index w' = Some 10)
  /\ advance_five Samples.blank = (Ok (Page "(not set)"), Samples.blank).
Proof.
  destruct (advance_five_pulses Samples.at_0005 "00:05" false true 0 5) as (H & _).
  destruct (advance_five_pulses Samples.blank "" false false 0 0) as (_ & H').
  split.
  - destruct H as (w' & H1 & _ & H2 & _).
    + eexists. split; [reflexivity|]. split; vm_compute; reflexivity.
    + exists w'. split; [exact H1 | exact H2].
  - apply H'; reflexivity.
Defined.

(** *** The clock loop over time *)

Lemma clock_loop_app (l1 : list clock_reading) :
  forall l2 w w1,
    clock_loop l1 w = (Ok tt, w1) ->
    clock_loop (l1 ++ l2) w = clock_loop l2 w1.
Proof.
  induction l1 as [|now l1 IH]; intros l2 w w1.
  - cbn [clock_loop app]. unfold ret. intros E. injection E as <-. reflexivity.
  - cbn [clock_loop app]. unfold bind.
    destruct (clock_loop_body now w) as [[[]|e] w0]; [|discriminate].
    apply IH.
Qed.

Lemma clock_loop_in_step (n : nat) (now : clock_reading) (w : world)
      (last_hm : string) (a b : bool) (h m : Z) :
  stored w last_hm a b h m ->
  reading_ok now ->
  index_of (fst now) (snd now) = index_of h m ->
  clock_loop (repeat now n) w = (Ok tt, w).
Proof.
  intros S R E. induction n as [|n IH]; cbn [repeat clock_loop].
  - reflexivity.
  - unfold bind. rewrite (clock_loop_body_stored _ _ _ _ _ _ _ S R).
    rewrite E, Z.sub_diag. cbn [Z.eqb]. exact IH.
Qed.

Lemma next_minute_table :
  forallb (fun h => forallb (next_minute_check h) (range 60)) (range 24) = true.
Proof. vm_compute. reflexivity. Qed.

Lemma next_minute_index (now : clock_reading) :
  reading_ok now ->
  reading_ok (next_minute now)
  /\ index_of (fst (next_minute now)) (snd (next_minute now))
     = (index_of (fst now) (snd now) + 1) mod half_day.
Proof.
  destruct now as [h m]. intros [Hh Hm]. cbn [fst snd] in Hh, Hm.
  pose proof (range_forall _ 24 next_minute_table h Hh) as T. cbv beta in T.
  pose proof (range_forall _ 60 T m Hm) as T'. unfold next_minute_check in T'.
  repeat (apply andb_prop in T'; destruct T' as [T' ?]).
  unfold reading_ok, index_of, half_day.
  split; [lia|]. apply Z.eqb_eq. assumption.
Qed.

(** X22. In step with the clock the loop costs one pulse a minute, however
    often it runs: from a record that stands for the current reading, the
    loop run [k + 1] times in each of the next [n] minutes applies exactly
    [n] pulses, each followed by its record, and ends in step with the
    last reading, also across twelve o'clock, where the raw offset is
    -719. *)
Theorem clock_loop_keeps_step (n k : nat) :
  forall (now : clock_reading) (w : world) (last_hm : string) (a b : bool) (h m : Z),
    stored w last_hm a b h m ->
    reading_ok now ->
    index_of (fst now) (snd now) = index_of h m ->
    exists w',
      clock_loop (ticks now k n) w = (Ok tt, w')
      /\ log w' = log w ++ pulse_events (index_of h m) a b n
      /\ persisted_index w' = Some ((index_of h m + Z.of_nat n) mod half_day).
Proof.
  induction n as [|n IH]; intros now w last_hm a b h m S R E.
  - exists w. cbn [ticks clock_loop pulse_events]. unfold ret.
    split; [reflexivity|]. split; [rewrite app_nil_r; reflexivity|].
    destruct (stored_index _ _ _ _ _ _ S) as [P _]. rewrite P, Z.add_0_r.
    f_equal. symmetry. apply Z.mod_small. rewrite <- E.
    apply (index_of_range (fst now) (snd now) (proj2 R)).
  - set (lp := index_of h m) in *.
    assert (Hlp : 0 <= lp < half_day).
    { rewrite <- E. apply (index_of_range (fst now) (snd now) (proj2 R)). }
    destruct (next_minute_index now R) as [R' I]. rewrite E in I.
    destruct (persisted_pulsed w lp a b) as (S' & Pi & _).
    destruct (hm_of_fields (lp + 1)) as (_ & _ & I').
    assert (Step : clock_loop_body (next_minute now) w = (Ok tt, pulsed w lp a b)).
    { rewrite (clock_loop_body_stored _ _ _ _ _ _ _ S R'). fold lp. rewrite I.
      destruct (Z.eqb_spec ((lp + 1) mod half_day - lp) 0) as [Z0|Z0]; [|reflexivity].
      exfalso. unfold half_day in *.
      pose proof (Z.div_mod (lp + 1) 720 ltac:(lia)).
      pose proof (Z.mod_pos_bound (lp + 1) 720 ltac:(lia)). lia. }
    assert (Rest : clock_loop (repeat (next_minute now) k) (pulsed w lp a b)
                   = (Ok tt, pulsed w lp a b)).
    { apply (clock_loop_in_step k (next_minute now) _ _ _ _ _ _ S' R').
      rewrite I, I'. reflexivity. }
    destruct (IH (next_minute now) (pulsed w lp a b) _ _ _ _ _ S' R')
      as (w' & Hrun & Hlog & Hidx).
    { rewrite I, I'. reflexivity. }
    exists w'. split.
    + cbn [ticks repeat app clock_loop]. unfold bind. rewrite Step.
      rewrite (clock_loop_app _ _ _ _ Rest). exact Hrun.
    + split.
      * rewrite Hlog. unfold pulsed. cbn [log pulse_events].
        rewrite <- app_assoc. cbn [app]. rewrite I'.
        rewrite (pulse_events_congr n ((lp + 1) mod half_day) (lp + 1)).
        -- reflexivity.
        -- unfold half_day. apply Z.mod_mod. discriminate.
      * rewrite Hidx, I'. unfold half_day.
        rewrite Zplus_mod_idemp_l. f_equal. f_equal. lia.
Qed.

Lemma clock_loop_keeps_step_witness :
  exists w',
    clock_loop (ticks (11, 58) 2 3) (mkWorld (Some (record_line "11:58" false true)) None [])
    = (Ok tt, w')
    /\ persisted_index w' = Some 1.
Proof.
  destruct (clock_loop_keeps_step 3 2 (11, 58)
              (mkWorld (Some (record_line "11:58" false true)) None [])
              "11:58" false true 11 58) as (w' & H1 & _ & H2).
  - eexists. split; [reflexivity|]. split; vm_compute; reflexivity.
  - split; cbn; lia.
  - reflexivity.
  - exists w'. split; [exact H1 | exact H2].
Defined.

Lemma body_at_most_one (now : clock_reading) (w : world) :
  (pulses (log (snd (clock_loop_body now w))) <= S (pulses (log w)))%nat.
Proof.
  pose proof (calcoffset_no_pulse (now_hm now) w) as N.
  unfold clock_loop_body, bind.
  destruct (calcoffset (now_hm now) w) as [[[[[[off last_hm] a] b]|]|e] w1];
    cbn [snd] in N.
  - pose proof (pulsetoclock_one_pulse last_hm a b w1) as P1.
    destruct (negb (off =? 0)).
    + destruct (pulsetoclock last_hm a b w1) as [[st|e] w2];
        unfold ret; cbn [snd] in *; lia.
    + unfold ret. cbn [snd]. lia.
  - unfold ret. cbn [snd]. lia.
  - cbn [snd]. lia.
Qed.

(** X23. However the readings and the stored state look, the clock loop
    never applies more pulses than it ran iterations: a deficit of [d]
    minutes takes at least [d] iterations to close. This holds for every
    world, also when an iteration raises. *)
Theorem clock_loop_pulse_rate (nows : list clock_reading) :
  forall w,
    (pulses (log (snd (clock_loop nows w))) <= pulses (log w) + List.length nows)%nat.
Proof.
  induction nows as [|now nows IH]; intros w; cbn [clock_loop List.length].
  - unfold ret. cbn [snd]. lia.
  - unfold bind. pose proof (body_at_most_one now w) as B.
    destruct (clock_loop_body now w) as [[[]|e] w1]; cbn [snd] in *.
    + specialize (IH w1). lia.
    + lia.
Qed.

End PanelFacts.

(** ** Setting the clock from the network *)

Module NetFacts.

Import Cycle PyFacts Net.

Lemma int_four (y : Z) : 0 <= y < 10000 -> int (four y) = Ok y.
Proof.
  intros H.
  pose proof (range_forall four_check (Z.to_nat 10000)
                ltac:(vm_compute; reflexivity) y ltac:(lia)) as C.
  unfold four_check in C. destruct (int (four y)) as [v|]; [|discriminate C].
  apply Z.eqb_eq in C. subst v. reflexivity.
Qed.

Lemma int_pair (n : Z) : 0 <= n < 100 -> int (pair n) = Ok n.
Proof.
  intros H.
  pose proof (range_forall pair_check 100 ltac:(vm_compute; reflexivity) n H) as C.
  unfold pair_check in C. destruct (int (pair n)) as [v|]; [|discriminate C].
  apply Z.eqb_eq in C. subst v. reflexivity.
Qed.

Lemma parse_stamp (y mo d h mi s : Z) (c1 c2 c3 c4 c5 : ascii) (rest : string) :
  0 <= y < 10000 -> 0 <= mo < 100 -> 0 <= d < 100 ->
  0 <= h < 100 -> 0 <= mi < 100 -> 0 <= s < 100 ->
  parse_local_time (stamp y mo d h mi s c1 c2 c3 c4 c5 rest)
  = Ok [y; mo; d; 0; h; mi; s; 0].
Proof.
  intros Hy Hmo Hd Hh Hmi Hs.
  unfold parse_local_time.
  assert (C1 : cut (stamp y mo d h mi s c1 c2 c3 c4 c5 rest) 0 4 = four y) by reflexivity.
  assert (C2 : cut (stamp y mo d h mi s c1 c2 c3 c4 c5 rest) 5 7 = pair mo) by reflexivity.
  assert (C3 : cut (stamp y mo d h mi s c1 c2 c3 c4 c5 rest) 8 10 = pair d) by reflexivity.
  assert (C4 : cut (stamp y mo d h mi s c1 c2 c3 c4 c5 rest) 11 13 = pair h) by reflexivity.
  assert (C5 : cut (stamp y mo d h mi s c1 c2 c3 c4 c5 rest) 14 16 = pair mi) by reflexivity.
  assert (C6 : cut (stamp y mo d h mi s c1 c2 c3 c4 c5 rest) 17 19 = pair s)
    by (destruct rest; reflexivity).
  rewrite C1, C2, C3, C4, C5, C6.
  rewrite (int_four y Hy), (int_pair mo Hmo), (int_pair d Hd), (int_pair h Hh),
    (int_pair mi Hmi), (int_pair s Hs).
  reflexivity.
Qed.

Lemma wait_wifi_bounds (conn : nat -> bool) (left : nat) :
  forall k retries,
    let r := wait_wifi conn k retries left in
    (snd r <= retries + left)%nat
    /\ (fst r = S (k + (snd r - retries)))%nat
    /\ (retries <= snd r)%nat
    /\ (conn (fst r - 1)%nat = false -> snd r = (retries + left)%nat)
    /\ (forall j, (k <= j < fst r - 1)%nat -> conn j = false).
Proof.
  induction left as [|left IH]; intros k retries; cbn [wait_wifi].
  - destruct (conn k) eqn:E; cbn [fst snd];
      replace (S k - 1)%nat with k by lia;
      repeat split; try lia; try (intros; lia).
  - destruct (conn k) eqn:E.
    + cbn [fst snd]. replace (S k - 1)%nat with k by lia.
      repeat split; try lia; try (intros; lia).
      intros H. congruence.
    + specialize (IH (S k) (S retries)). cbv zeta in IH.
      destruct IH as (I1 & I2 & I3 & I4 & I5).
      repeat split; try lia.
      * intros H. rewrite (I4 H). lia.
      * intros j Hj. destruct (Nat.eq_dec j k) as [->|N]; [exact E|].
        apply I5. lia.
Qed.

(** X24. [set_time] waits for the Wi-Fi a bounded time: it sleeps at most
    ten times two seconds and asks [isconnected] at most twelve times
    (exactly ten and twelve when the Wi-Fi never comes up).  It returns
    [True] only when its last poll found the Wi-Fi connected and all six
    numbers of the time stamp were read, and the tuple it gave the clock
    is made of them.  With the Wi-Fi down, without an answer, or with an
    answer of plain text in which one of the six numbers cannot be read,
    it returns [False] and leaves the clock alone. *)
Theorem set_time_gives_up (n : net) :
  let o := set_time n in
  (sleeps o <= 10)%nat
  /\ (polls o <= 12)%nat
  /\ (returned o = true ->
      isconnected n (polls o - 1) = true
      /\ exists dt t, currentLocalTime n = Some dt
                      /\ parse_local_time dt = Ok t
                      /\ datetime o = Some t)
  /\ (isconnected n (polls o - 1) = false ->
      returned o = false /\ datetime o = None)
  /\ (currentLocalTime n = None ->
      returned o = false /\ datetime o = None)
  /\ (forall dt e,
         currentLocalTime n = Some dt -> plain dt = true ->
         parse_local_time dt = Err e ->
         returned o = false /\ datetime o = None)
  /\ ((forall k, isconnected n k = false) ->
      o = mkOutcome false None 12 10).
Proof.
  unfold set_time.
  pose proof (wait_wifi_bounds (isconnected n) 10 0 0) as B. cbv zeta in B.
  destruct (wait_wifi (isconnected n) 0 0 10) as [k retries].
  cbn [fst snd] in B. destruct B as (B1 & B2 & _ & B4 & _).
  assert (Never : (forall j, isconnected n j = false) ->
                  isconnected n k = false /\ k = 11%nat /\ retries = 10%nat).
  { intros H. split; [apply H|]. rewrite (B4 (H _)) in *. lia. }
  destruct (isconnected n k) eqn:Ck; cbn [negb].
  - assert (N : ~ (forall j, isconnected n j = false)).
    { intros H. rewrite H in Ck. discriminate Ck. }
    destruct (currentLocalTime n) as [dt|].
    + destruct (parse_local_time dt) as [t|e] eqn:P;
        cbn [sleeps polls returned datetime];
        replace (S k - 1)%nat with k by lia.
      * split; [lia|]. split; [lia|].
        split; [intros _; split; [exact Ck|]; exists dt, t; repeat split; assumption|].
        split; [intros H; rewrite H in Ck; discriminate Ck|].
        split; [discriminate|].
        split; [intros dt' e' E _ P'; injection E as <-; congruence|].
        intros H. contradiction.
      * split; [lia|]. split; [lia|].
        split; [discriminate|].
        split; [intros _; split; reflexivity|].
        split; [intros _; split; reflexivity|].
        split; [intros; split; reflexivity|].
        intros H. contradiction.
    + cbn [sleeps polls returned datetime].
      split; [lia|]. split; [lia|].
      split; [discriminate|].
      split; [intros _; split; reflexivity|].
      split; [intros _; split; reflexivity|].
      split; [intros; split; reflexivity|].
      intros H. contradiction.
  - cbn [sleeps polls returned datetime].
    replace (S k - 1)%nat with k by lia.
    split; [lia|]. split; [lia|].
    split; [discriminate|].
    split; [intros _; split; reflexivity|].
    split; [intros _; split; reflexivity|].
    split; [intros; split; reflexivity|].
    intros H. destruct (Never H) as (_ & -> & ->). reflexivity.
Qed.

(** X25. From a time stamp of the usual layout, four digits of year and
    two each of month, day, hour, minute and second, with any single
    characters between them and anything after the seconds, a connected
    [set_time] gives [RTC().datetime] the tuple (year, month, day, 0,
    hour, minute, second, 0) and returns [True]. *)
Theorem set_time_reads_stamp (n : net) (y mo d h mi s : Z)
        (c1 c2 c3 c4 c5 : ascii) (rest : string) :
  isconnected n 0%nat = true ->
  isconnected n 1%nat = true ->
  currentLocalTime n = Some (stamp y mo d h mi s c1 c2 c3 c4 c5 rest) ->
  0 <= y < 10000 -> 0 <= mo < 100 -> 0 <= d < 100 ->
  0 <= h < 100 -> 0 <= mi < 100 -> 0 <= s < 100 ->
  set_time n = mkOutcome true (Some [y; mo; d; 0; h; mi; s; 0]) 2 0.
Proof.
  intros C0 C1 T Hy Hmo Hd Hh Hmi Hs.
  unfold set_time. cbn [wait_wifi]. rewrite C0, C1, T. cbn [negb].
  rewrite (parse_stamp y mo d h mi s c1 c2 c3 c4 c5 rest Hy Hmo Hd Hh Hmi Hs).
  reflexivity.
Qed.

Lemma set_time_reads_stamp_witness :
  set_time (mkNet (fun _ => true) (Some "2025-06-01T07:05:09.1234567"%string))
  = mkOutcome true (Some [2025; 6; 1; 0; 7; 5; 9; 0]) 2 0.
Proof.
  apply (set_time_reads_stamp _ 2025 6 1 7 5 9 "-" "-" "T" ":" ":" ".1234567");
    first [reflexivity | lia].
Defined.

End NetFacts.
